(** * path_planner: the Executive planning loop and the anytime A* planner

    A shallow embedding of [src/executive/executive.cpp] and of
    [AStarPlanner::plan] / [AStarPlanner::aStar], with the properties the
    specification states about them.

    Conventions.
    - A C++ [double] is an exact rational ([Q]): rounding is not modelled.
      The one place where an IEEE special value decides a branch (a
      division whose divisor can be zero) is written out.  A property
      that would turn on the last bit of a quotient or of a product is
      stated with room for it.
    - A C++ [int] has 32 bits; the one conversion from [double] to [int]
      is given its range.
    - Classes whose source is not part of the translated files
      ([State], [RibbonManager], [DubinsPlan], [Vertex], [Map], the
      publisher) appear either as small records modelled from the
      specification or as fields of a collaborator class.
    - Calls to collaborators that only produce output (logging,
      visualisation, publication) are recorded as events of a trace. *)

From Stdlib Require Import QArith Qround Qabs ZArith List String Bool Lia Lqa Arith.
Import ListNotations.

Open Scope Q_scope.

(** ** Numbers *)

(** [a / b <= c] on doubles, [c] finite.  For [b = 0] IEEE division gives
    an infinity with the sign of [a] (or NaN for [a = 0]), and
    [-inf <= c] is the only such comparison that holds.  The quotient is
    the exact one: where [a / b] is within rounding of [c] the code may
    decide the other way. *)
Definition double_div_le (a b c : Q) : bool :=
  if Qeq_bool b 0 then negb (Qle_bool 0 a)
  else Qle_bool (a / b) c.

(** The range of the 32-bit [int]. *)
Definition INT_MIN : Z := (-2147483648)%Z.
Definition INT_MAX : Z := 2147483647%Z.

(** [(int) q]: conversion to integer truncates toward zero.  When the
    truncated value is out of the range of [int] the conversion is
    undefined in C++; the model takes what the conversion instruction of
    the x86-64 build gives there, [INT_MIN]. *)
Definition double_to_int (q : Q) : Z :=
  let z := if Qle_bool 0 q then Qfloor q else Qceiling q in
  if (INT_MIN <=? z)%Z && (z <=? INT_MAX)%Z then z else INT_MIN.

(** ** State *)

Record State := mkState {
  State_x : Q;
  State_y : Q;
  State_heading : Q;
  State_speed : Q;
  State_time : Q
}.

(** Modelled from the spec: the default-constructed [State] is the
    sentinel the loop tests with [startState.time() == -1]; the class
    [State] is not among the translated files. *)
Definition State_default : State := mkState 0 0 0 0 (-1).

(** ** RibbonManager *)

Inductive Heuristic :=
| MaxDistance
| TspPointRobotNoSplitAllRibbons
| TspPointRobotNoSplitKRibbons
| TspDubinsNoSplitAllRibbons
| TspDubinsNoSplitKRibbons.

Record Ribbon := mkRibbon {
  Ribbon_x1 : Q; Ribbon_y1 : Q; Ribbon_x2 : Q; Ribbon_y2 : Q
}.

(** Modelled from the spec: [RibbonManager] (its source is not among the
    translated files) is an ordered collection of uncovered ribbons plus
    a chosen heuristic; the constructor used by [clearRibbons] takes the
    heuristic, a turning radius and [k]. *)
Record RibbonManager := mkRibbonManager {
  m_Heuristic : Heuristic;
  m_TurningRadius : Q;
  m_K : Z;
  m_Ribbons : list Ribbon
}.

Definition setHeuristic (h : Heuristic) (rm : RibbonManager) : RibbonManager :=
  mkRibbonManager h (m_TurningRadius rm) (m_K rm) (m_Ribbons rm).

(** Modelled from the spec: [done()] holds when the collection is empty. *)
Definition RibbonManager_done (rm : RibbonManager) : bool :=
  match m_Ribbons rm with
  | [] => true
  | _ :: _ => false
  end.

(** ** Planner state machine *)

Inductive PlannerState := Inactive | Running | Cancelled.

Definition PlannerState_eqb (a b : PlannerState) : bool :=
  match a, b with
  | Inactive, Inactive | Running, Running | Cancelled, Cancelled => true
  | _, _ => false
  end.

(** ** Collaborators

    The classes below stand for the parts of the repository whose source
    is not among the translated files.  The code under verification is
    parametric in them. *)

(** Constants declared in [executive.h]. *)
Class Constants := {
  c_PlanningTimeSeconds : Q;
  c_CoverageHeadingRateMax : Q;
  c_RadiusShrinkAmount : Q;
  c_ReusePlanEnabled : bool;
  c_RadiusShrinkEnabled : bool
}.

(** Geometry, ribbons, plans and maps. *)
Class Collaborators := {
  DubinsPath : Type;
  Map : Type;
  DynamicObstaclesManager : Type;
  State_push : State -> Q -> State;
  State_isCoLocated : State -> State -> bool;
  RibbonManager_cover : Q -> Q -> RibbonManager -> RibbonManager;
  RibbonManager_coverBetween :
    Q -> Q -> Q -> Q -> RibbonManager -> RibbonManager;
  DubinsPlan_changeIntoSuffix : Q -> list DubinsPath -> list DubinsPath;
  DubinsPlan_sample : list DubinsPath -> State -> State;
  DubinsPlan_getHalfSecondSamples : list DubinsPath -> list State;
(** Map constructors; [None] stands for a constructor that throws. *)
  GeoTiffMap : string -> Q -> Q -> option Map;
  GridWorldMap : string -> option Map
}.

(** Modelled from the spec: a [DubinsPlan] is an ordered sequence of
    Dubins paths, [empty()] tests that sequence and [DubinsPlan()] is the
    empty sequence; the class is not among the translated files. *)
Definition DubinsPlan {C : Collaborators} := list DubinsPath.

Definition DubinsPlan_empty {C : Collaborators} (p : DubinsPlan) : bool :=
  match p with [] => true | _ :: _ => false end.

Section PlannerConfig.
Context {C : Collaborators}.

Record PlannerConfig := mkPlannerConfig {
    maxSpeed : Q;
    turningRadius : Q;
    coverageTurningRadius : Q;
    branchingFactor : Z;
    obstacles : DynamicObstaclesManager;
    map : option Map;
    startStateTime : Q
  }.

Definition setMaxSpeed v (c : PlannerConfig) :=
    mkPlannerConfig v (turningRadius c) (coverageTurningRadius c)
                    (branchingFactor c) (obstacles c) (map c)
                    (startStateTime c).
Definition setTurningRadius v (c : PlannerConfig) :=
    mkPlannerConfig (maxSpeed c) v (coverageTurningRadius c)
                    (branchingFactor c) (obstacles c) (map c)
                    (startStateTime c).
Definition setCoverageTurningRadius v (c : PlannerConfig) :=
    mkPlannerConfig (maxSpeed c) (turningRadius c) v
                    (branchingFactor c) (obstacles c) (map c)
                    (startStateTime c).
Definition setBranchingFactor v (c : PlannerConfig) :=
    mkPlannerConfig (maxSpeed c) (turningRadius c) (coverageTurningRadius c)
                    v (obstacles c) (map c) (startStateTime c).
Definition setObstacles v (c : PlannerConfig) :=
    mkPlannerConfig (maxSpeed c) (turningRadius c) (coverageTurningRadius c)
                    (branchingFactor c) v (map c) (startStateTime c).
Definition setMap v (c : PlannerConfig) :=
    mkPlannerConfig (maxSpeed c) (turningRadius c) (coverageTurningRadius c)
                    (branchingFactor c) (obstacles c) v (startStateTime c).
Definition setStartStateTime v (c : PlannerConfig) :=
    mkPlannerConfig (maxSpeed c) (turningRadius c) (coverageTurningRadius c)
                    (branchingFactor c) (obstacles c) (map c) v.
End PlannerConfig.

(** What a call of [planner->plan] can do: return a plan, throw a
    [std::exception] (with its [what()]), or throw something else. *)
Inductive PlanOutcome {C : Collaborators} :=
| Returned (plan : DubinsPlan)
| ThrowsStd (what : string)
| ThrowsUnknown.

(** The publisher, the planner behind the [Planner] interface and the
    scheduler, as the planning loop sees them.  Every read of the clock
    has an index; [getTime n] is the [n]-th reading. *)
Class Runtime {C : Collaborators} := {
  getTime : nat -> Q;
(** does [m_MapMutex.try_lock()] succeed at this point of the run *)
  mapMutex_try_lock : nat -> bool;
(** [planner->plan(...)], entered after [n] clock readings: its outcome
      and the number of readings it makes *)
  planner_plan : RibbonManager -> State -> PlannerConfig -> DubinsPlan -> Q ->
                 nat -> PlanOutcome * nat;
(** [publishPlan(plan)]: the state the controller committed to *)
  publishPlan : DubinsPlan -> nat -> State
}.

(** [make_shared<Map>()]: the empty map [startPlanner] installs when none
    has been set. *)
Class MapFactory {C : Collaborators} := {
  Map_default : Map
}.

(** ** Executive *)

Module Executive.

Section Definitions.
Context {K : Constants} {C : Collaborators}.

(** The members of [Executive] the translated functions read or write,
    with the process-wide ribbon width ([RibbonManager::setRibbonWidth]). *)
Record Executive := mkExecutive {
    m_PlannerConfig : PlannerConfig;
    m_RibbonManager : RibbonManager;
    m_DynamicObstaclesManager : DynamicObstaclesManager;
    m_NewMap : option Map;
    m_CurrentMapPath : string;
    m_PlannerState : PlannerState;
    m_LastState : State;
    m_LastHeading : Q;
    m_LastUpdateTime : Q;
    m_RadiusShrink : Q;
    s_RibbonWidth : Q
  }.

Definition with_PlannerConfig v (e : Executive) :=
    mkExecutive v (m_RibbonManager e) (m_DynamicObstaclesManager e)
                (m_NewMap e) (m_CurrentMapPath e) (m_PlannerState e)
                (m_LastState e) (m_LastHeading e) (m_LastUpdateTime e)
                (m_RadiusShrink e) (s_RibbonWidth e).
Definition with_RibbonManager v (e : Executive) :=
    mkExecutive (m_PlannerConfig e) v (m_DynamicObstaclesManager e)
                (m_NewMap e) (m_CurrentMapPath e) (m_PlannerState e)
                (m_LastState e) (m_LastHeading e) (m_LastUpdateTime e)
                (m_RadiusShrink e) (s_RibbonWidth e).
Definition with_NewMap v (e : Executive) :=
    mkExecutive (m_PlannerConfig e) (m_RibbonManager e)
                (m_DynamicObstaclesManager e)
                v (m_CurrentMapPath e) (m_PlannerState e)
                (m_LastState e) (m_LastHeading e) (m_LastUpdateTime e)
                (m_RadiusShrink e) (s_RibbonWidth e).
Definition with_CurrentMapPath v (e : Executive) :=
    mkExecutive (m_PlannerConfig e) (m_RibbonManager e)
                (m_DynamicObstaclesManager e)
                (m_NewMap e) v (m_PlannerState e)
                (m_LastState e) (m_LastHeading e) (m_LastUpdateTime e)
                (m_RadiusShrink e) (s_RibbonWidth e).
Definition with_PlannerState v (e : Executive) :=
    mkExecutive (m_PlannerConfig e) (m_RibbonManager e)
                (m_DynamicObstaclesManager e)
                (m_NewMap e) (m_CurrentMapPath e) v
                (m_LastState e) (m_LastHeading e) (m_LastUpdateTime e)
                (m_RadiusShrink e) (s_RibbonWidth e).
Definition with_LastUpdate (s : State) (h t : Q) (e : Executive) :=
    mkExecutive (m_PlannerConfig e) (m_RibbonManager e)
                (m_DynamicObstaclesManager e)
                (m_NewMap e) (m_CurrentMapPath e) (m_PlannerState e)
                s h t
                (m_RadiusShrink e) (s_RibbonWidth e).
Definition with_RadiusShrink v (e : Executive) :=
    mkExecutive (m_PlannerConfig e) (m_RibbonManager e)
                (m_DynamicObstaclesManager e)
                (m_NewMap e) (m_CurrentMapPath e) (m_PlannerState e)
                (m_LastState e) (m_LastHeading e) (m_LastUpdateTime e)
                v (s_RibbonWidth e).
Definition with_RibbonWidth v (e : Executive) :=
    mkExecutive (m_PlannerConfig e) (m_RibbonManager e)
                (m_DynamicObstaclesManager e)
                (m_NewMap e) (m_CurrentMapPath e) (m_PlannerState e)
                (m_LastState e) (m_LastHeading e) (m_LastUpdateTime e)
                (m_RadiusShrink e) v.

(** *** Events: what the code sends to its output-only collaborators *)

Inductive Event :=
  | Log (msg : string)                       (* a line on [cerr] *)
  | LogDivergence (actual expected : State)  (* the diagnostic diff *)
  | AllDone
  | DisplayRibbons (rm : RibbonManager)
  | DisplayTrajectory (samples : list State) (isNew : bool)
  | PublishPlan (plan : DubinsPlan)
  | SleepFor (milliseconds : Z).

(** *** [Executive::updateCovered] *)

Definition updateCovered (x y speed heading t : Q) (e : Executive)
    : Executive :=
    let e1 :=
      if double_div_le (m_LastHeading e - heading) (m_LastUpdateTime e)
                       c_CoverageHeadingRateMax
      then with_RibbonManager (RibbonManager_cover x y (m_RibbonManager e)) e
      else e in
    with_LastUpdate (mkState x y heading speed t) heading t e1.

(** *** [Executive::cancelPlanner] *)

Definition cancelPlanner (e : Executive) : Executive :=
    if PlannerState_eqb (m_PlannerState e) Running
    then with_PlannerState Cancelled e
    else e.

(** *** [Executive::terminate] *)

Definition terminate (e : Executive) : Executive := cancelPlanner e.

(** *** [Executive::clearRibbons] and [Executive::setConfiguration] *)

Definition clearRibbons (e : Executive) : Executive :=
    with_RibbonManager
      (mkRibbonManager TspPointRobotNoSplitKRibbons
                       (turningRadius (m_PlannerConfig e)) 2 [])
      e.

Definition setConfiguration (turningRadius' coverageTurningRadius' maxSpeed'
                               lineWidth : Q) (k heuristic : Z)
                              (e : Executive) : Executive * list Event :=
    let cfg := setMaxSpeed maxSpeed' (m_PlannerConfig e) in
    let cfg := setTurningRadius turningRadius' cfg in
    let cfg := setCoverageTurningRadius coverageTurningRadius' cfg in
    let e := with_PlannerConfig cfg e in
    let e := with_RibbonWidth lineWidth e in
    let e := with_PlannerConfig (setBranchingFactor k (m_PlannerConfig e)) e in
    let pick h := (with_RibbonManager (setHeuristic h (m_RibbonManager e)) e,
                   []) in
    match heuristic with
    | 0%Z => pick MaxDistance
    | 1%Z => pick TspPointRobotNoSplitAllRibbons
    | 2%Z => pick TspPointRobotNoSplitKRibbons
    | 3%Z => pick TspDubinsNoSplitAllRibbons
    | 4%Z => pick TspDubinsNoSplitKRibbons
    | _ => (e, [Log "Unknown heuristic. Ignoring."])
    end.

(** *** [Executive::refreshMap]: the body of the loader task, which
      runs under [m_MapMutex]. *)

Inductive MapFormat := GeoTiffFormat | GridWorldFormat.

(** [pathToMapFile.find(".map") == -1]: no occurrence of [".map"]
      anywhere in the path selects GeoTIFF. *)
Definition chooseFormat (pathToMapFile : string) : MapFormat :=
    match index 0 ".map" pathToMapFile with
    | None => GeoTiffFormat
    | Some _ => GridWorldFormat
    end.

Definition loadMap (pathToMapFile : string) (latitude longitude : Q)
    : option Map :=
    match chooseFormat pathToMapFile with
    | GeoTiffFormat => GeoTiffMap pathToMapFile longitude latitude
    | GridWorldFormat => GridWorldMap pathToMapFile
    end.

Definition refreshMap (pathToMapFile : string) (latitude longitude : Q)
                        (e : Executive) : Executive * list Event :=
    if String.eqb (m_CurrentMapPath e) pathToMapFile then (e, [])
    else
      match loadMap pathToMapFile latitude longitude with
      | Some m =>
          (with_CurrentMapPath pathToMapFile (with_NewMap (Some m) e), [])
      | None =>
          (with_CurrentMapPath "" (with_NewMap None e),
           [Log ("Encountered an error loading map at path " ++ pathToMapFile
                 ++ "." ++ String (Ascii.ascii_of_nat 10) "Map was not updated.")])
      end.

End Definitions.

(** *** [Executive::planLoop] *)

Section PlanLoop.
Context {K : Constants} {C : Collaborators} {R : Runtime}.

(** Clock readings made so far and what has been sent to the output-only
    collaborators, oldest first. *)
Record World := mkWorld {
  tick : nat;
  trace : list Event
}.

Definition readClock (w : World) : Q * World :=
  (getTime (tick w), mkWorld (S (tick w)) (trace w)).

Definition advance (n : nat) (w : World) : World :=
  mkWorld (tick w + n) (trace w).

Definition emit (evs : list Event) (w : World) : World :=
  mkWorld (tick w) (trace w ++ evs).

(** The variables declared before [while (true)], which persist between
    iterations. *)
Record Locals := mkLocals {
  startState : State;
  plan : DubinsPlan
}.

(** How one pass through the body of [while (true)] ends: at the closing
    brace, at a [break], or with the unknown exception leaving the
    function. *)
Inductive Step :=
| Continue (e : Executive) (w : World) (l : Locals)
| Break (e : Executive) (w : World)
| Rethrown (e : Executive) (w : World).

(** Lines 89-96: the staged map is taken only when the lock is free. *)
Definition takeNewMap (e : Executive) (w : World) : Executive :=
  if mapMutex_try_lock (tick w) then
    let e :=
      match m_NewMap e with
      | Some m => with_PlannerConfig (setMap (Some m) (m_PlannerConfig e)) e
      | None => e
      end in
    with_NewMap None e
  else e.

(** Line 100: the argument of [push]. *)
Definition pushInterval (now : Q) (lastState : State) : Q :=
  now + c_PlanningTimeSeconds - State_time lastState.

(** Lines 98-101. *)
Definition synthesizeStartState (e : Executive) (w : World) (s : State)
  : State * World :=
  if Qeq_bool (State_time s) (-1) then
    let (t, w) := readClock w in
    (State_push (m_LastState e) (pushInterval t (m_LastState e)), w)
  else (s, w).

(** Lines 103-105. *)
Definition previousPlan (s : State) (p : DubinsPlan) : DubinsPlan :=
  let p := if negb c_ReusePlanEnabled then [] else p in
  if negb (DubinsPlan_empty p)
  then DubinsPlan_changeIntoSuffix (State_time s) p
  else p.

(** Lines 108-112. *)
Definition shrinkRadii (e : Executive) : Executive :=
  if c_RadiusShrinkEnabled then
    let cfg := m_PlannerConfig e in
    let cfg := setTurningRadius (turningRadius cfg - c_RadiusShrinkAmount) cfg in
    let cfg := setCoverageTurningRadius
                 (coverageTurningRadius cfg - c_RadiusShrinkAmount) cfg in
    with_RadiusShrink (m_RadiusShrink e + c_RadiusShrinkAmount)
                      (with_PlannerConfig cfg e)
  else e.

(** Lines 158-162. *)
Definition restoreRadii (e : Executive) : Executive :=
  if c_RadiusShrinkEnabled then
    let cfg := m_PlannerConfig e in
    let cfg := setTurningRadius (turningRadius cfg + m_RadiusShrink e) cfg in
    let cfg := setCoverageTurningRadius
                 (coverageTurningRadius cfg + m_RadiusShrink e) cfg in
    with_RadiusShrink 0 (with_PlannerConfig cfg e)
  else e.

(** Line 141. *)
Definition sleepTime (startTime endTime : Q) : Z :=
  if Qle_bool (endTime - startTime) c_PlanningTimeSeconds
  then double_to_int ((c_PlanningTimeSeconds - (endTime - startTime)) * 1000)
  else 0%Z.

(** Lines 139-187: from the end of the [try] statement to the closing
    brace of the loop. *)
Definition afterPlanning (startTime : Q) (e : Executive) (w : World)
                         (startState : State) (plan : DubinsPlan) : Step :=
  let (endTime, w) := readClock w in
  let w := emit [SleepFor (sleepTime startTime endTime);
                 DisplayTrajectory (DubinsPlan_getHalfSecondSamples plan) true]
                w in
  if negb (DubinsPlan_empty plan) then
    let w := emit [PublishPlan plan] w in
    let startState := publishPlan plan (tick w) in
    let expectedStartState := DubinsPlan_sample plan startState in
    if negb (State_isCoLocated startState expectedStartState) then
      let e := restoreRadii e in
      let w := emit [Log "Start state is not along previous plan; did the controller let us know?";
                     LogDivergence startState expectedStartState] w in
      Continue e w (mkLocals startState [])
    else
      let e := with_RadiusShrink (m_RadiusShrink e + c_RadiusShrinkAmount) e in
      Continue e w (mkLocals startState plan)
  else
    let w := emit [Log "Planner returned empty trajectory."] w in
    Continue e w (mkLocals State_default plan).

(** Lines 64-112 end at a [break] or reach the [try] statement with the
    start time of the pass, the start state and the previous plan. *)
Inductive Prepared :=
| Exits (e : Executive) (w : World)
| Plans (startTime : Q) (e : Executive) (w : World) (startState : State)
        (plan : DubinsPlan).

Definition prepare (e : Executive) (w : World) (l : Locals) : Prepared :=
  let (startTime, w) := readClock w in
  if PlannerState_eqb (m_PlannerState e) Cancelled then Exits e w
  else if RibbonManager_done (m_RibbonManager e) then
    Exits e (emit [Log "Finished covering ribbons"; AllDone] w)
  else
    let w := emit [DisplayRibbons (m_RibbonManager e)] w in
    let e := takeNewMap e w in
    let (startState, w) := synthesizeStartState e w (startState l) in
    let plan := previousPlan startState (plan l) in
    let e := shrinkRadii e in
    Plans startTime e w startState plan.

(** Lines 117-127, the body of the [try] block. *)
Definition callPlanner (startTime : Q) (e : Executive) (w : World)
                       (startState : State) (plan : DubinsPlan)
  : PlanOutcome * Executive * World :=
  let e := with_PlannerConfig
             (setObstacles (m_DynamicObstaclesManager e) (m_PlannerConfig e))
             e in
  let ribbonManagerCopy := m_RibbonManager e in
  let ribbonManagerCopy :=
    RibbonManager_coverBetween
      (State_x (m_LastState e)) (State_y (m_LastState e))
      (State_x startState) (State_y startState) ribbonManagerCopy in
  let (t, w) := readClock w in
  let (outcome, readings) :=
    planner_plan ribbonManagerCopy startState (m_PlannerConfig e) plan
                 (startTime + c_PlanningTimeSeconds - t) (tick w) in
  (outcome, e, advance readings w).

(** Lines 114-187: the [try] statement with its handlers, then the rest
    of the pass. *)
Definition planAndPublish (startTime : Q) (e : Executive) (w : World)
                          (startState : State) (plan : DubinsPlan) : Step :=
  let '(outcome, e, w) := callPlanner startTime e w startState plan in
  match outcome with
  | Returned newPlan => afterPlanning startTime e w startState newPlan
  | ThrowsStd what =>
      let w := emit [Log "Exception thrown while planning:"; Log what;
                     Log "Pausing."] w in
      afterPlanning startTime (cancelPlanner e) w startState plan
  | ThrowsUnknown =>
      let w := emit [Log "Unknown exception thrown while planning; pausing"]
                    w in
      Rethrown (cancelPlanner e) w
  end.

(** One pass through the body of [while (true)], lines 64-187. *)
Definition iteration (e : Executive) (w : World) (l : Locals) : Step :=
  match prepare e w l with
  | Exits e w => Break e w
  | Plans startTime e w startState plan =>
      planAndPublish startTime e w startState plan
  end.

(** What [planner->plan] does in a pass, when the pass reaches it. *)
Definition plannerOutcome (e : Executive) (w : World) (l : Locals)
  : option PlanOutcome :=
  match prepare e w l with
  | Exits _ _ => None
  | Plans startTime e w startState plan =>
      Some (fst (fst (callPlanner startTime e w startState plan)))
  end.

(** The previous plan handed to [planner->plan] in a pass, when the pass
    reaches it. *)
Definition previousPlanArgument (e : Executive) (w : World) (l : Locals)
  : option DubinsPlan :=
  match prepare e w l with
  | Exits _ _ => None
  | Plans _ _ _ _ plan => Some plan
  end.

(** The first [n] passes of the loop, stopping early at a [break] or at
    the rethrown exception. *)
Fixpoint passes (n : nat) (e : Executive) (w : World) (l : Locals) : Step :=
  match n with
  | O => Continue e w l
  | S n =>
      match iteration e w l with
      | Continue e w l => passes n e w l
      | Break e w => Break e w
      | Rethrown e w => Rethrown e w
      end
  end.

(** The executive as a pass leaves it, however the pass ends. *)
Definition executiveAfter (st : Step) : Executive :=
  match st with
  | Continue e _ _ => e
  | Break e _ => e
  | Rethrown e _ => e
  end.

(** The trace as a pass leaves it, however the pass ends. *)
Definition worldAfter (st : Step) : World :=
  match st with
  | Continue _ w _ => w
  | Break _ w => w
  | Rethrown _ w => w
  end.

(** What the other entry points write and the loop only reads: the live
    ribbons, the obstacles, the last pose, the map path and the ribbon
    width are the same in both executives. *)
Definition sameInputs (e e' : Executive) : Prop :=
  m_RibbonManager e' = m_RibbonManager e
  /\ m_DynamicObstaclesManager e' = m_DynamicObstaclesManager e
  /\ m_LastState e' = m_LastState e
  /\ m_LastHeading e' = m_LastHeading e
  /\ m_LastUpdateTime e' = m_LastUpdateTime e
  /\ m_CurrentMapPath e' = m_CurrentMapPath e
  /\ s_RibbonWidth e' = s_RibbonWidth e.

(** The settings of [setConfiguration] as far as the loop keeps them:
    speed and branching factor are the same, and the two turning radii
    differ by the same amount. *)
Definition sameSettings (e e' : Executive) : Prop :=
  maxSpeed (m_PlannerConfig e') = maxSpeed (m_PlannerConfig e)
  /\ branchingFactor (m_PlannerConfig e') = branchingFactor (m_PlannerConfig e)
  /\ turningRadius (m_PlannerConfig e')
     - coverageTurningRadius (m_PlannerConfig e')
     == turningRadius (m_PlannerConfig e)
        - coverageTurningRadius (m_PlannerConfig e).

(** How [planLoop] ends: by returning, or with the rethrown exception. *)
Inductive Exit :=
| Returns (e : Executive) (w : World)
| Throws (e : Executive) (w : World).

(** [while (true)] followed by lines 190-192; [None] when [fuel] passes do
    not reach a [break]. *)
Fixpoint loop (fuel : nat) (e : Executive) (w : World) (l : Locals)
  : option Exit :=
  match fuel with
  | O => None
  | S fuel =>
      match iteration e w l with
      | Continue e w l => loop fuel e w l
      | Break e w => Some (Returns (with_PlannerState Inactive e) w)
      | Rethrown e w => Some (Throws e w)
      end
  end.

(** Lines 51-53: the three lines written to [cerr] when the start-up
    wait times out, each ended by a line feed. *)
Definition newline : string := String (Ascii.ascii_of_nat 10) EmptyString.

Definition timedOutMessage : string :=
  ("Planner initialization timed out. Cancel flag is still set." ++ newline
   ++ "I think this happens when there was an error of some kind in the previous planning iteration." ++ newline
   ++ "You're gonna have to restart the planner node if you want to keep using it." ++ newline)%string.

(** [planLoop], with no other thread changing [m_PlannerState] during the
    start-up wait: the wait of lines 48-57 then ends at once when the
    state is not [Cancelled] and times out when it is. *)
Definition planLoop (fuel : nat) (e : Executive) (w : World) : option Exit :=
  let w := emit [Log "Initializing planner"] w in
  if PlannerState_eqb (m_PlannerState e) Cancelled then
    Some (Returns e (emit [Log timedOutMessage] w))
  else
    loop fuel (with_PlannerState Running e) w (mkLocals State_default []).

(** *** [Executive::startPlanner]

    The planning task is run to its end in place of being launched on a
    thread of its own. *)

Definition ensureMap {F : MapFactory} (e : Executive) : Executive :=
  match map (m_PlannerConfig e) with
  | Some _ => e
  | None => with_PlannerConfig (setMap (Some Map_default) (m_PlannerConfig e)) e
  end.

Definition startPlanner {F : MapFactory} (fuel : nat) (e : Executive)
                        (w : World) : option Exit :=
  planLoop fuel (ensureMap e) w.

End PlanLoop.

End Executive.

(** ** The search graph *)

Section SearchGraph.
Context {C : Collaborators}.

(** What an edge is built from: a Dubins path of the previous plan
    ([Vertex::connect(parent, path)]) or a target state with a turning
    radius and the coverage flag
    ([Vertex::connect(parent, state, radius, coverageAllowed)]). *)
Inductive Edge :=
| PathEdge (p : DubinsPath)
| StateEdge (s : State) (radius : Q) (coverageAllowed : bool).

(** The lazily computed true cost of an edge. *)
Inductive EdgeCost :=
| NotComputed
| TrueCost (c : Q)
| Infeasible.

(** Modelled from the spec: a [Vertex] is the root, made by [makeRoot]
    from the start state and the ribbon snapshot, or a child made by
    [connect], holding its parent and its parent edge; the class is not
    among the translated files. *)
Inductive Vertex :=
| Root (s : State) (rm : RibbonManager)
| Child (parent : Vertex) (e : Edge) (cost : EdgeCost).

Definition Vertex_makeRoot (s : State) (rm : RibbonManager) : Vertex :=
  Root s rm.

Definition Vertex_connectPath (parent : Vertex) (p : DubinsPath) : Vertex :=
  Child parent (PathEdge p) NotComputed.

Definition Vertex_connect (parent : Vertex) (s : State) (radius : Q)
                          (coverageAllowed : bool) : Vertex :=
  Child parent (StateEdge s radius coverageAllowed) NotComputed.

Definition Vertex_isRoot (v : Vertex) : bool :=
  match v with Root _ _ => true | Child _ _ _ => false end.

(** [v->parentEdge()->infeasible()] *)
Definition infeasible (v : Vertex) : bool :=
  match v with
  | Child _ _ Infeasible => true
  | _ => false
  end.

(** [startV->state().speed() = maxSpeed] *)
Definition setRootSpeed (speed : Q) (v : Vertex) : Vertex :=
  match v with
  | Root s rm =>
      Root (mkState (State_x s) (State_y s) (State_heading s) speed
                    (State_time s)) rm
  | Child _ _ _ => v
  end.

Record StateGenerator := mkStateGenerator {
  minX : Q; maxX : Q; minY : Q; maxY : Q;
  minSpeed : Q; maxSpeed' : Q;
  seed : Z;
  generatorRibbons : RibbonManager
}.

End SearchGraph.

(** The parts of the planner whose source is not among the translated
    files: the ribbon queries, the cost model, the sample generator, the
    goal test, [expand] and [tracePlan], with the constants of the
    headers and the clock the configuration carries. *)
Class PlannerParts {C : Collaborators} := {
  c_InitialSamples : nat;
  DubinsPlan_timeHorizon : Q;
  (** [m_Config.now()]: the [n]-th reading of the configured clock *)
  nowFn : nat -> Q;
  changeHeuristicIfTooManyRibbons : RibbonManager -> RibbonManager;
  findStatesOnRibbonsOnCircle : RibbonManager -> State -> Q -> list State;
  findNearStatesOnRibbons : RibbonManager -> State -> Q -> list State;
  (** [v->f()] *)
  Vertex_f : Vertex -> Q;
  (** the true cost of the edge from a parent, [None] when infeasible *)
  DubinsEdge_trueCost : PlannerConfig -> Vertex -> Edge -> option Q;
  (** the [n]-th state a generator draws *)
  StateGenerator_generate : StateGenerator -> nat -> State;
  goalCondition : Vertex -> bool;
  (** the children [expand] pushes for a vertex, given the sample pool *)
  expandChildren : PlannerConfig -> list State -> Vertex -> list Vertex;
  tracePlan : Vertex -> bool -> DynamicObstaclesManager -> DubinsPlan
}.

(** ** AStarPlanner *)

Module AStarPlanner.

(** *** Results of code that loops on the clock

    [OutOfFuel]: the bound on loop passes was reached first.
    [EmptyQueue]: [popVertexQueue] was called on an empty queue. *)
Inductive Result (A : Type) :=
| Ok (a : A)
| OutOfFuel
| EmptyQueue.
Arguments Ok {A} a.
Arguments OutOfFuel {A}.
Arguments EmptyQueue {A}.

Section Definitions.
Context {C : Collaborators} {P : PlannerParts}.

Definition Qlt_bool (a b : Q) : bool := negb (Qle_bool b a).

(** Calls the planner makes on its queue, its sample pool, its inner
    search and its output sinks, oldest first. *)
Inductive Call :=
| ClearVertexQueue
| PushVertexQueue (v : Vertex)
| AddSamples (count : nat)
| AStar
| Expand (v : Vertex)
| VisualizeVertex (v : Vertex) (tag : string)
| Output (msg : string)
| OutputCounts (samples expanded iterations : nat).

Record Planner := mkPlanner {
  m_Config : PlannerConfig;
  m_RibbonManager : RibbonManager;
  m_ExpandedCount : nat;
  m_IterationCount : nat;
  m_StartStateTime : Q;
  m_Samples : list State;
  m_BestVertex : option Vertex;
  m_VertexQueue : list Vertex;
  readings : nat;
  calls : list Call
}.

Definition with_Config v (p : Planner) :=
  mkPlanner v (m_RibbonManager p) (m_ExpandedCount p) (m_IterationCount p)
            (m_StartStateTime p) (m_Samples p) (m_BestVertex p)
            (m_VertexQueue p) (readings p) (calls p).
Definition with_RibbonManager v (p : Planner) :=
  mkPlanner (m_Config p) v (m_ExpandedCount p) (m_IterationCount p)
            (m_StartStateTime p) (m_Samples p) (m_BestVertex p)
            (m_VertexQueue p) (readings p) (calls p).
Definition with_ExpandedCount v (p : Planner) :=
  mkPlanner (m_Config p) (m_RibbonManager p) v (m_IterationCount p)
            (m_StartStateTime p) (m_Samples p) (m_BestVertex p)
            (m_VertexQueue p) (readings p) (calls p).
Definition with_IterationCount v (p : Planner) :=
  mkPlanner (m_Config p) (m_RibbonManager p) (m_ExpandedCount p) v
            (m_StartStateTime p) (m_Samples p) (m_BestVertex p)
            (m_VertexQueue p) (readings p) (calls p).
Definition with_StartStateTime v (p : Planner) :=
  mkPlanner (m_Config p) (m_RibbonManager p) (m_ExpandedCount p)
            (m_IterationCount p) v (m_Samples p) (m_BestVertex p)
            (m_VertexQueue p) (readings p) (calls p).
Definition with_Samples v (p : Planner) :=
  mkPlanner (m_Config p) (m_RibbonManager p) (m_ExpandedCount p)
            (m_IterationCount p) (m_StartStateTime p) v (m_BestVertex p)
            (m_VertexQueue p) (readings p) (calls p).
Definition with_BestVertex v (p : Planner) :=
  mkPlanner (m_Config p) (m_RibbonManager p) (m_ExpandedCount p)
            (m_IterationCount p) (m_StartStateTime p) (m_Samples p) v
            (m_VertexQueue p) (readings p) (calls p).
Definition with_VertexQueue v (p : Planner) :=
  mkPlanner (m_Config p) (m_RibbonManager p) (m_ExpandedCount p)
            (m_IterationCount p) (m_StartStateTime p) (m_Samples p)
            (m_BestVertex p) v (readings p) (calls p).
Definition with_readings v (p : Planner) :=
  mkPlanner (m_Config p) (m_RibbonManager p) (m_ExpandedCount p)
            (m_IterationCount p) (m_StartStateTime p) (m_Samples p)
            (m_BestVertex p) (m_VertexQueue p) v (calls p).
Definition record (cs : list Call) (p : Planner) :=
  mkPlanner (m_Config p) (m_RibbonManager p) (m_ExpandedCount p)
            (m_IterationCount p) (m_StartStateTime p) (m_Samples p)
            (m_BestVertex p) (m_VertexQueue p) (readings p) (calls p ++ cs).

(** [now()] *)
Definition now (p : Planner) : Q * Planner :=
  (nowFn (readings p), with_readings (S (readings p)) p).

(** [getVertexComparator]: [v1] comes after [v2] when its [f] is larger. *)
Definition vertexComparator (v1 v2 : Vertex) : bool :=
  Qlt_bool (Vertex_f v2) (Vertex_f v1).

(** *** The vertex queue

    Modelled from the spec: the queue of the base class [Planner] hands
    out the vertex with the best [f], ties broken by insertion order; its
    source is not among the translated files. *)

Definition clearVertexQueue (p : Planner) : Planner :=
  record [ClearVertexQueue] (with_VertexQueue [] p).

Definition pushVertexQueue (v : Vertex) (p : Planner) : Planner :=
  record [PushVertexQueue v] (with_VertexQueue (m_VertexQueue p ++ [v]) p).

Definition vertexQueueEmpty (p : Planner) : bool :=
  match m_VertexQueue p with [] => true | _ :: _ => false end.

(** The best vertex of [v :: q] and the others in insertion order. *)
Fixpoint takeBest (v : Vertex) (q : list Vertex) : Vertex * list Vertex :=
  match q with
  | [] => (v, [])
  | w :: q' =>
      let (b, rest) := takeBest w q' in
      if vertexComparator v b then (b, v :: rest) else (v, w :: q')
  end.

Definition popVertexQueue (p : Planner) : option (Vertex * Planner) :=
  match m_VertexQueue p with
  | [] => None
  | v :: q =>
      let (b, rest) := takeBest v q in
      Some (b, with_VertexQueue rest p)
  end.

(** [computeTrueCost] on the parent edge of a vertex. *)
Definition computeTrueCost (cfg : PlannerConfig) (v : Vertex) : Vertex :=
  match v with
  | Root _ _ => v
  | Child parent e _ =>
      Child parent e
            match DubinsEdge_trueCost cfg parent e with
            | Some c => TrueCost c
            | None => Infeasible
            end
  end.

(** *** The sample pool

    Modelled from the spec: [addSamples(generator, n)] appends the next
    [n] states the generator draws, and [addSamples(generator)] appends
    [c_InitialSamples] more; neither is among the translated files. *)
Definition addSamples (generator : StateGenerator) (count : nat)
                      (p : Planner) : Planner :=
  let drawn := List.map (fun i => StateGenerator_generate generator
                                    (List.length (m_Samples p) + i))
                        (seq 0 count) in
  record [AddSamples count] (with_Samples (m_Samples p ++ drawn) p).

Definition addSamples_more (generator : StateGenerator) (p : Planner)
  : Planner :=
  addSamples generator c_InitialSamples p.

(** Modelled from the spec: [expand(v, obstacles)] pushes the children
    built for [v] and increments the expansion counter. *)
Definition expand (v : Vertex) (p : Planner) : Planner :=
  let p := record [Expand v] p in
  let p := fold_left (fun p c => pushVertexQueue c p)
                     (expandChildren (m_Config p) (m_Samples p) v) p in
  with_ExpandedCount (S (m_ExpandedCount p)) p.

(** *** [AStarPlanner::expandToCoverSpecificSamples] *)

Definition expandToCoverSpecificSamples (root : Vertex) (samples : list State)
                                        (coverageAllowed : bool) (p : Planner)
  : Planner :=
  if Qlt_bool 0 (coverageTurningRadius (m_Config p)) then
    fold_left
      (fun p s =>
         let s := mkState (State_x s) (State_y s) (State_heading s)
                          (maxSpeed (m_Config p)) (State_time s) in
         let destinationVertex :=
           Vertex_connect root s (coverageTurningRadius (m_Config p))
                          coverageAllowed in
         let destinationVertex :=
           computeTrueCost (m_Config p) destinationVertex in
         pushVertexQueue destinationVertex p)
      samples p
  else p.

(** *** [AStarPlanner::aStar] *)

Definition improves (vertex : Vertex) (p : Planner) : bool :=
  match m_BestVertex p with
  | None => true
  | Some best => Qlt_bool (Vertex_f vertex) (Vertex_f best)
  end.

(** The [while (now() < endTime)] loop of [aStar], entered with the
    vertex popped last. *)
Fixpoint aStarLoop (fuel : nat) (endTime : Q) (vertex : Vertex) (p : Planner)
  : Result (option Vertex * Planner) :=
  match fuel with
  | O => OutOfFuel
  | S fuel =>
      let (t, p) := now p in
      if Qlt_bool t endTime then
        if goalCondition vertex && improves vertex p then Ok (Some vertex, p)
        else
          let p := expand vertex p in
          if vertexQueueEmpty p then Ok (None, p)
          else
            match popVertexQueue p with
            | Some (vertex, p) => aStarLoop fuel endTime vertex p
            | None => EmptyQueue
            end
      else Ok (None, p)
  end.

Definition aStar (fuel : nat) (endTime : Q) (p : Planner)
  : Result (option Vertex * Planner) :=
  let p := record [AStar] p in
  match popVertexQueue p with
  | Some (vertex, p) => aStarLoop fuel endTime vertex p
  | None => EmptyQueue
  end.

(** *** [AStarPlanner::plan] *)

(** Lines 127-134: the previous plan is connected path by path behind
    [lastPlanEnd].  The second component lists the vertices connected,
    each with the true cost of its parent edge computed, in order. *)
Fixpoint connectOldPlan (cfg : PlannerConfig) (startV lastPlanEnd : Vertex)
                        (paths : list DubinsPath) : Vertex * list Vertex :=
  match paths with
  | [] => (lastPlanEnd, [])
  | p :: paths =>
      let lastPlanEnd := Vertex_connectPath lastPlanEnd p in
      let lastPlanEnd := computeTrueCost cfg lastPlanEnd in
      if infeasible lastPlanEnd then (startV, [lastPlanEnd])
      else
        let (last, connected) := connectOldPlan cfg startV lastPlanEnd paths in
        (last, lastPlanEnd :: connected)
  end.

(** Lines 125-135. *)
Definition checkOldPlan (cfg : PlannerConfig) (startV : Vertex)
                        (previousPlan : DubinsPlan) : Vertex * list Vertex :=
  let lastPlanEnd := startV in
  if negb (DubinsPlan_empty previousPlan)
  then connectOldPlan cfg startV lastPlanEnd previousPlan
  else (lastPlanEnd, []).

(** What the big loop reads and never writes. *)
Record Search := mkSearch {
  startV : Vertex;
  lastPlanEnd : Vertex;
  ribbonSamples : list State;
  otherRibbonSamples : list State;
  generator : StateGenerator;
  endTime : Q
}.

Definition bestIsBestPossible (s : Search) (p : Planner) : bool :=
  match m_BestVertex p with
  | None => false
  | Some best => Qle_bool (Vertex_f best) (Vertex_f (startV s))
  end.

(** Lines 154-158. *)
Definition keepBetter (v : option Vertex) (p : Planner) : Planner :=
  let better :=
    match m_BestVertex p, v with
    | None, _ => true
    | Some best, Some v => Qlt_bool (Vertex_f v) (Vertex_f best)
    | Some _, None => false
    end in
  if better then
    let p := with_BestVertex v p in
    match v with
    | Some v => record [VisualizeVertex v "goal"] p
    | None => p
    end
  else p.

(** Lines 137-160, the big loop. *)
Fixpoint bigLoop (fuel : nat) (s : Search) (p : Planner) : Result Planner :=
  match fuel with
  | O => OutOfFuel
  | S fuel =>
      let (t, p) := now p in
      if Qlt_bool t (endTime s) then
        let p := clearVertexQueue p in
        if bestIsBestPossible s p then
          Ok (record [Output "Found best possible plan, assuming heuristic admissibility"] p)
        else
          let p := record [VisualizeVertex (startV s) "start"] p in
          let p := pushVertexQueue (startV s) p in
          let p := if negb (Vertex_isRoot (lastPlanEnd s))
                   then pushVertexQueue (lastPlanEnd s) p else p in
          let p := expandToCoverSpecificSamples (startV s) (ribbonSamples s)
                                                true p in
          let p := expandToCoverSpecificSamples (startV s)
                                                (otherRibbonSamples s)
                                                true p in
          let p := if (List.length (m_Samples p) <? c_InitialSamples)%nat
                   then addSamples (generator s) c_InitialSamples p
                   else addSamples_more (generator s) p in
          match aStar fuel (endTime s) p with
          | Ok (v, p) =>
              let p := keepBetter v p in
              let p := with_IterationCount (S (m_IterationCount p)) p in
              bigLoop fuel s p
          | OutOfFuel => OutOfFuel
          | EmptyQueue => EmptyQueue
          end
      else Ok p
  end.

(** Lines 161-169. *)
Definition finish (p : Planner) : DubinsPlan * Planner :=
  let p := record [OutputCounts (List.length (m_Samples p)) (m_ExpandedCount p)
                                (m_IterationCount p)] p in
  match m_BestVertex p with
  | None => ([], record [Output "Failed to find a plan"] p)
  | Some best => (tracePlan best false (obstacles (m_Config p)), p)
  end.

(** The big loop and the return statement. *)
Definition search (fuel : nat) (s : Search) (p : Planner)
  : Result (DubinsPlan * Planner) :=
  match bigLoop fuel s p with
  | Ok p => Ok (finish p)
  | OutOfFuel => OutOfFuel
  | EmptyQueue => EmptyQueue
  end.

(** Lines 101-123 and 125-135: everything before the big loop. *)
Definition setup (ribbonManager : RibbonManager) (start : State)
                 (config : PlannerConfig) (previousPlan : DubinsPlan)
                 (timeRemaining : Q) (p : Planner) : Search * Planner :=
  let p := with_Config config p in
  let (t, p) := now p in
  let endTime := timeRemaining + t in
  let p := with_Config (setStartStateTime (State_time start) (m_Config p)) p in
  let p := with_RibbonManager (changeHeuristicIfTooManyRibbons ribbonManager)
                              p in
  let p := with_ExpandedCount 0%nat p in
  let p := with_IterationCount 0%nat p in
  let p := with_StartStateTime (State_time start) p in
  let p := with_Samples [] p in
  let magnitude := maxSpeed (m_Config p) * DubinsPlan_timeHorizon in
  let generator :=
    mkStateGenerator (State_x start - magnitude) (State_x start + magnitude)
                     (State_y start - magnitude) (State_y start + magnitude)
                     (maxSpeed (m_Config p)) (maxSpeed (m_Config p))
                     7 (m_RibbonManager p) in
  let startV := Vertex_makeRoot start (m_RibbonManager p) in
  let startV := setRootSpeed (maxSpeed (m_Config p)) startV in
  (* [startV->computeApproxToGo()] caches [h]; [Vertex_f] reads it *)
  let p := with_BestVertex None p in
  let ribbonSamples :=
    findStatesOnRibbonsOnCircle (m_RibbonManager p) start
      (coverageTurningRadius (m_Config p) * 2 + 1) in
  let otherRibbonSamples :=
    findNearStatesOnRibbons (m_RibbonManager p) start
      (coverageTurningRadius (m_Config p)) in
  let lastPlanEnd := fst (checkOldPlan (m_Config p) startV previousPlan) in
  (mkSearch startV lastPlanEnd ribbonSamples otherRibbonSamples generator
            endTime, p).

Definition plan (fuel : nat) (ribbonManager : RibbonManager) (start : State)
                (config : PlannerConfig) (previousPlan : DubinsPlan)
                (timeRemaining : Q) (p : Planner)
  : Result (DubinsPlan * Planner) :=
  let (s, p) := setup ribbonManager start config previousPlan timeRemaining p
  in search fuel s p.

End Definitions.

End AStarPlanner.

(** ** Notions of the specification *)

(** "The path's extension is [ext]": the path ends with it. *)
Definition hasExtension (ext path : string) : bool :=
  let n := String.length path in
  let m := String.length ext in
  (m <=? n)%nat && String.eqb (substring (n - m) m path) ext.

(** [needle] occurs somewhere in [path]. *)
Definition occursIn (needle path : string) : Prop :=
  exists before after, path = (before ++ needle ++ after)%string.

Section PreviousPlanChain.
Context {C : Collaborators} {P : PlannerParts}.

(** The previous plan re-connected in full: each path becomes an edge
    behind the vertex before it, starting behind [from], and every edge
    has its true cost computed. *)
Fixpoint chain (cfg : PlannerConfig) (from : Vertex) (paths : list DubinsPath)
  : list Vertex :=
  match paths with
  | [] => []
  | p :: paths =>
      let v := AStarPlanner.computeTrueCost cfg (Vertex_connectPath from p) in
      v :: chain cfg v paths
  end.



Definition Vertex_parent (v : Vertex) : option Vertex :=
  match v with
  | Root _ _ => None
  | Child parent _ _ => Some parent
  end.

Definition Vertex_edge (v : Vertex) : option Edge :=
  match v with
  | Root _ _ => None
  | Child _ e _ => Some e
  end.

Definition costComputed (v : Vertex) : bool :=
  match v with
  | Child _ _ NotComputed => false
  | _ => true
  end.

(** Calls that push on the queue, add samples or run the inner search. *)
Definition searches (c : AStarPlanner.Call) : bool :=
  match c with
  | AStarPlanner.PushVertexQueue _
  | AStarPlanner.AddSamples _
  | AStarPlanner.AStar
  | AStarPlanner.Expand _ => true
  | _ => false
  end.

End PreviousPlanChain.

Section Counting.
Context {C : Collaborators} {P : PlannerParts}.

(** Runs of the inner search and expansions among recorded calls. *)
Definition isAStar (c : AStarPlanner.Call) : bool :=
  match c with AStarPlanner.AStar => true | _ => false end.

Definition isExpand (c : AStarPlanner.Call) : bool :=
  match c with AStarPlanner.Expand _ => true | _ => false end.

Definition countCalls (f : AStarPlanner.Call -> bool)
                      (cs : list AStarPlanner.Call) : nat :=
  List.length (filter f cs).

(** The calls a planner has recorded beyond its first [n]. *)
Definition callsSince (n : nat) (p : AStarPlanner.Planner)
  : list AStarPlanner.Call :=
  skipn n (AStarPlanner.calls p).

(** A planner state without its record of calls, and without what is
    left in its queue. *)
Definition forgetCalls (p : AStarPlanner.Planner) : AStarPlanner.Planner :=
  AStarPlanner.mkPlanner
    (AStarPlanner.m_Config p) (AStarPlanner.m_RibbonManager p)
    (AStarPlanner.m_ExpandedCount p) (AStarPlanner.m_IterationCount p)
    (AStarPlanner.m_StartStateTime p) (AStarPlanner.m_Samples p)
    (AStarPlanner.m_BestVertex p) (AStarPlanner.m_VertexQueue p)
    (AStarPlanner.readings p) [].

Definition forgetQueue (p : AStarPlanner.Planner) : AStarPlanner.Planner :=
  AStarPlanner.with_VertexQueue [] p.

Definition Result_map {A B : Type} (f : A -> B) (r : AStarPlanner.Result A)
  : AStarPlanner.Result B :=
  match r with
  | AStarPlanner.Ok a => AStarPlanner.Ok (f a)
  | AStarPlanner.OutOfFuel => AStarPlanner.OutOfFuel
  | AStarPlanner.EmptyQueue => AStarPlanner.EmptyQueue
  end.

(** The value of a result, or a default when there is none. *)
Definition resultOr {A : Type} (d : A) (r : AStarPlanner.Result A) : A :=
  match r with
  | AStarPlanner.Ok a => a
  | _ => d
  end.

(** What a call of [plan] leaves behind, as far as a later call or the
    caller can tell: the plan and the members of the planner, the queue
    apart. *)
Definition outcomeOf (r : AStarPlanner.Result (DubinsPlan * AStarPlanner.Planner))
  : AStarPlanner.Result (DubinsPlan * AStarPlanner.Planner) :=
  Result_map (fun rp => (fst rp, forgetQueue (forgetCalls (snd rp)))) r.

(** Inner searches recorded, expansions recorded, passes counted and
    expansions counted. *)
Definition tally (p : AStarPlanner.Planner) : nat * nat * nat * nat :=
  (countCalls isAStar (AStarPlanner.calls p),
   countCalls isExpand (AStarPlanner.calls p),
   AStarPlanner.m_IterationCount p,
   AStarPlanner.m_ExpandedCount p).

(** The best vertex, when there is one, satisfies the goal condition. *)
Definition bestIsGoal (p : AStarPlanner.Planner) : Prop :=
  match AStarPlanner.m_BestVertex p with
  | None => True
  | Some best => goalCondition best = true
  end.

(** A best vertex of [p] is still matched in [p']: [p'] has a best vertex
    too, with an [f] that is no larger. *)
Definition bestNoWorse (p p' : AStarPlanner.Planner) : Prop :=
  match AStarPlanner.m_BestVertex p with
  | None => True
  | Some best =>
      exists best', AStarPlanner.m_BestVertex p' = Some best'
                    /\ Vertex_f best' <= Vertex_f best
  end.

End Counting.

(** ** Test doubles

    Small stand-ins for the collaborators, in the manner of the
    repository's [NodeStub], on which the code above is run at concrete
    inputs. *)

Module Stub.

Definition constants : Constants :=
  {| c_PlanningTimeSeconds := 1;
     c_CoverageHeadingRateMax := 1 # 10;
     c_RadiusShrinkAmount := 1 # 100;
     c_ReusePlanEnabled := true;
     c_RadiusShrinkEnabled := true |}.

Definition atPoint (x y : Q) (r : Ribbon) : bool :=
  (Qeq_bool (Ribbon_x1 r) x && Qeq_bool (Ribbon_y1 r) y)
  || (Qeq_bool (Ribbon_x2 r) x && Qeq_bool (Ribbon_y2 r) y).

(** Paths are numbered; a state is pushed along the x axis; covering a
    point removes the ribbons that end there; a plan is sampled at the
    origin; the GeoTIFF loader fails on the empty path. *)
Definition collaborators : Collaborators :=
  {| DubinsPath := nat;
     Map := string;
     DynamicObstaclesManager := unit;
     State_push := fun s dt =>
       mkState (State_x s + State_speed s * dt) (State_y s) (State_heading s)
               (State_speed s) (State_time s + dt);
     State_isCoLocated := fun a b =>
       Qeq_bool (State_x a) (State_x b) && Qeq_bool (State_y a) (State_y b);
     RibbonManager_cover := fun x y rm =>
       mkRibbonManager (m_Heuristic rm) (m_TurningRadius rm) (m_K rm)
                       (filter (fun r => negb (atPoint x y r)) (m_Ribbons rm));
     RibbonManager_coverBetween := fun _ _ _ _ rm => rm;
     DubinsPlan_changeIntoSuffix := fun _ p => p;
     DubinsPlan_sample := fun _ s =>
       mkState 0 0 (State_heading s) (State_speed s) (State_time s);
     DubinsPlan_getHalfSecondSamples := fun _ => [];
     GeoTiffMap := fun path _ _ =>
       match path with EmptyString => None | _ => Some path end;
     GridWorldMap := fun path => Some path |}.

(** A clock that starts at 100 s and advances a quarter of a second per
    reading. *)
Definition quarters (n : nat) : Q := 100 + inject_Z (Z.of_nat n) / 4.

(** A runtime around a given planner: the map lock is always free and
    the controller reports the origin up to the [turn]-th clock reading
    and a point 5 m away afterwards. *)
Definition runtime
  (planner : RibbonManager -> State -> @PlannerConfig collaborators ->
             @DubinsPlan collaborators -> Q -> nat ->
             @PlanOutcome collaborators * nat)
  (turn : nat) : @Runtime collaborators :=
  {| getTime := quarters;
     mapMutex_try_lock := fun _ => true;
     planner_plan := planner;
     publishPlan := fun _ n =>
       mkState (if (n <? turn)%nat then 0 else 5) 0 0 (5 # 2) (quarters n) |}.

Definition plannerReturns (rm : RibbonManager) (s : State)
  (cfg : @PlannerConfig collaborators) (previous : @DubinsPlan collaborators)
  (timeRemaining : Q) (n : nat) : @PlanOutcome collaborators * nat :=
  (@Returned collaborators [1%nat; 2%nat], 2%nat).

Definition plannerThrowsStd (rm : RibbonManager) (s : State)
  (cfg : @PlannerConfig collaborators) (previous : @DubinsPlan collaborators)
  (timeRemaining : Q) (n : nat) : @PlanOutcome collaborators * nat :=
  (@ThrowsStd collaborators "std::bad_alloc", 1%nat).

Definition plannerThrowsUnknown (rm : RibbonManager) (s : State)
  (cfg : @PlannerConfig collaborators) (previous : @DubinsPlan collaborators)
  (timeRemaining : Q) (n : nat) : @PlanOutcome collaborators * nat :=
  (@ThrowsUnknown collaborators, 1%nat).

Definition config : @PlannerConfig collaborators :=
  @mkPlannerConfig collaborators (5 # 2) 8 8 9 tt None 0.

Definition ribbons : RibbonManager :=
  mkRibbonManager MaxDistance 8 2 [mkRibbon 0 0 0 20].

(** An executive with one ribbon, last seen at the origin at time 100. *)
Definition executive : @Executive.Executive collaborators :=
  @Executive.mkExecutive collaborators config ribbons tt None "" Running
                         (mkState 0 0 0 (5 # 2) 100) 0 100 0 2.

Definition world : Executive.World (C := collaborators) :=
  Executive.mkWorld (C := collaborators) 0 [].

(** Planner parts: the clock of [quarters]; no ribbon samples; [f] is
    the true cost of the parent edge (10 at the root); the path numbered 0
    is infeasible and any other path costs its number; the goal is any
    vertex reached through a state edge; [expand] connects a vertex to
    the first sample of the pool at cost 3; [tracePlan] numbers the edges
    back to the root. *)
Definition edgeCost (cfg : @PlannerConfig collaborators)
                    (parent : @Vertex collaborators)
                    (e : @Edge collaborators) : option Q :=
  match e with
  | PathEdge O => None
  | PathEdge (S n) => Some (inject_Z (Z.of_nat (S n)))
  | StateEdge _ _ _ => Some 3
  end.

Fixpoint depth (v : @Vertex collaborators) : nat :=
  match v with
  | Root _ _ => 0%nat
  | Child parent _ _ => S (depth parent)
  end.

Definition plannerParts : @PlannerParts collaborators :=
  {| c_InitialSamples := 2%nat;
     DubinsPlan_timeHorizon := 30;
     nowFn := quarters;
     changeHeuristicIfTooManyRibbons := fun rm => rm;
     findStatesOnRibbonsOnCircle := fun _ _ _ => [];
     findNearStatesOnRibbons := fun _ _ _ => [];
     Vertex_f := fun v =>
       match v with
       | Child _ _ (TrueCost c) => c
       | _ => 10
       end;
     DubinsEdge_trueCost := edgeCost;
     StateGenerator_generate := fun g n =>
       mkState (inject_Z (Z.of_nat n)) 0 0 (maxSpeed' g) 0;
     goalCondition := fun v =>
       match v with
       | Child _ (StateEdge _ _ _) _ => true
       | _ => false
       end;
     expandChildren := fun cfg samples v =>
       match samples with
       | [] => []
       | s :: _ => [Child v (StateEdge s (turningRadius cfg) false)
                          (TrueCost 3)]
       end;
     tracePlan := fun v _ _ => seq 1 (depth v) |}.

(** A planner object before its first call. *)
Definition planner : AStarPlanner.Planner (C := collaborators) :=
  AStarPlanner.mkPlanner (C := collaborators) config ribbons 0 0 0 [] None []
                         0 [].

Definition start : State := mkState 0 0 0 (5 # 2) 100.

End Stub.

Module StubMap.

(** The empty map of the test doubles. *)
Definition factory : @MapFactory Stub.collaborators :=
  {| Map_default := ("empty"%string : @Map Stub.collaborators) |}.

End StubMap.

Module StubMore.

(** Collaborators as in [Stub], with map loaders that always throw. *)
Definition offline : Collaborators :=
  {| DubinsPath := nat;
     Map := string;
     DynamicObstaclesManager := unit;
     State_push := @State_push Stub.collaborators;
     State_isCoLocated := @State_isCoLocated Stub.collaborators;
     RibbonManager_cover := @RibbonManager_cover Stub.collaborators;
     RibbonManager_coverBetween :=
       @RibbonManager_coverBetween Stub.collaborators;
     DubinsPlan_changeIntoSuffix := fun _ p => p;
     DubinsPlan_sample := fun _ s =>
       mkState 0 0 (State_heading s) (State_speed s) (State_time s);
     DubinsPlan_getHalfSecondSamples := fun _ => [];
     GeoTiffMap := fun _ _ _ => None;
     GridWorldMap := fun _ => None |}.

Definition offlineExecutive : @Executive.Executive offline :=
  @Executive.mkExecutive offline
    (@mkPlannerConfig offline (5 # 2) 8 8 9 tt None 0)
    Stub.ribbons tt (Some "staged"%string) "old.map" Running
    (mkState 0 0 0 (5 # 2) 100) 0 100 0 2.

(** A planner that finds nothing. *)
Definition plannerReturnsEmpty (rm : RibbonManager) (s : State)
  (cfg : @PlannerConfig Stub.collaborators)
  (previous : @DubinsPlan Stub.collaborators)
  (timeRemaining : Q) (n : nat) : @PlanOutcome Stub.collaborators * nat :=
  (@Returned Stub.collaborators [], 2%nat).

(** The loop variables after a pass that published the plan [1; 2]. *)
Definition locals : Executive.Locals (C := Stub.collaborators) :=
  Executive.mkLocals (C := Stub.collaborators)
                     (mkState 0 0 0 (5 # 2) 101) [1%nat; 2%nat].

Definition fresh : Executive.Locals (C := Stub.collaborators) :=
  Executive.mkLocals (C := Stub.collaborators) State_default [].

(** A goal vertex one state edge behind the root. *)
Definition root : @Vertex Stub.collaborators :=
  Vertex_makeRoot (C := Stub.collaborators) Stub.start Stub.ribbons.

Definition goal : @Vertex Stub.collaborators :=
  Child root (StateEdge Stub.start 8 true) (TrueCost 3).

(** A planner object as an earlier call may have left it. *)
Definition used : AStarPlanner.Planner (C := Stub.collaborators) :=
  AStarPlanner.mkPlanner (C := Stub.collaborators)
    Stub.config Stub.ribbons 4 2 99 [Stub.start] (Some goal) [goal; root]
    0 [AStarPlanner.AStar].

(** A one-second call with the previous plan [1; 2], and what it
    returns. *)
Definition call
  : AStarPlanner.Result (@DubinsPlan Stub.collaborators
                         * AStarPlanner.Planner (C := Stub.collaborators)) :=
  AStarPlanner.plan (P := Stub.plannerParts) 5 Stub.ribbons Stub.start
                    Stub.config [1%nat; 2%nat] 1 Stub.planner.

Definition returned
  : @DubinsPlan Stub.collaborators
    * AStarPlanner.Planner (C := Stub.collaborators) :=
  resultOr ([], Stub.planner) call.

(** The big loop of that call, and the state it ends in. *)
Definition entered
  : AStarPlanner.Search (C := Stub.collaborators)
    * AStarPlanner.Planner (C := Stub.collaborators) :=
  AStarPlanner.setup (P := Stub.plannerParts) Stub.ribbons Stub.start
                     Stub.config [1%nat; 2%nat] 1 Stub.planner.

Definition left : AStarPlanner.Planner (C := Stub.collaborators) :=
  resultOr Stub.planner
           (AStarPlanner.bigLoop (P := Stub.plannerParts) 5
                                 (fst entered) (snd entered)).

(** An inner search on a queue that holds the goal vertex alone. *)
Definition queued : AStarPlanner.Planner (C := Stub.collaborators) :=
  AStarPlanner.pushVertexQueue (C := Stub.collaborators) goal Stub.planner.

Definition searched : AStarPlanner.Planner (C := Stub.collaborators) :=
  snd (resultOr (None, Stub.planner)
                (AStarPlanner.aStar (P := Stub.plannerParts) 3 200 queued)).

(** A goal vertex of cost 20, dearer than the root's estimate of 10, as
    the best vertex so far: of the inner search on the goal vertex of
    cost 3, and of the big loop of the one-second call. *)
Definition rival : @Vertex Stub.collaborators :=
  Child root (StateEdge Stub.start 8 true) (TrueCost 20).

Definition contested : AStarPlanner.Planner (C := Stub.collaborators) :=
  AStarPlanner.with_BestVertex (Some rival) queued.

Definition settled : AStarPlanner.Planner (C := Stub.collaborators) :=
  snd (resultOr (None, Stub.planner)
                (AStarPlanner.aStar (P := Stub.plannerParts) 3 200 contested)).

Definition rivalled : AStarPlanner.Planner (C := Stub.collaborators) :=
  AStarPlanner.with_BestVertex (Some rival) (snd entered).

Definition improved : AStarPlanner.Planner (C := Stub.collaborators) :=
  resultOr Stub.planner
           (AStarPlanner.bigLoop (P := Stub.plannerParts) 5
                                 (fst entered) rivalled).

End StubMore.

(** * Properties *)

Lemma PlannerState_eqb_eq (a b : PlannerState) :
  PlannerState_eqb a b = true <-> a = b.
Proof. destruct a, b; simpl; split; congruence. Qed.

Lemma Qeq_bool_false_of_pos (q : Q) : 0 < q -> Qeq_bool q 0 = false.
Proof.
  intros Hq. destruct (Qeq_bool q 0) eqn:E; [|reflexivity].
  apply Qeq_bool_iff in E. lra.
Qed.

(** With a positive divisor the comparison of doubles is the comparison
    of the exact quotient. *)
Lemma double_div_le_pos (a b c : Q) :
  0 < b -> double_div_le a b c = Qle_bool (a / b) c.
Proof.
  intros Hb. unfold double_div_le. now rewrite Qeq_bool_false_of_pos.
Qed.

Section ExecutiveProperties.
Context {K : Constants} {C : Collaborators}.
Import Executive.

(** ** The state machine *)

(** C9. [cancelPlanner] changes the planner state only when it is
    [Running], which it turns into [Cancelled]; from [Inactive] and from
    [Cancelled] the call changes nothing.  No other member is touched. *)
Theorem cancelPlanner_only_from_Running (e : Executive) :
  match m_PlannerState e with
  | Running => cancelPlanner e = with_PlannerState Cancelled e
  | Inactive | Cancelled => cancelPlanner e = e
  end.
Proof.
  unfold cancelPlanner. destruct (m_PlannerState e); reflexivity.
Qed.

Lemma cancelPlanner_state (e : Executive) :
  m_PlannerState (cancelPlanner e) =
  match m_PlannerState e with Running => Cancelled | s => s end.
Proof.
  unfold cancelPlanner. destruct (m_PlannerState e) eqn:E; simpl; auto.
Qed.

(** ** Ribbons *)

(** C10. [clearRibbons] installs a newly constructed manager (no
    ribbons, [k = 2], the configured turning radius) whose heuristic is
    [TspPointRobotNoSplitKRibbons], whatever heuristic an earlier
    [setConfiguration] selected. *)
Theorem clearRibbons_resets_heuristic
  (e : Executive) (tr ctr ms lw : Q) (k heuristic : Z) :
  m_RibbonManager (clearRibbons e) =
    mkRibbonManager TspPointRobotNoSplitKRibbons
                    (turningRadius (m_PlannerConfig e)) 2 []
  /\ m_Heuristic
       (m_RibbonManager
          (clearRibbons (fst (setConfiguration tr ctr ms lw k heuristic e))))
     = TspPointRobotNoSplitKRibbons.
Proof. split; reflexivity. Qed.

(** [setConfiguration] does select the heuristic it is asked for, so the
    reset above discards a real choice. *)
Lemma setConfiguration_selects (e : Executive) (tr ctr ms lw : Q) (k : Z) :
  m_Heuristic (m_RibbonManager (fst (setConfiguration tr ctr ms lw k 3 e)))
  = TspDubinsNoSplitAllRibbons.
Proof. reflexivity. Qed.

(** ** The heading-rate gate of [updateCovered] *)

Lemma updateCovered_last (x y speed heading t : Q) (e : Executive) :
  let e' := updateCovered x y speed heading t e in
  m_LastHeading e' = heading /\ m_LastUpdateTime e' = t
  /\ m_LastState e' = mkState x y heading speed t.
Proof. unfold updateCovered. destruct double_div_le; simpl; auto. Qed.

(** What the gate computes: the difference of headings, signed, over the
    time stamp of the previous call. *)
Lemma updateCovered_gate (x y speed heading t : Q) (e : Executive) :
  m_RibbonManager (updateCovered x y speed heading t e) =
  if double_div_le (m_LastHeading e - heading) (m_LastUpdateTime e)
                   c_CoverageHeadingRateMax
  then RibbonManager_cover x y (m_RibbonManager e)
  else m_RibbonManager e.
Proof. unfold updateCovered. destruct double_div_le; reflexivity. Qed.

(** C1 (the code departs from the claim). Two consecutive calls with
    positive time stamps, the heading growing between them at a rate
    above [c_CoverageHeadingRateMax]: the second call covers all the
    same. *)
Theorem updateCovered_covers_during_fast_turn
  (e : Executive) (x0 y0 speed0 heading0 t0 x y speed heading t : Q) :
  0 <= c_CoverageHeadingRateMax ->
  0 < t0 -> t0 < t ->
  heading0 < heading ->
  c_CoverageHeadingRateMax < Qabs (heading - heading0) / (t - t0) ->
  let e1 := updateCovered x0 y0 speed0 heading0 t0 e in
  m_RibbonManager (updateCovered x y speed heading t e1)
  = RibbonManager_cover x y (m_RibbonManager e1).
Proof.
  intros Hc Ht0 Ht Hh Hrate e1. subst e1.
  rewrite updateCovered_gate.
  destruct (updateCovered_last x0 y0 speed0 heading0 t0 e) as (-> & -> & _).
  rewrite double_div_le_pos by assumption.
  replace (Qle_bool _ _) with true; [reflexivity|].
  symmetry. apply Qle_bool_iff.
  apply Qle_shift_div_r; [assumption|].
  assert (0 <= c_CoverageHeadingRateMax * t0)
    by (apply Qmult_le_0_compat; lra).
  lra.
Qed.

(** The gate also fails the other way: a slow turn that lowers the
    heading is refused coverage when the previous time stamp is small. *)
Lemma updateCovered_skips_during_slow_turn
  (e : Executive) (x0 y0 speed0 heading0 t0 x y speed heading t : Q) :
  0 < t0 ->
  c_CoverageHeadingRateMax * t0 < heading0 - heading ->
  let e1 := updateCovered x0 y0 speed0 heading0 t0 e in
  m_RibbonManager (updateCovered x y speed heading t e1) = m_RibbonManager e1.
Proof.
  intros Ht0 Hh e1. subst e1.
  rewrite updateCovered_gate.
  destruct (updateCovered_last x0 y0 speed0 heading0 t0 e) as (-> & -> & _).
  rewrite double_div_le_pos by assumption.
  destruct (Qle_bool _ _) eqn:E; [|reflexivity].
  apply Qle_bool_iff in E.
  assert (heading0 - heading <= c_CoverageHeadingRateMax * t0); [|lra].
  setoid_replace (heading0 - heading)
    with ((heading0 - heading) / t0 * t0) by (field; lra).
  apply Qmult_le_compat_r; lra.
Qed.

End ExecutiveProperties.

(** ** Strings: [find] and occurrences *)

Lemma substring_occurs (s : string) :
  forall (m n : nat) (t : string),
    substring m n s = t -> String.length t = n -> occursIn t s.
Proof.
  induction s as [|a s IH]; intros m n t Hsub Hlen.
  - destruct m, n; simpl in Hsub; subst t; simpl in Hlen; try discriminate;
      exists EmptyString, EmptyString; reflexivity.
  - destruct m as [|m].
    + destruct n as [|n]; simpl in Hsub.
      * subst t. exists EmptyString, (String a s). reflexivity.
      * subst t. simpl in Hlen. injection Hlen as Hlen.
        destruct (IH 0%nat n (substring 0 n s) eq_refl Hlen)
          as (before & after & Heq).
        (* the occurrence found in the tail starts at its head *)
        clear Heq before after.
        exists EmptyString. simpl.
        revert n Hlen. clear IH. induction s as [|b s IHs]; intros n Hlen.
        -- destruct n; simpl in *; [|discriminate].
           exists EmptyString. reflexivity.
        -- destruct n as [|n]; simpl in *.
           ++ exists (String b s). reflexivity.
           ++ injection Hlen as Hlen.
              destruct (IHs n Hlen) as (after & Heq).
              injection Heq as Heq.
              exists after. now rewrite Heq at 1.
    + simpl in Hsub.
      destruct (IH m n t Hsub Hlen) as (before & after & ->).
      exists (String a before), after. reflexivity.
Qed.

Lemma substring_at_occurrence (before needle after : string) :
  substring (String.length before) (String.length needle)
            (before ++ needle ++ after) = needle.
Proof.
  induction before as [|a before IH]; simpl.
  - induction needle as [|b needle IHn]; simpl.
    + destruct after; reflexivity.
    + now rewrite IHn.
  - exact IH.
Qed.

Lemma index_finds_occurrence (needle path : string) :
  needle <> EmptyString ->
  (index 0 needle path <> None <-> occursIn needle path).
Proof.
  intros Hne. split.
  - destruct (index 0 needle path) as [m|] eqn:E; [intros _|congruence].
    apply index_correct1 in E.
    eapply substring_occurs; [exact E|reflexivity].
  - intros (before & after & ->) Hnone.
    eapply index_correct3 with (m := String.length before) in Hnone;
      [|assumption|lia].
    apply Hnone. apply substring_at_occurrence.
Qed.

Lemma hasExtension_occurs (ext path : string) :
  hasExtension ext path = true -> occursIn ext path.
Proof.
  unfold hasExtension. intros Hb.
  apply andb_true_iff in Hb as [_ Hb]. apply String.eqb_eq in Hb.
  eapply substring_occurs; [exact Hb|reflexivity].
Qed.

Section MapLoading.
Context {K : Constants} {C : Collaborators}.
Import Executive.

Lemma chooseFormat_GridWorld (path : string) :
  chooseFormat path = GridWorldFormat <-> occursIn ".map" path.
Proof.
  rewrite <- index_finds_occurrence by discriminate.
  unfold chooseFormat. destruct (index 0 ".map" path); split; congruence.
Qed.

Lemma chooseFormat_GeoTiff (path : string) :
  chooseFormat path = GeoTiffFormat <-> ~ occursIn ".map" path.
Proof.
  rewrite <- chooseFormat_GridWorld.
  destruct (chooseFormat path); split; congruence.
Qed.

(** A path whose extension is [.map] is loaded as a grid world. *)
Lemma chooseFormat_extension (path : string) :
  hasExtension ".map" path = true -> chooseFormat path = GridWorldFormat.
Proof.
  intros Hext. apply chooseFormat_GridWorld. now apply hasExtension_occurs.
Qed.

(** C8 (amended). For a path that differs from the current map path the
    loader takes the grid-world format exactly when [".map"] occurs
    somewhere in the path, and GeoTIFF otherwise; a map that loads is
    staged in [m_NewMap] and its path remembered; when loading throws,
    nothing propagates, one message is logged and [m_NewMap] is null. *)
Theorem refreshMap_format_and_failure
  (path : string) (latitude longitude : Q) (e : Executive) :
  m_CurrentMapPath e <> path ->
  (chooseFormat path = GridWorldFormat <-> occursIn ".map" path)
  /\ (chooseFormat path = GeoTiffFormat <-> ~ occursIn ".map" path)
  /\ loadMap path latitude longitude =
       match chooseFormat path with
       | GridWorldFormat => GridWorldMap path
       | GeoTiffFormat => GeoTiffMap path longitude latitude
       end
  /\ match loadMap path latitude longitude with
     | Some m =>
         refreshMap path latitude longitude e =
         (with_CurrentMapPath path (with_NewMap (Some m) e), [])
     | None =>
         m_NewMap (fst (refreshMap path latitude longitude e)) = None
         /\ exists msg, snd (refreshMap path latitude longitude e) = [Log msg]
     end.
Proof.
  intros Hnew.
  split; [apply chooseFormat_GridWorld|].
  split; [apply chooseFormat_GeoTiff|].
  split; [unfold loadMap; destruct (chooseFormat path); reflexivity|].
  unfold refreshMap.
  destruct (String.eqb (m_CurrentMapPath e) path) eqn:E.
  - apply String.eqb_eq in E. contradiction.
  - destruct (loadMap path latitude longitude); simpl; eauto.
Qed.

(** A refresh with the current path does nothing. *)
Lemma refreshMap_same_path (latitude longitude : Q) (e : Executive) :
  refreshMap (m_CurrentMapPath e) latitude longitude e = (e, []).
Proof. unfold refreshMap. now rewrite String.eqb_refl. Qed.

End MapLoading.

(** ** The planning loop *)

Section PlanLoopProperties.
Context {K : Constants} {C : Collaborators} {R : Runtime}.
Import Executive.

Lemma takeNewMap_keeps (e : Executive) (w : World) :
  let e' := takeNewMap e w in
  m_LastState e' = m_LastState e
  /\ m_PlannerState e' = m_PlannerState e
  /\ m_RadiusShrink e' = m_RadiusShrink e
  /\ m_RibbonManager e' = m_RibbonManager e.
Proof.
  unfold takeNewMap.
  destruct (mapMutex_try_lock (tick w)); [destruct (m_NewMap e)|]; simpl; auto.
Qed.

Lemma shrinkRadii_keeps (e : Executive) :
  m_PlannerState (shrinkRadii e) = m_PlannerState e
  /\ m_LastState (shrinkRadii e) = m_LastState e.
Proof. unfold shrinkRadii. destruct c_RadiusShrinkEnabled; simpl; auto. Qed.

(** What [prepare] does when it reaches the [try] statement. *)
Lemma prepare_Plans (e : Executive) (w : World) (l : Locals) :
  m_PlannerState e <> Cancelled ->
  RibbonManager_done (m_RibbonManager e) = false ->
  let w1 := emit [DisplayRibbons (m_RibbonManager e)] (snd (readClock w)) in
  let e1 := takeNewMap e w1 in
  let sw := synthesizeStartState e1 w1 (startState l) in
  prepare e w l =
  Plans (getTime (tick w)) (shrinkRadii e1) (snd sw) (fst sw)
        (previousPlan (fst sw) (plan l)).
Proof.
  intros Hstate Hdone. unfold prepare. simpl.
  destruct (PlannerState_eqb (m_PlannerState e) Cancelled) eqn:E.
  - apply PlannerState_eqb_eq in E. contradiction.
  - rewrite Hdone.
    destruct (synthesizeStartState _ _ _) as [s w2]. reflexivity.
Qed.

Lemma prepare_state (e : Executive) (w : World) (l : Locals)
      (startTime : Q) (e1 : Executive) (w1 : World) (s : State)
      (p : DubinsPlan) :
  prepare e w l = Plans startTime e1 w1 s p ->
  m_PlannerState e1 = m_PlannerState e /\ m_PlannerState e <> Cancelled.
Proof.
  unfold prepare. simpl.
  destruct (PlannerState_eqb (m_PlannerState e) Cancelled) eqn:E;
    [discriminate|].
  destruct (RibbonManager_done _); [discriminate|].
  destruct (synthesizeStartState _ _ _) as [s' w'].
  intros [= <- <- <- <- <-]. split.
  - rewrite (proj1 (shrinkRadii_keeps _)).
    apply (takeNewMap_keeps e).
  - intros Hc. rewrite Hc in E. discriminate.
Qed.

(** C2 (amended). In a pass that reaches the planner with the sentinel
    start state, the start state handed on is [m_LastState] pushed by
    [now + P - lastStateTime], that is by [P + (now - lastStateTime)]:
    the planning period plus the age of the last state, where [now] is
    the clock reading made at that point (the second of the pass). *)
Theorem planLoop_synthesizes_start_state
  (e : Executive) (w : World) (l : Locals) :
  State_time (startState l) == -1 ->
  m_PlannerState e <> Cancelled ->
  RibbonManager_done (m_RibbonManager e) = false ->
  let now := getTime (S (tick w)) in
  let lastStateTime := State_time (m_LastState e) in
  exists startTime e1 w1 previous,
    prepare e w l =
      Plans startTime e1 w1
            (State_push (m_LastState e) (pushInterval now (m_LastState e)))
            previous
    /\ pushInterval now (m_LastState e)
       == c_PlanningTimeSeconds + (now - lastStateTime).
Proof.
  intros Hsentinel Hstate Hdone now lastStateTime.
  rewrite prepare_Plans by assumption.
  unfold synthesizeStartState.
  apply Qeq_bool_iff in Hsentinel. rewrite Hsentinel. simpl.
  rewrite (proj1 (takeNewMap_keeps e _)).
  do 4 eexists. split; [reflexivity|].
  unfold pushInterval. subst now lastStateTime. ring.
Qed.

(** *** After planning: publication, divergence, radius accounting *)

Lemma restoreRadii_enabled (e : Executive) :
  c_RadiusShrinkEnabled = true ->
  m_RadiusShrink (restoreRadii e) = 0
  /\ turningRadius (m_PlannerConfig (restoreRadii e))
     = turningRadius (m_PlannerConfig e) + m_RadiusShrink e
  /\ coverageTurningRadius (m_PlannerConfig (restoreRadii e))
     = coverageTurningRadius (m_PlannerConfig e) + m_RadiusShrink e.
Proof. unfold restoreRadii. intros ->. simpl. auto. Qed.

Lemma shrinkRadii_enabled (e : Executive) :
  c_RadiusShrinkEnabled = true ->
  m_RadiusShrink (shrinkRadii e) = m_RadiusShrink e + c_RadiusShrinkAmount
  /\ turningRadius (m_PlannerConfig (shrinkRadii e))
     = turningRadius (m_PlannerConfig e) - c_RadiusShrinkAmount
  /\ coverageTurningRadius (m_PlannerConfig (shrinkRadii e))
     = coverageTurningRadius (m_PlannerConfig e) - c_RadiusShrinkAmount.
Proof. unfold shrinkRadii. intros ->. simpl. auto. Qed.

(** The two ways a pass that publishes a plan can end. *)
Lemma afterPlanning_published
  (startTime : Q) (e : Executive) (w : World) (s : State) (p : DubinsPlan) :
  DubinsPlan_empty p = false ->
  let w1 := emit [SleepFor (sleepTime startTime (getTime (tick w)));
                  DisplayTrajectory (DubinsPlan_getHalfSecondSamples p) true;
                  PublishPlan p] (snd (readClock w)) in
  let actual := publishPlan p (tick w1) in
  let expected := DubinsPlan_sample p actual in
  afterPlanning startTime e w s p =
  if State_isCoLocated actual expected
  then Continue (with_RadiusShrink (m_RadiusShrink e + c_RadiusShrinkAmount) e)
                w1 (mkLocals actual p)
  else Continue (restoreRadii e)
                (emit [Log "Start state is not along previous plan; did the controller let us know?";
                       LogDivergence actual expected] w1)
                (mkLocals actual []).
Proof.
  intros Hne. unfold afterPlanning. simpl. rewrite Hne. simpl.
  unfold emit. simpl. rewrite <- !app_assoc. simpl.
  destruct (State_isCoLocated _ _); reflexivity.
Qed.

(** After a divergence the next pass hands the empty plan to the
    planner, if it reaches the planner at all. *)
Lemma previousPlanArgument_after_reset
  (e : Executive) (w : World) (s : State) :
  previousPlanArgument e w (mkLocals s []) = Some []
  \/ previousPlanArgument e w (mkLocals s []) = None.
Proof.
  unfold previousPlanArgument, prepare. simpl.
  destruct (PlannerState_eqb _ _); [auto|].
  destruct (RibbonManager_done _); [auto|].
  destruct (synthesizeStartState _ _ _) as [s' w']. left.
  unfold previousPlan. destruct c_ReusePlanEnabled; reflexivity.
Qed.

(** The accounting of the radius shrink.  [m_RadiusShrink] is what the
    rollback adds to each radius, so [turningRadius + m_RadiusShrink] is
    the radius a rollback would give.  The shrink at the top of a pass
    leaves that sum as it is; the branch taken when the controller is on
    the plan raises it by [c_RadiusShrinkAmount]. *)
Lemma shrinkRadii_rollback_target (e : Executive) :
  turningRadius (m_PlannerConfig (shrinkRadii e)) + m_RadiusShrink (shrinkRadii e)
  == turningRadius (m_PlannerConfig e) + m_RadiusShrink e.
Proof.
  unfold shrinkRadii. destruct c_RadiusShrinkEnabled; simpl; ring.
Qed.

Lemma colocated_pass_raises_rollback_target
  (startTime : Q) (e : Executive) (w : World) (s : State) (p : DubinsPlan) :
  DubinsPlan_empty p = false ->
  let w1 := emit [SleepFor (sleepTime startTime (getTime (tick w)));
                  DisplayTrajectory (DubinsPlan_getHalfSecondSamples p) true;
                  PublishPlan p] (snd (readClock w)) in
  let actual := publishPlan p (tick w1) in
  State_isCoLocated actual (DubinsPlan_sample p actual) = true ->
  exists e2 w2 l2,
    afterPlanning startTime (shrinkRadii e) w s p = Continue e2 w2 l2
    /\ turningRadius (m_PlannerConfig e2) + m_RadiusShrink e2
       == turningRadius (m_PlannerConfig e) + m_RadiusShrink e
          + c_RadiusShrinkAmount.
Proof.
  intros Hne w1 actual Hco.
  rewrite afterPlanning_published by assumption.
  fold w1. fold actual. rewrite Hco.
  do 3 eexists. split; [reflexivity|]. simpl.
  rewrite <- (shrinkRadii_rollback_target e). ring.
Qed.

(** *** Exceptions thrown by the planner *)

Lemma restoreRadii_state (e : Executive) :
  m_PlannerState (restoreRadii e) = m_PlannerState e.
Proof. unfold restoreRadii. destruct c_RadiusShrinkEnabled; reflexivity. Qed.

(** The rest of a pass never leaves the loop, does not touch the planner
    state and only adds to the trace. *)
Lemma afterPlanning_continues
  (startTime : Q) (e : Executive) (w : World) (s : State) (p : DubinsPlan) :
  exists e' w' l' evs,
    afterPlanning startTime e w s p = Continue e' w' l'
    /\ m_PlannerState e' = m_PlannerState e
    /\ trace w' = trace w ++ evs.
Proof.
  unfold afterPlanning. simpl.
  destruct (DubinsPlan_empty p); simpl.
  - do 4 eexists. split; [reflexivity|]. split; [reflexivity|].
    simpl. rewrite <- app_assoc. reflexivity.
  - destruct (State_isCoLocated _ _); simpl;
      do 4 eexists; (split; [reflexivity|]);
      (split; [try reflexivity; apply restoreRadii_state|]);
      simpl; rewrite <- ?app_assoc; reflexivity.
Qed.

Lemma callPlanner_keeps (startTime : Q) (e : Executive) (w : World)
      (s : State) (p : DubinsPlan) :
  let r := callPlanner startTime e w s p in
  m_PlannerState (snd (fst r)) = m_PlannerState e
  /\ trace (snd r) = trace w.
Proof.
  unfold callPlanner. simpl. destruct (planner_plan _ _ _ _ _ _). simpl. auto.
Qed.

(** A pass that starts in state [Cancelled] is the last one. *)
Lemma iteration_Cancelled (e : Executive) (w : World) (l : Locals) :
  m_PlannerState e = Cancelled ->
  iteration e w l = Break e (snd (readClock w)).
Proof.
  intros Hc. unfold iteration, prepare. simpl. rewrite Hc. reflexivity.
Qed.

(** C7. In a pass of the running loop in which [planner->plan] throws:
    - a [std::exception] is caught; its [what()] is logged between the
      two fixed lines; [cancelPlanner] puts the state machine in
      [Cancelled]; the pass runs to its end, and the next pass stops at
      the cancellation check, so the loop returns (leaving [Inactive]);
    - anything else is logged and leaves [planLoop] as an exception,
      after [cancelPlanner] has put the state machine in [Cancelled]
      (the final reset to [Inactive] is not reached). *)
Theorem planLoop_handles_planner_exceptions
  (e : Executive) (w : World) (l : Locals) :
  m_PlannerState e = Running ->
  match plannerOutcome e w l with
  | Some (ThrowsStd what) =>
      exists e' w' l' before after,
        iteration e w l = Continue e' w' l'
        /\ m_PlannerState e' = Cancelled
        /\ trace w' = before ++ [Log "Exception thrown while planning:";
                                 Log what; Log "Pausing."] ++ after
        /\ iteration e' w' l' = Break e' (snd (readClock w'))
        /\ forall fuel,
             loop (S (S fuel)) e w l =
             Some (Returns (with_PlannerState Inactive e')
                           (snd (readClock w')))
  | Some ThrowsUnknown =>
      exists e' w' before,
        iteration e w l = Rethrown e' w'
        /\ m_PlannerState e' = Cancelled
        /\ trace w' = before
                      ++ [Log "Unknown exception thrown while planning; pausing"]
        /\ forall fuel, loop (S fuel) e w l = Some (Throws e' w')
  | Some (Returned _) | None => True
  end.
Proof.
  intros Hrun. unfold plannerOutcome, iteration.
  destruct (prepare e w l) as [|startTime e1 w1 s p] eqn:Hprep; [exact I|].
  apply prepare_state in Hprep as Hst. destruct Hst as [Hst _].
  rewrite Hrun in Hst.
  unfold planAndPublish.
  pose proof (callPlanner_keeps startTime e1 w1 s p) as Hkeep.
  destruct (callPlanner startTime e1 w1 s p) as [[outcome e2] w2] eqn:Hcall.
  simpl in Hkeep. destruct Hkeep as [Hst2 Htr2]. rewrite Hst in Hst2.
  simpl. destruct outcome as [newPlan|what|]; [exact I| |].
  - destruct (afterPlanning_continues startTime (cancelPlanner e2)
                (emit [Log "Exception thrown while planning:"; Log what;
                       Log "Pausing."] w2) s p)
      as (e' & w' & l' & evs & Hafter & Hst' & Htr').
    rewrite cancelPlanner_state, Hst2 in Hst'.
    exists e', w', l', (trace w2), evs.
    split; [exact Hafter|]. split; [exact Hst'|].
    split; [rewrite Htr'; simpl; rewrite <- app_assoc; reflexivity|].
    split; [now apply iteration_Cancelled|].
    intros fuel. simpl.
    unfold iteration at 1. rewrite Hprep. unfold planAndPublish.
    rewrite Hcall. rewrite Hafter.
    rewrite iteration_Cancelled by assumption. reflexivity.
  - exists (cancelPlanner e2),
      (emit [Log "Unknown exception thrown while planning; pausing"] w2),
      (trace w2).
    split; [reflexivity|].
    split; [now rewrite cancelPlanner_state, Hst2|].
    split; [reflexivity|].
    intros fuel. simpl. unfold iteration. rewrite Hprep.
    unfold planAndPublish. rewrite Hcall. reflexivity.
Qed.

(** A pass in which the planner returns leaves the state machine as it
    found it. *)
Lemma iteration_keeps_state (e : Executive) (w : World) (l : Locals)
      (newPlan : DubinsPlan) :
  plannerOutcome e w l = Some (Returned newPlan) ->
  exists e' w' l',
    iteration e w l = Continue e' w' l'
    /\ m_PlannerState e' = m_PlannerState e.
Proof.
  unfold plannerOutcome, iteration.
  destruct (prepare e w l) as [|startTime e1 w1 s p] eqn:Hprep;
    [discriminate|].
  apply prepare_state in Hprep as [Hst _].
  unfold planAndPublish.
  pose proof (callPlanner_keeps startTime e1 w1 s p) as Hkeep.
  destruct (callPlanner startTime e1 w1 s p) as [[outcome e2] w2].
  simpl in Hkeep. destruct Hkeep as [Hst2 _]. simpl.
  intros [= ->].
  destruct (afterPlanning_continues startTime e2 w2 s newPlan)
    as (e' & w' & l' & evs & Hafter & Hst' & _).
  exists e', w', l'. split; [exact Hafter|]. congruence.
Qed.

(** The loop is entered in state [Running], and a pass that ends without
    an exception leaves the state as it found it. *)
Lemma planLoop_enters_Running (fuel : nat) (e : Executive) (w : World) :
  m_PlannerState e <> Cancelled ->
  planLoop fuel e w =
  loop fuel (with_PlannerState Running e)
       (emit [Log "Initializing planner"] w) (mkLocals State_default []).
Proof.
  intros Hne. unfold planLoop.
  destruct (PlannerState_eqb (m_PlannerState e) Cancelled) eqn:E;
    [|reflexivity].
  apply PlannerState_eqb_eq in E. contradiction.
Qed.

End PlanLoopProperties.

(** ** The executive at concrete inputs *)

(** C1, witness of the general statement: previous call at heading 0 and
    time 100 s, next call one second later at heading 3 rad; the rate is
    3 rad/s against a maximum of 0.1. *)
Lemma updateCovered_covers_during_fast_turn_witness :
  (0 <= @c_CoverageHeadingRateMax Stub.constants
   /\ 0 < 100 /\ 100 < 101 /\ 0 < 3
   /\ @c_CoverageHeadingRateMax Stub.constants < Qabs (3 - 0) / (101 - 100))
  /\ let e1 := Executive.updateCovered (K := Stub.constants)
                 0 0 (5 # 2) 0 100 Stub.executive in
     Executive.m_RibbonManager
       (Executive.updateCovered (K := Stub.constants) 1 1 (5 # 2) 3 101 e1)
     = RibbonManager_cover (Collaborators := Stub.collaborators) 1 1
                           (Executive.m_RibbonManager e1).
Proof.
  split.
  - repeat split; vm_compute; (reflexivity || discriminate).
  - apply (@updateCovered_covers_during_fast_turn Stub.constants
             Stub.collaborators Stub.executive 0 0 (5 # 2) 0 100
             1 1 (5 # 2) 3 101);
      vm_compute; (reflexivity || discriminate).
Defined.

(** C1 at the failing input, run: a ribbon that ends at the point (1, 1)
    is covered by the second call although the heading changed by 3 rad
    in one second. *)
Example updateCovered_failing_input :
  let e0 := Executive.with_RibbonManager
              (mkRibbonManager MaxDistance 8 2 [mkRibbon 1 1 1 20])
              Stub.executive in
  let e1 := Executive.updateCovered (K := Stub.constants)
              0 0 (5 # 2) 0 100 e0 in
  let e2 := Executive.updateCovered (K := Stub.constants)
              1 1 (5 # 2) 3 101 e1 in
  m_Ribbons (Executive.m_RibbonManager e1) = [mkRibbon 1 1 1 20]
  /\ m_Ribbons (Executive.m_RibbonManager e2) = [].
Proof. split; reflexivity. Qed.

(** C2, the claim as stated fails: with the clock at 100.25 s, a last
    state stamped 100 s and [P = 1], the code pushes by 1.25 s where
    [P - (now - lastStateTime)] is 0.75 s. *)
Lemma pushInterval_counterexample :
  let now := 100 + (1 # 4) in
  let lastState := mkState 0 0 0 (5 # 2) 100 in
  Executive.pushInterval (K := Stub.constants) now lastState == 5 # 4
  /\ @c_PlanningTimeSeconds Stub.constants - (now - State_time lastState)
     == 3 # 4
  /\ ~ Executive.pushInterval (K := Stub.constants) now lastState
       == @c_PlanningTimeSeconds Stub.constants
          - (now - State_time lastState).
Proof.
  vm_compute. repeat split; try reflexivity. intros H; discriminate H.
Qed.

Lemma planLoop_synthesizes_start_state_witness :
  let R := Stub.runtime Stub.plannerReturns 8 in
  let l := Executive.mkLocals (C := Stub.collaborators) State_default [] in
  (State_time (Executive.startState l) == -1
   /\ Executive.m_PlannerState Stub.executive <> Cancelled
   /\ RibbonManager_done (Executive.m_RibbonManager Stub.executive) = false)
  /\ exists startTime e1 w1 previous,
       Executive.prepare (K := Stub.constants) (R := R)
                         Stub.executive Stub.world l
       = Executive.Plans startTime e1 w1
           (mkState (25 # 8) 0 0 (5 # 2) (100 + (5 # 4))) previous.
Proof.
  intros R l.
  assert (H1 : State_time (Executive.startState l) == -1) by reflexivity.
  assert (H2 : Executive.m_PlannerState Stub.executive <> Cancelled)
    by discriminate.
  assert (H3 : RibbonManager_done
                 (Executive.m_RibbonManager Stub.executive) = false)
    by reflexivity.
  split; [auto|].
  destruct (@planLoop_synthesizes_start_state Stub.constants
              Stub.collaborators R Stub.executive Stub.world l H1 H2 H3)
    as (startTime & e1 & w1 & previous & Hprep & _).
  exists startTime, e1, w1, previous.
  rewrite Hprep. f_equal.
Defined.

(** C8, the claim as stated fails: a GeoTIFF file under a directory whose
    name contains [".map"] has extension [.tiff] and is loaded as a grid
    world. *)
Lemma chooseFormat_counterexample :
  hasExtension ".map" "charts.maps/harbour.tiff" = false
  /\ hasExtension ".tiff" "charts.maps/harbour.tiff" = true
  /\ Executive.chooseFormat "charts.maps/harbour.tiff"
     = Executive.GridWorldFormat.
Proof. repeat split; reflexivity. Qed.

(** C8, witness: the empty path differs from the current path ["old.map"],
    contains no [".map"], goes to the GeoTIFF loader, which throws on it;
    the staged map is dropped and one line is logged. *)
Lemma refreshMap_format_and_failure_witness :
  let e := Executive.with_NewMap (C := Stub.collaborators) (Some "staged"%string)
             (Executive.with_CurrentMapPath "old.map" Stub.executive) in
  Executive.m_CurrentMapPath e <> ""%string
  /\ Executive.chooseFormat "" = Executive.GeoTiffFormat
  /\ Executive.m_NewMap (fst (Executive.refreshMap "" 43 (-70) e)) = None
  /\ exists msg,
       snd (Executive.refreshMap "" 43 (-70) e) = [Executive.Log msg].
Proof.
  intros e.
  assert (Hnew : Executive.m_CurrentMapPath e <> ""%string) by discriminate.
  destruct (@refreshMap_format_and_failure Stub.collaborators
              ""%string 43 (-70) e Hnew) as (_ & _ & _ & Hfail).
  split; [exact Hnew|]. split; [reflexivity|]. exact Hfail.
Defined.

(** C7, witness: a planner that throws [std::bad_alloc] in the first
    pass; the loop returns in the second pass, in state [Inactive], with
    the three lines in the log. *)
Lemma planLoop_handles_planner_exceptions_witness :
  let R := Stub.runtime Stub.plannerThrowsStd 8 in
  let l := Executive.mkLocals (C := Stub.collaborators) State_default [] in
  Executive.m_PlannerState Stub.executive = Running
  /\ exists e' w',
       Executive.loop (K := Stub.constants) (R := R) 2
                      Stub.executive Stub.world l
       = Some (Executive.Returns e' w')
       /\ Executive.m_PlannerState e' = Inactive
       /\ In (Executive.Log "std::bad_alloc") (Executive.trace w').
Proof.
  intros R l.
  assert (Hrun : Executive.m_PlannerState Stub.executive = Running)
    by reflexivity.
  split; [exact Hrun|].
  pose proof (@planLoop_handles_planner_exceptions Stub.constants
                Stub.collaborators R Stub.executive Stub.world l Hrun) as H.
  change (Executive.plannerOutcome Stub.executive Stub.world l)
    with (Some (@ThrowsStd Stub.collaborators "std::bad_alloc")) in H.
  cbv beta iota in H.
  destruct H as (e' & w' & l' & before & after & _ & _ & Htrace & _ & Hloop).
  exists (Executive.with_PlannerState Inactive e'),
         (snd (Executive.readClock w')).
  split; [apply (Hloop 0%nat)|]. split; [reflexivity|].
  simpl. rewrite Htrace. apply in_or_app. right. simpl. auto.
Defined.

(** C7 at an exception of unknown type: the loop is left by the
    exception, in state [Cancelled]. *)
Example planLoop_unknown_exception :
  let R := Stub.runtime Stub.plannerThrowsUnknown 8 in
  match Executive.planLoop (K := Stub.constants) (R := R) 5
          (Executive.with_PlannerState Inactive Stub.executive) Stub.world with
  | Some (Executive.Throws e' w') =>
      Executive.m_PlannerState e' = Cancelled
      /\ last (Executive.trace w') Executive.AllDone
         = Executive.Log "Unknown exception thrown while planning; pausing"
  | _ => False
  end.
Proof. vm_compute. split; reflexivity. Qed.

(** C3 (the code departs from the claim), run at the failing input:
    radius shrink enabled with amount 0.01,
    turning radii 8, cumulative shrink 0.  The planner returns a plan in
    both passes; the controller is on the plan after the first and 5 m
    off after the second.  The second pass empties the plan and zeroes
    the cumulative shrink, and leaves both radii at 8.01, not at 8. *)
Theorem planLoop_divergence_overshoots_radii :
  let R := Stub.runtime Stub.plannerReturns 8 in
  let l := Executive.mkLocals (C := Stub.collaborators) State_default [] in
  match Executive.passes (K := Stub.constants) (R := R) 1
          Stub.executive Stub.world l,
        Executive.passes (K := Stub.constants) (R := R) 2
          Stub.executive Stub.world l with
  | Executive.Continue e1 w1 l1, Executive.Continue e2 w2 l2 =>
      (* first pass: on the plan *)
      Executive.plan l1 = [1%nat; 2%nat]
      /\ turningRadius (Executive.m_PlannerConfig e1) == 8 - (1 # 100)
      /\ Executive.m_RadiusShrink e1 == 2 # 100
      (* second pass: diverged *)
      /\ Executive.plan l2 = []
      /\ Executive.m_RadiusShrink e2 == 0
      /\ turningRadius (Executive.m_PlannerConfig e2) == 8 + (1 # 100)
      /\ coverageTurningRadius (Executive.m_PlannerConfig e2)
         == 8 + (1 # 100)
      /\ ~ turningRadius (Executive.m_PlannerConfig e2)
           == turningRadius (Executive.m_PlannerConfig Stub.executive)
  | _, _ => False
  end.
Proof.
  vm_compute. repeat split; try reflexivity. intros H; discriminate H.
Qed.

(** ** The planner *)

Section AStarPlannerProperties.
Context {C : Collaborators} {P : PlannerParts}.
Import AStarPlanner.

(** *** The previous plan *)



(** The chain hangs from the root: the first vertex has [from] as its
    parent, every other one its predecessor; the edges are the paths of
    the plan in order; every edge has its true cost computed. *)
Lemma chain_shape (cfg : PlannerConfig) :
  forall (paths : list DubinsPath) (from : Vertex),
    let ch := chain cfg from paths in
    List.map Vertex_parent ch
      = List.map Some (firstn (List.length paths) (from :: ch))
    /\ List.map Vertex_edge ch = List.map (fun p => Some (PathEdge p)) paths
    /\ forallb costComputed ch = true.
Proof.
  induction paths as [|p paths IH]; intros from; simpl; [auto|].
  destruct (IH (computeTrueCost cfg (Vertex_connectPath from p)))
    as (Hp & He & Hc).
  simpl in *. rewrite Hp, He, Hc.
  destruct (DubinsEdge_trueCost cfg from (PathEdge p)); auto.
Qed.


Lemma setup_lastPlanEnd
  (rm : RibbonManager) (start : State) (config : PlannerConfig)
  (previousPlan : DubinsPlan) (timeRemaining : Q) (p : Planner) :
  let sp := setup rm start config previousPlan timeRemaining p in
  lastPlanEnd (fst sp)
  = fst (checkOldPlan (m_Config (snd sp)) (startV (fst sp)) previousPlan).
Proof. reflexivity. Qed.

(** *** The early exit of the big loop *)

(** C4. At the top of a pass of the big loop (the loop condition just
    held), with a best vertex whose [f] is at most that of [startV]: the
    loop ends there.  The queue is cleared and the message written; the
    call then writes its counts and returns the plan traced back from
    the best vertex.  Nothing is pushed on the queue, no sample is added
    and the inner search is not run. *)
Theorem bigLoop_stops_at_best_possible
  (fuel : nat) (s : Search) (p : Planner) (best : Vertex) :
  nowFn (readings p) < endTime s ->
  m_BestVertex p = Some best ->
  Vertex_f best <= Vertex_f (startV s) ->
  let p1 := record [ClearVertexQueue;
                    Output "Found best possible plan, assuming heuristic admissibility"]
                   (with_VertexQueue [] (with_readings (S (readings p)) p)) in
  let p2 := record [OutputCounts (List.length (m_Samples p))
                                 (m_ExpandedCount p) (m_IterationCount p)]
                   p1 in
  bigLoop (S fuel) s p = Ok p1
  /\ search (S fuel) s p
     = Ok (tracePlan best false (obstacles (m_Config p)), p2)
  /\ m_Samples p2 = m_Samples p
  /\ m_ExpandedCount p2 = m_ExpandedCount p
  /\ exists added, calls p2 = calls p ++ added
                   /\ existsb searches added = false.
Proof.
  intros Hnow Hbest Hf p1 p2.
  assert (Hloop : bigLoop (S fuel) s p = Ok p1).
  { simpl. unfold Qlt_bool.
    replace (Qle_bool (endTime s) (nowFn (readings p))) with false.
    2:{ symmetry. destruct (Qle_bool _ _) eqn:E; [|reflexivity].
        apply Qle_bool_iff in E. lra. }
    simpl. unfold bestIsBestPossible. simpl. rewrite Hbest.
    apply Qle_bool_iff in Hf. rewrite Hf.
    subst p1. unfold record. simpl. rewrite <- app_assoc. reflexivity. }
  split; [exact Hloop|].
  split.
  { unfold search. rewrite Hloop. unfold finish. simpl. rewrite Hbest.
    reflexivity. }
  split; [reflexivity|]. split; [reflexivity|].
  eexists. split.
  - subst p2 p1. simpl. rewrite <- app_assoc. reflexivity.
  - reflexivity.
Qed.

(** *** Termination on the clock and the returned plan *)

Lemma popVertexQueue_nonempty (p : Planner) :
  m_VertexQueue p <> [] ->
  exists v p', popVertexQueue p = Some (v, p') /\ readings p' = readings p.
Proof.
  unfold popVertexQueue. destruct (m_VertexQueue p) as [|v q]; [congruence|].
  intros _. destruct (takeBest v q) as [b rest]. eauto.
Qed.

Lemma pushVertexQueue_keeps (v : Vertex) (p : Planner) :
  readings (pushVertexQueue v p) = readings p
  /\ m_VertexQueue (pushVertexQueue v p) <> [].
Proof.
  split; [reflexivity|]. simpl. now destruct (m_VertexQueue p).
Qed.

Lemma fold_push_keeps {A : Type} (f : Planner -> A -> Vertex) (l : list A) :
  forall p : Planner,
    let p' := fold_left (fun p a => pushVertexQueue (f p a) p) l p in
    readings p' = readings p
    /\ (m_VertexQueue p <> [] -> m_VertexQueue p' <> []).
Proof.
  induction l as [|a l IH]; intros p; simpl; [auto|].
  destruct (IH (pushVertexQueue (f p a) p)) as [Hr Hq].
  destruct (pushVertexQueue_keeps (f p a) p) as [Hr' Hq'].
  split; [congruence|auto].
Qed.

Lemma expandToCoverSpecificSamples_keeps
      (root : Vertex) (samples : list State) (b : bool) (p : Planner) :
  let p' := expandToCoverSpecificSamples root samples b p in
  readings p' = readings p
  /\ (m_VertexQueue p <> [] -> m_VertexQueue p' <> []).
Proof.
  unfold expandToCoverSpecificSamples.
  destruct (Qlt_bool 0 (coverageTurningRadius (m_Config p))); [|auto].
  apply (fold_push_keeps
           (fun p s =>
              computeTrueCost (m_Config p)
                (Vertex_connect root
                   (mkState (State_x s) (State_y s) (State_heading s)
                            (maxSpeed (m_Config p)) (State_time s))
                   (coverageTurningRadius (m_Config p)) b))).
Qed.

Lemma expand_keeps (v : Vertex) (p : Planner) :
  readings (expand v p) = readings p.
Proof.
  unfold expand. simpl.
  apply (fold_push_keeps (fun _ c => c)
           (expandChildren (m_Config p) (m_Samples p) v) (record [Expand v] p)).
Qed.

Lemma keepBetter_keeps (v : option Vertex) (p : Planner) :
  readings (keepBetter v p) = readings p.
Proof.
  unfold keepBetter.
  destruct (m_BestVertex p) as [best|], v as [v|]; simpl;
    try destruct (Qlt_bool _ _); reflexivity.
Qed.

Section Deadline.
(** The clock is at or past [deadline] from its [N]-th reading on. *)
Variable deadline : Q.
Variable N : nat.
Hypothesis reached : forall n, (N <= n)%nat -> deadline <= nowFn n.

Lemma late_reading (p : Planner) :
  (N <= readings p)%nat -> Qlt_bool (nowFn (readings p)) deadline = false.
Proof.
  intros Hn. unfold Qlt_bool.
  replace (Qle_bool deadline (nowFn (readings p))) with true; [reflexivity|].
  symmetry. apply Qle_bool_iff. now apply reached.
Qed.

Lemma aStarLoop_returns :
  forall (fuel : nat) (vertex : Vertex) (p : Planner),
    (N - readings p < fuel)%nat ->
    exists r p',
      aStarLoop fuel deadline vertex p = Ok (r, p')
      /\ (readings p < readings p')%nat.
Proof.
  induction fuel as [|fuel IH]; intros vertex p Hfuel; [lia|].
  cbn [aStarLoop]. unfold now.
  destruct (Nat.le_gt_cases N (readings p)) as [Hlate|Hearly].
  - rewrite late_reading by assumption.
    do 2 eexists. split; [reflexivity|]. simpl. lia.
  - destruct (Qlt_bool (nowFn (readings p)) deadline).
    2:{ do 2 eexists. split; [reflexivity|]. simpl. lia. }
    set (p1 := with_readings (S (readings p)) p).
    destruct (goalCondition vertex && improves vertex p1).
    { do 2 eexists. split; [reflexivity|]. simpl. lia. }
    pose proof (expand_keeps vertex p1) as Hexp.
    unfold vertexQueueEmpty.
    destruct (m_VertexQueue (expand vertex p1)) as [|v q] eqn:Hq.
    { do 2 eexists. split; [reflexivity|]. rewrite Hexp. simpl. lia. }
    destruct (popVertexQueue_nonempty (expand vertex p1))
      as (v' & p2 & Hpop & Hr2); [congruence|].
    rewrite Hpop.
    destruct (IH v' p2) as (r & p' & Hloop & Hr').
    { rewrite Hr2, Hexp. simpl. lia. }
    exists r, p'. split; [exact Hloop|].
    rewrite Hr2, Hexp in Hr'. simpl in Hr'. lia.
Qed.

Lemma aStar_returns (fuel : nat) (p : Planner) :
  (N - readings p < fuel)%nat ->
  m_VertexQueue p <> [] ->
  exists r p',
    aStar fuel deadline p = Ok (r, p') /\ (readings p < readings p')%nat.
Proof.
  intros Hfuel Hq. unfold aStar.
  destruct (popVertexQueue_nonempty (record [AStar] p))
    as (v & p1 & Hpop & Hr1); [exact Hq|].
  rewrite Hpop.
  destruct (aStarLoop_returns fuel v p1) as (r & p' & Hloop & Hr').
  { rewrite Hr1. exact Hfuel. }
  exists r, p'. split; [exact Hloop|]. rewrite Hr1 in Hr'. exact Hr'.
Qed.

Lemma bigLoop_returns (s : Search) :
  endTime s = deadline ->
  forall (fuel : nat) (p : Planner),
    (N - readings p < fuel)%nat ->
    exists p', bigLoop fuel s p = Ok p'.
Proof.
  intros Hend.
  induction fuel as [|fuel IH]; intros p Hfuel; [lia|].
  cbn [bigLoop]. unfold now. rewrite Hend.
  destruct (Nat.le_gt_cases N (readings p)) as [Hlate|Hearly].
  - rewrite late_reading by assumption. eauto.
  - destruct (Qlt_bool (nowFn (readings p)) deadline); [|eauto].
    set (p1 := clearVertexQueue (with_readings (S (readings p)) p)).
    destruct (bestIsBestPossible s p1); [eauto|].
    set (p2 := pushVertexQueue (startV s)
                 (record [VisualizeVertex (startV s) "start"] p1)).
    set (p3 := if negb (Vertex_isRoot (lastPlanEnd s))
               then pushVertexQueue (lastPlanEnd s) p2 else p2).
    assert (H3 : readings p3 = S (readings p) /\ m_VertexQueue p3 <> []).
    { subst p3. destruct (negb _).
      - split; [reflexivity|apply pushVertexQueue_keeps].
      - split; [reflexivity|apply (pushVertexQueue_keeps (startV s))]. }
    set (p4 := expandToCoverSpecificSamples (startV s) (ribbonSamples s)
                 true p3).
    destruct (expandToCoverSpecificSamples_keeps
                (startV s) (ribbonSamples s) true p3) as [Hr4 Hq4].
    fold p4 in Hr4, Hq4.
    set (p5 := expandToCoverSpecificSamples (startV s) (otherRibbonSamples s)
                 true p4).
    destruct (expandToCoverSpecificSamples_keeps
                (startV s) (otherRibbonSamples s) true p4) as [Hr5 Hq5].
    fold p5 in Hr5, Hq5.
    set (p6 := if (List.length (m_Samples p5) <? c_InitialSamples)%nat
               then addSamples (generator s) c_InitialSamples p5
               else addSamples_more (generator s) p5).
    assert (H6 : readings p6 = S (readings p) /\ m_VertexQueue p6 <> []).
    { destruct H3 as [H3r H3q].
      subst p6. destruct (_ <? _)%nat; simpl; (split; [congruence|auto]). }
    destruct H6 as [Hr6 Hq6].
    destruct (aStar_returns fuel p6) as (r & p7 & Hastar & Hr7);
      [rewrite Hr6; lia|exact Hq6|].
    rewrite Hastar.
    apply IH. simpl. rewrite keepBetter_keeps. lia.
Qed.

End Deadline.

(** C6. When the configured clock is at or past the deadline
    [timeRemaining + now()] from some reading on, a call of [plan] with
    enough fuel for those readings returns: the big loop it runs after the
    set-up ends in a state [atEnd], and the call returns the empty plan
    when [m_BestVertex] is null in [atEnd], and otherwise the plan traced
    back from the [m_BestVertex] of [atEnd]; the planner is left as the
    return statement leaves [atEnd]. *)
Theorem plan_returns_traced_or_empty
  (N fuel : nat) (ribbonManager : RibbonManager) (start : State)
  (config : PlannerConfig) (previousPlan : DubinsPlan) (timeRemaining : Q)
  (p : Planner) :
  (forall n, (N <= n)%nat -> timeRemaining + nowFn (readings p) <= nowFn n) ->
  (N - readings p < fuel)%nat ->
  let entered :=
    setup ribbonManager start config previousPlan timeRemaining p in
  exists atEnd : Planner,
    bigLoop fuel (fst entered) (snd entered) = Ok atEnd
    /\ plan fuel ribbonManager start config previousPlan timeRemaining p
       = Ok (match m_BestVertex atEnd with
             | None => []
             | Some best =>
                 tracePlan best false (obstacles (m_Config atEnd))
             end,
             snd (finish atEnd)).
Proof.
  intros Hclock Hfuel entered. subst entered. unfold plan.
  destruct (setup ribbonManager start config previousPlan timeRemaining p)
    as [s p0] eqn:Hsetup.
  assert (Hend : endTime s = timeRemaining + nowFn (readings p)
                 /\ readings p0 = S (readings p)).
  { unfold setup in Hsetup. simpl in Hsetup.
    injection Hsetup as <- <-. split; reflexivity. }
  destruct Hend as [Hend Hr0].
  destruct (bigLoop_returns (timeRemaining + nowFn (readings p)) N Hclock
              s Hend fuel p0) as (p1 & Hloop); [rewrite Hr0; lia|].
  exists p1. cbn [fst snd]. split; [exact Hloop|].
  unfold search. rewrite Hloop. unfold finish.
  change (m_BestVertex
            (record [OutputCounts (List.length (m_Samples p1))
                       (m_ExpandedCount p1) (m_IterationCount p1)] p1))
    with (m_BestVertex p1).
  destruct (m_BestVertex p1) as [best|]; reflexivity.
Qed.

End AStarPlannerProperties.

(** ** The planner at concrete inputs *)

(** C5 on two plans: paths 1 and 2 are feasible and [lastPlanEnd] is the
    end of the chain; with the infeasible path 0 in second place the
    third path is never connected and [lastPlanEnd] is the root. *)
Example checkOldPlan_examples :
  let root := Vertex_makeRoot (C := Stub.collaborators) Stub.start
                              Stub.ribbons in
  let v1 := Child root (PathEdge (C := Stub.collaborators) 1%nat)
                  (TrueCost 1) in
  let v2 := Child v1 (PathEdge (C := Stub.collaborators) 2%nat)
                  (TrueCost 2) in
  let bad := Child v1 (PathEdge (C := Stub.collaborators) 0%nat)
                   Infeasible in
  AStarPlanner.checkOldPlan (P := Stub.plannerParts) Stub.config root
                            [1%nat; 2%nat]
  = (v2, [v1; v2])
  /\ AStarPlanner.checkOldPlan (P := Stub.plannerParts) Stub.config root
                               [1%nat; 0%nat; 2%nat]
     = (root, [v1; bad]).
Proof. split; reflexivity. Qed.

(** C4, witness: one reading made, deadline at 101 s, a best vertex of
    cost 3 against 10 at the root. *)
Lemma bigLoop_stops_at_best_possible_witness :
  let root := Vertex_makeRoot (C := Stub.collaborators) Stub.start
                              Stub.ribbons in
  let best := Child root (StateEdge Stub.start 8 true) (TrueCost 3) in
  let s := AStarPlanner.mkSearch root root [] []
             (mkStateGenerator (-75) 75 (-75) 75 (5 # 2) (5 # 2) 7
                               Stub.ribbons) 101 in
  let p := AStarPlanner.with_BestVertex (Some best)
             (AStarPlanner.with_readings 1%nat Stub.planner) in
  (nowFn (PlannerParts := Stub.plannerParts) (AStarPlanner.readings p)
   < AStarPlanner.endTime s
   /\ AStarPlanner.m_BestVertex p = Some best
   /\ Vertex_f (PlannerParts := Stub.plannerParts) best
      <= Vertex_f (PlannerParts := Stub.plannerParts)
                  (AStarPlanner.startV s))
  /\ exists p',
       AStarPlanner.search (P := Stub.plannerParts) 1 s p = AStarPlanner.Ok ([1%nat], p')
       /\ AStarPlanner.m_VertexQueue p' = []
       /\ AStarPlanner.m_Samples p' = [].
Proof.
  intros root best s p.
  assert (H1 : nowFn (PlannerParts := Stub.plannerParts)
                 (AStarPlanner.readings p) < AStarPlanner.endTime s)
    by (vm_compute; reflexivity).
  assert (H2 : AStarPlanner.m_BestVertex p = Some best) by reflexivity.
  assert (H3 : Vertex_f (PlannerParts := Stub.plannerParts) best
               <= Vertex_f (PlannerParts := Stub.plannerParts)
                           (AStarPlanner.startV s))
    by (vm_compute; discriminate).
  split; [auto|].
  destruct (@bigLoop_stops_at_best_possible Stub.collaborators
              Stub.plannerParts 0%nat s p best H1 H2 H3)
    as (_ & Hsearch & _).
  eexists. split; [exact Hsearch|]. split; reflexivity.
Defined.

Lemma quarters_reach_101 (n : nat) :
  (4 <= n)%nat -> 1 + Stub.quarters 0 <= Stub.quarters n.
Proof.
  intros Hn. unfold Stub.quarters.
  assert (4 <= inject_Z (Z.of_nat n)).
  { change 4 with (inject_Z 4). rewrite <- Zle_Qle. lia. }
  assert (1 <= inject_Z (Z.of_nat n) / 4)
    by (apply Qle_shift_div_l; lra).
  assert (E : inject_Z (Z.of_nat 0) / 4 == 0) by reflexivity.
  rewrite E. lra.
Qed.

(** C6, witness: one second of planning on the quarter-second clock,
    which is past the deadline from its fourth reading on.  The big loop
    ends with a best vertex three edges behind the root and the call
    returns the plan traced back from it. *)
Lemma plan_returns_traced_or_empty_witness :
  (forall n, (4 <= n)%nat ->
     1 + nowFn (PlannerParts := Stub.plannerParts)
           (AStarPlanner.readings Stub.planner)
     <= nowFn (PlannerParts := Stub.plannerParts) n)
  /\ (4 - AStarPlanner.readings Stub.planner < 5)%nat
  /\ exists atEnd,
       AStarPlanner.bigLoop (P := Stub.plannerParts) 5
                            (fst StubMore.entered) (snd StubMore.entered)
       = AStarPlanner.Ok atEnd
       /\ AStarPlanner.plan (P := Stub.plannerParts) 5 Stub.ribbons Stub.start
                            Stub.config [1%nat; 2%nat] 1 Stub.planner
          = AStarPlanner.Ok
              (match AStarPlanner.m_BestVertex atEnd with
               | None => []
               | Some best =>
                   tracePlan (PlannerParts := Stub.plannerParts) best false
                             (obstacles (AStarPlanner.m_Config atEnd))
               end,
               snd (AStarPlanner.finish (P := Stub.plannerParts) atEnd)).
Proof.
  assert (H2 : (4 - AStarPlanner.readings Stub.planner < 5)%nat)
    by (simpl; lia).
  split; [exact quarters_reach_101|]. split; [exact H2|].
  exact (@plan_returns_traced_or_empty Stub.collaborators Stub.plannerParts
           4%nat 5%nat Stub.ribbons Stub.start Stub.config [1%nat; 2%nat] 1
           Stub.planner quarters_reach_101 H2).
Defined.

(** C6 on two runs: with one second the search finds a goal behind the
    previous plan and the traced plan has three edges; with no time left
    the loop is not entered, [m_BestVertex] stays null and the plan is
    empty. *)
Example plan_examples :
  match AStarPlanner.plan (P := Stub.plannerParts) 5 Stub.ribbons Stub.start
          Stub.config [1%nat; 2%nat] 1 Stub.planner,
        AStarPlanner.plan (P := Stub.plannerParts) 5 Stub.ribbons Stub.start
          Stub.config [1%nat; 2%nat] 0 Stub.planner with
  | AStarPlanner.Ok (found, p1), AStarPlanner.Ok (none, p2) =>
      found = [1%nat; 2%nat; 3%nat]
      /\ AStarPlanner.m_BestVertex p1 <> None
      /\ none = []
      /\ AStarPlanner.m_BestVertex p2 = None
      /\ last (AStarPlanner.calls p2) AStarPlanner.AStar
         = AStarPlanner.Output "Failed to find a plan"
  | _, _ => False
  end.
Proof. vm_compute. repeat split; try reflexivity. discriminate. Qed.

(** * Further properties of the executive *)

Section ConfigurationProperties.
Context {K : Constants} {C : Collaborators}.
Import Executive.

Lemma setConfiguration_config
  (tr ctr ms lw : Q) (k heuristic : Z) (e : Executive) :
  let e' := fst (setConfiguration tr ctr ms lw k heuristic e) in
  m_PlannerConfig e' =
    mkPlannerConfig ms tr ctr k (obstacles (m_PlannerConfig e))
                    (map (m_PlannerConfig e))
                    (startStateTime (m_PlannerConfig e))
  /\ s_RibbonWidth e' = lw.
Proof.
  unfold setConfiguration.
  repeat match goal with
         | |- context [match ?x with _ => _ end] => destruct x
         end; simpl; auto.
Qed.

(** X1. A heuristic id outside 0..4 is refused with one warning and the
    live ribbon manager is left as it is; the four planner settings and
    the ribbon width are applied all the same. *)
Theorem setConfiguration_unknown_heuristic
  (tr ctr ms lw : Q) (k heuristic : Z) (e : Executive) :
  (heuristic < 0 \/ 4 < heuristic)%Z ->
  let r := setConfiguration tr ctr ms lw k heuristic e in
  m_RibbonManager (fst r) = m_RibbonManager e
  /\ snd r = [Log "Unknown heuristic. Ignoring."]
  /\ turningRadius (m_PlannerConfig (fst r)) = tr
  /\ coverageTurningRadius (m_PlannerConfig (fst r)) = ctr
  /\ maxSpeed (m_PlannerConfig (fst r)) = ms
  /\ branchingFactor (m_PlannerConfig (fst r)) = k
  /\ s_RibbonWidth (fst r) = lw.
Proof.
  intros Hout r.
  destruct (setConfiguration_config tr ctr ms lw k heuristic e) as [Hc Hw].
  fold r in Hc, Hw. rewrite Hc, Hw. simpl.
  assert (Hr : m_RibbonManager (fst r) = m_RibbonManager e
               /\ snd r = [Log "Unknown heuristic. Ignoring."]).
  { subst r. unfold setConfiguration.
    repeat match goal with
           | |- context [match ?x with _ => _ end] => destruct x
           end; simpl; auto; lia. }
  destruct Hr as [-> ->]. repeat split.
Qed.

(** X2. Whatever the arguments, [setConfiguration] touches nothing of
    the live ribbon manager but its heuristic (ribbons, [k] and the
    manager's own turning radius stay), keeps the obstacles, the map and
    the start time of the planner configuration, and leaves the state
    machine, the staged map, the map path, the last pose and the
    cumulative radius shrink alone.  For an id in 0..4 nothing is
    logged. *)
Theorem setConfiguration_frame
  (tr ctr ms lw : Q) (k heuristic : Z) (e : Executive) :
  let r := setConfiguration tr ctr ms lw k heuristic e in
  m_Ribbons (m_RibbonManager (fst r)) = m_Ribbons (m_RibbonManager e)
  /\ m_K (m_RibbonManager (fst r)) = m_K (m_RibbonManager e)
  /\ m_TurningRadius (m_RibbonManager (fst r))
     = m_TurningRadius (m_RibbonManager e)
  /\ obstacles (m_PlannerConfig (fst r)) = obstacles (m_PlannerConfig e)
  /\ map (m_PlannerConfig (fst r)) = map (m_PlannerConfig e)
  /\ m_PlannerState (fst r) = m_PlannerState e
  /\ m_NewMap (fst r) = m_NewMap e
  /\ m_CurrentMapPath (fst r) = m_CurrentMapPath e
  /\ m_LastState (fst r) = m_LastState e
  /\ m_RadiusShrink (fst r) = m_RadiusShrink e
  /\ snd r = if ((0 <=? heuristic) && (heuristic <=? 4))%Z then []
             else [Log "Unknown heuristic. Ignoring."].
Proof.
  intros r. subst r.
  assert (Hlog : snd (setConfiguration tr ctr ms lw k heuristic e)
                 = if ((0 <=? heuristic) && (heuristic <=? 4))%Z then []
                   else [Log "Unknown heuristic. Ignoring."]).
  { destruct ((0 <=? heuristic) && (heuristic <=? 4))%Z eqn:E.
    - apply andb_true_iff in E as [E1 E2].
      apply Z.leb_le in E1. apply Z.leb_le in E2.
      unfold setConfiguration.
      repeat match goal with
             | |- context [match ?x with _ => _ end] => destruct x
             end; simpl; auto; lia.
    - apply andb_false_iff in E.
      assert (heuristic < 0 \/ 4 < heuristic)%Z as Hout
          by (destruct E as [E|E]; apply Z.leb_gt in E; lia).
      unfold setConfiguration.
      repeat match goal with
             | |- context [match ?x with _ => _ end] => destruct x
             end; simpl; auto; lia. }
  rewrite Hlog. clear Hlog. unfold setConfiguration.
  repeat match goal with
         | |- context [match ?x with _ => _ end] => destruct x
         end; simpl; repeat split; auto.
Qed.

End ConfigurationProperties.

Section MapRefreshProperties.
Context {K : Constants} {C : Collaborators}.
Import Executive.

(** X3. Once a map has loaded from a path, a further [refreshMap] with
    that path, whatever its latitude and longitude, loads nothing and
    changes nothing: the staged map and the remembered path stay. *)
Theorem refreshMap_again_is_skipped
  (path : string) (lat lon lat' lon' : Q) (e : Executive) (m : Map) :
  m_CurrentMapPath e <> path ->
  loadMap path lat lon = Some m ->
  let e1 := fst (refreshMap path lat lon e) in
  m_NewMap e1 = Some m
  /\ m_CurrentMapPath e1 = path
  /\ refreshMap path lat' lon' e1 = (e1, []).
Proof.
  intros Hnew Hload e1.
  assert (H1 : refreshMap path lat lon e
               = (with_CurrentMapPath path (with_NewMap (Some m) e), [])).
  { unfold refreshMap.
    destruct (String.eqb (m_CurrentMapPath e) path) eqn:E.
    { apply String.eqb_eq in E. contradiction. }
    now rewrite Hload. }
  subst e1. rewrite H1. simpl.
  split; [reflexivity|]. split; [reflexivity|].
  unfold refreshMap. simpl. now rewrite String.eqb_refl.
Qed.

Lemma refreshMap_throws (path : string) (lat lon : Q) (e : Executive) :
  m_CurrentMapPath e <> path ->
  loadMap path lat lon = None ->
  refreshMap path lat lon e =
  (with_CurrentMapPath "" (with_NewMap None e),
   [Log ("Encountered an error loading map at path " ++ path
         ++ "." ++ String (Ascii.ascii_of_nat 10) "Map was not updated.")]).
Proof.
  intros Hnew Hload. unfold refreshMap.
  destruct (String.eqb (m_CurrentMapPath e) path) eqn:E.
  { apply String.eqb_eq in E. contradiction. }
  now rewrite Hload.
Qed.

(** X4. A load that throws drops whatever map was staged and forgets the
    current path, so a further [refreshMap] with the same (non-empty)
    path is not skipped: it tries the load again, and failing again it
    gives the same state and the same message. *)
Theorem refreshMap_failure_is_retried
  (path : string) (lat lon : Q) (e : Executive) :
  path <> ""%string ->
  m_CurrentMapPath e <> path ->
  loadMap path lat lon = None ->
  let r := refreshMap path lat lon e in
  m_NewMap (fst r) = None
  /\ m_CurrentMapPath (fst r) = ""%string
  /\ snd r <> []
  /\ refreshMap path lat lon (fst r) = r.
Proof.
  intros Hne Hnew Hload r. subst r.
  rewrite (refreshMap_throws path lat lon e Hnew Hload). simpl.
  split; [reflexivity|]. split; [reflexivity|]. split; [discriminate|].
  rewrite refreshMap_throws; [reflexivity| |exact Hload].
  simpl. congruence.
Qed.


End MapRefreshProperties.

Section RadiusProperties.
Context {K : Constants} {C : Collaborators} {R : Runtime}.
Import Executive.

(** X6. With no shrink pending ([m_RadiusShrink] zero), the shrink made
    at the top of a pass and the rollback made on a divergence in that
    same pass cancel: both turning radii come back to their values and
    the cumulative shrink to zero, whether the feature is enabled or
    not. *)
Theorem shrink_then_rollback_restores (e : Executive) :
  m_RadiusShrink e == 0 ->
  let e' := restoreRadii (shrinkRadii e) in
  turningRadius (m_PlannerConfig e') == turningRadius (m_PlannerConfig e)
  /\ coverageTurningRadius (m_PlannerConfig e')
     == coverageTurningRadius (m_PlannerConfig e)
  /\ m_RadiusShrink e' == 0.
Proof.
  intros Hzero e'. subst e'. unfold restoreRadii, shrinkRadii.
  destruct c_RadiusShrinkEnabled; simpl.
  - repeat split; try reflexivity; rewrite Hzero; ring.
  - repeat split; try reflexivity. exact Hzero.
Qed.

(** *** The sleep at the end of a pass *)

Lemma double_to_int_nonneg (q : Q) :
  0 <= q -> q <= inject_Z INT_MAX -> double_to_int q = Qfloor q.
Proof.
  intros Hq Hmax. unfold double_to_int.
  apply Qle_bool_iff in Hq as Hb. rewrite Hb.
  assert (Hlo : (0 <= Qfloor q)%Z)
    by (change 0%Z with (Qfloor 0); apply Qfloor_resp_le; exact Hq).
  assert (Hhi : (Qfloor q <= INT_MAX)%Z)
    by (rewrite <- (Qfloor_Z INT_MAX); apply Qfloor_resp_le; exact Hmax).
  replace (INT_MIN <=? Qfloor q)%Z with true
    by (symmetry; apply Z.leb_le; unfold INT_MIN; lia).
  replace (Qfloor q <=? INT_MAX)%Z with true
    by (symmetry; apply Z.leb_le; exact Hhi).
  reflexivity.
Qed.

(** X7. The time slept is not negative as long as the milliseconds left
    of the period fit an [int]: that is so when the period less the time
    the pass took is at most 2147483 s, whatever the two clock readings
    otherwise are. *)
Theorem sleepTime_nonnegative (startTime endTime : Q) :
  c_PlanningTimeSeconds - (endTime - startTime) <= 2147483 ->
  (0 <= sleepTime startTime endTime)%Z.
Proof.
  intros Hfit. unfold sleepTime.
  destruct (Qle_bool (endTime - startTime) c_PlanningTimeSeconds) eqn:E;
    [|lia].
  apply Qle_bool_iff in E.
  rewrite double_to_int_nonneg.
  - change 0%Z with (Qfloor 0). apply Qfloor_resp_le. nra.
  - nra.
  - change (inject_Z INT_MAX) with 2147483647. nra.
Qed.

(** X8. When the pass took at most the planning period, the clock did
    not step back during it and the period is at most 2147483 s, the sleep
    fills the period: time taken plus time slept is less than a
    millisecond above [c_PlanningTimeSeconds] and less than two
    milliseconds below it.  (On rationals the sum is at most the period
    and less than one millisecond below; the wider bounds leave room for
    the rounding of the product before it is truncated.) *)
Theorem sleepTime_fills_period (startTime endTime : Q) :
  0 <= endTime - startTime ->
  endTime - startTime <= c_PlanningTimeSeconds ->
  c_PlanningTimeSeconds <= 2147483 ->
  let slept := inject_Z (sleepTime startTime endTime) / 1000 in
  (endTime - startTime) + slept < c_PlanningTimeSeconds + (1 # 1000)
  /\ c_PlanningTimeSeconds - (2 # 1000) < (endTime - startTime) + slept.
Proof.
  intros Hmono Hin Hfit slept. subst slept. unfold sleepTime.
  apply Qle_bool_iff in Hin as Hb. rewrite Hb.
  set (x := (c_PlanningTimeSeconds - (endTime - startTime)) * 1000).
  assert (Hx : 0 <= x) by (subst x; nra).
  assert (Hx' : x <= inject_Z INT_MAX)
    by (change (inject_Z INT_MAX) with 2147483647; subst x; nra).
  rewrite double_to_int_nonneg by assumption.
  pose proof (Qfloor_le x) as Hlo.
  pose proof (Qlt_floor x) as Hhi.
  rewrite inject_Z_plus in Hhi. change (inject_Z 1) with 1 in Hhi.
  set (f := inject_Z (Qfloor x)) in *.
  assert (Hdiv : f / 1000 == f * (1 # 1000)) by (field).
  rewrite Hdiv. subst x. split; nra.
Qed.

(** A pass that overran the planning period does not sleep. *)
Lemma sleepTime_overrun (startTime endTime : Q) :
  c_PlanningTimeSeconds < endTime - startTime ->
  sleepTime startTime endTime = 0%Z.
Proof.
  intros Hover. unfold sleepTime.
  destruct (Qle_bool (endTime - startTime) c_PlanningTimeSeconds) eqn:E;
    [|reflexivity].
  apply Qle_bool_iff in E. lra.
Qed.

End RadiusProperties.

Section PoseProperties.
Context {K : Constants} {C : Collaborators}.
Import Executive.

(** X9. [updateCovered] records the pose it is given whether or not it
    applies coverage, and touches nothing else than the ribbons: the
    executive it leaves is the one it found with the last state, heading
    and update time set from the arguments and with the ribbon manager
    either as it was or covered at the position given; every other member
    is as before. *)
Theorem updateCovered_records_pose (x y speed heading t : Q) (e : Executive) :
  exists ribbonManager : RibbonManager,
    (ribbonManager = m_RibbonManager e
     \/ ribbonManager = RibbonManager_cover x y (m_RibbonManager e))
    /\ updateCovered x y speed heading t e
       = mkExecutive (m_PlannerConfig e) ribbonManager
                     (m_DynamicObstaclesManager e) (m_NewMap e)
                     (m_CurrentMapPath e) (m_PlannerState e)
                     (mkState x y heading speed t) heading t
                     (m_RadiusShrink e) (s_RibbonWidth e).
Proof.
  unfold updateCovered. destruct (double_div_le _ _ _).
  - exists (RibbonManager_cover x y (m_RibbonManager e)).
    split; [right; reflexivity|]. destruct e; reflexivity.
  - exists (m_RibbonManager e).
    split; [left; reflexivity|]. destruct e; reflexivity.
Qed.

(** X10. After a call stamped [t0 > 0], the next call covers whenever
    the heading changed by at most half of
    [c_CoverageHeadingRateMax * t0], however short the time between the
    two calls: with large time stamps the gate lets every turn through.
    (On rationals the same holds up to [c_CoverageHeadingRateMax * t0]
    itself; the factor of two keeps the quotient the code computes clear
    of the threshold under rounding.) *)
Theorem updateCovered_gate_open_for_large_time_stamps
  (e : Executive) (x0 y0 speed0 heading0 t0 x y speed heading t : Q) :
  0 < t0 ->
  Qabs (heading0 - heading) <= c_CoverageHeadingRateMax * t0 / 2 ->
  let e1 := updateCovered x0 y0 speed0 heading0 t0 e in
  m_RibbonManager (updateCovered x y speed heading t e1)
  = RibbonManager_cover x y (m_RibbonManager e1).
Proof.
  intros Ht0 Hh e1. subst e1.
  rewrite updateCovered_gate.
  destruct (updateCovered_last x0 y0 speed0 heading0 t0 e) as (-> & -> & _).
  rewrite double_div_le_pos by assumption.
  replace (Qle_bool _ _) with true; [reflexivity|].
  symmetry. apply Qle_bool_iff.
  apply Qle_shift_div_r; [assumption|].
  pose proof (Qle_Qabs (heading0 - heading)) as Habs.
  pose proof (Qabs_nonneg (heading0 - heading)) as H0.
  assert (Hhalf : c_CoverageHeadingRateMax * t0 / 2
                  == c_CoverageHeadingRateMax * t0 * (1 # 2)) by field.
  rewrite Hhalf in Hh. nra.
Qed.

End PoseProperties.

Section LoopProperties.
Context {K : Constants} {C : Collaborators} {R : Runtime}.
Import Executive.

(** X11. When every ribbon is covered at the top of a pass of a loop
    that is not cancelled, the loop announces [allDone] once and returns
    in state [Inactive]: one clock reading, no map swap, no call of the
    planner, nothing published. *)
Theorem loop_finishes_when_ribbons_done
  (fuel : nat) (e : Executive) (w : World) (l : Locals) :
  m_PlannerState e <> Cancelled ->
  RibbonManager_done (m_RibbonManager e) = true ->
  loop (S fuel) e w l =
  Some (Returns (with_PlannerState Inactive e)
                (emit [Log "Finished covering ribbons"; AllDone]
                      (snd (readClock w)))).
Proof.
  intros Hstate Hdone. simpl. unfold iteration, prepare. simpl.
  destruct (PlannerState_eqb (m_PlannerState e) Cancelled) eqn:E.
  { apply PlannerState_eqb_eq in E. contradiction. }
  now rewrite Hdone.
Qed.

(** X12. [terminate] on a running executive stops the loop at the top of
    its next pass: the loop returns in state [Inactive] after one clock
    reading and sends nothing, not even [allDone] when the ribbons
    happen to be covered. *)
Theorem terminate_stops_loop
  (fuel : nat) (e : Executive) (w : World) (l : Locals) :
  m_PlannerState e = Running ->
  loop (S fuel) (terminate e) w l =
  Some (Returns (with_PlannerState Inactive e) (snd (readClock w))).
Proof.
  intros Hrun. unfold terminate.
  assert (Hc : cancelPlanner e = with_PlannerState Cancelled e)
    by (unfold cancelPlanner; now rewrite Hrun).
  rewrite Hc. cbn [loop]. rewrite iteration_Cancelled by reflexivity.
  reflexivity.
Qed.

Lemma afterPlanning_frame
  (startTime : Q) (e : Executive) (w : World) (s : State) (p : DubinsPlan) :
  exists e' w' l',
    afterPlanning startTime e w s p = Continue e' w' l'
    /\ m_RibbonManager e' = m_RibbonManager e
    /\ m_DynamicObstaclesManager e' = m_DynamicObstaclesManager e
    /\ m_LastState e' = m_LastState e
    /\ m_LastHeading e' = m_LastHeading e
    /\ m_LastUpdateTime e' = m_LastUpdateTime e
    /\ m_CurrentMapPath e' = m_CurrentMapPath e
    /\ s_RibbonWidth e' = s_RibbonWidth e
    /\ m_NewMap e' = m_NewMap e.
Proof.
  unfold afterPlanning, restoreRadii. simpl.
  destruct (DubinsPlan_empty p); simpl.
  - do 3 eexists. split; [reflexivity|]. repeat split.
  - destruct (State_isCoLocated _ _); simpl;
      [|destruct c_RadiusShrinkEnabled];
      do 3 eexists; (split; [reflexivity|]); repeat split.
Qed.

End LoopProperties.

Section PassProperties.
Context {K : Constants} {C : Collaborators} {R : Runtime}.
Import Executive.

Lemma sameInputs_refl (e : Executive) : sameInputs e e.
Proof. unfold sameInputs. tauto. Qed.

Lemma sameInputs_trans (e1 e2 e3 : Executive) :
  sameInputs e1 e2 -> sameInputs e2 e3 -> sameInputs e1 e3.
Proof.
  unfold sameInputs. intros (A1 & A2 & A3 & A4 & A5 & A6 & A7)
                            (B1 & B2 & B3 & B4 & B5 & B6 & B7).
  repeat split; congruence.
Qed.

Lemma takeNewMap_sameInputs (e : Executive) (w : World) :
  sameInputs e (takeNewMap e w).
Proof.
  unfold takeNewMap, sameInputs.
  destruct (mapMutex_try_lock (tick w)); [destruct (m_NewMap e)|];
    simpl; tauto.
Qed.

Lemma shrinkRadii_sameInputs (e : Executive) : sameInputs e (shrinkRadii e).
Proof.
  unfold shrinkRadii, sameInputs.
  destruct c_RadiusShrinkEnabled; simpl; tauto.
Qed.

Lemma cancelPlanner_sameInputs (e : Executive) :
  sameInputs e (cancelPlanner e).
Proof.
  unfold cancelPlanner, sameInputs.
  destruct (PlannerState_eqb _ _); simpl; tauto.
Qed.

Lemma prepare_sameInputs (e : Executive) (w : World) (l : Locals) :
  match prepare e w l with
  | Exits e' _ => e' = e
  | Plans _ e' _ _ _ => sameInputs e e'
  end.
Proof.
  unfold prepare. simpl.
  destruct (PlannerState_eqb _ _); [reflexivity|].
  destruct (RibbonManager_done _); [reflexivity|].
  destruct (synthesizeStartState _ _ _) as [s w'].
  eapply sameInputs_trans;
    [apply takeNewMap_sameInputs|apply shrinkRadii_sameInputs].
Qed.

Lemma callPlanner_sameInputs
      (startTime : Q) (e : Executive) (w : World) (s : State)
      (p : DubinsPlan) :
  sameInputs e (snd (fst (callPlanner startTime e w s p))).
Proof.
  unfold callPlanner. simpl. destruct (planner_plan _ _ _ _ _ _). simpl.
  unfold sameInputs. simpl. tauto.
Qed.

Lemma afterPlanning_sameInputs
      (startTime : Q) (e : Executive) (w : World) (s : State)
      (p : DubinsPlan) :
  sameInputs e (executiveAfter (afterPlanning startTime e w s p)).
Proof.
  destruct (afterPlanning_frame startTime e w s p)
    as (e' & w' & l' & -> & H1 & H2 & H3 & H4 & H5 & H6 & H7 & _).
  unfold sameInputs. simpl. tauto.
Qed.

(** X13. A pass of the planning loop, however it ends, leaves alone what
    the other entry points maintain: the live ribbon manager (the
    coverage up to the start state goes to the copy handed to the
    planner), the obstacle manager, the last pose, the map path and the
    ribbon width. *)
Theorem iteration_keeps_inputs (e : Executive) (w : World) (l : Locals) :
  sameInputs e (executiveAfter (iteration e w l)).
Proof.
  unfold iteration.
  pose proof (prepare_sameInputs e w l) as Hprep.
  destruct (prepare e w l) as [e1 w1|startTime e1 w1 s p].
  - subst e1. apply sameInputs_refl.
  - eapply sameInputs_trans; [exact Hprep|].
    unfold planAndPublish.
    pose proof (callPlanner_sameInputs startTime e1 w1 s p) as Hcall.
    destruct (callPlanner startTime e1 w1 s p) as [[outcome e2] w2].
    simpl in Hcall.
    eapply sameInputs_trans; [exact Hcall|].
    destruct outcome as [newPlan|what|].
    + apply afterPlanning_sameInputs.
    + eapply sameInputs_trans;
        [apply cancelPlanner_sameInputs|apply afterPlanning_sameInputs].
    + apply cancelPlanner_sameInputs.
Qed.

(** X14. The staged map is handed over when a pass reaches the planner
    with the map lock free: the planner configuration gets the staged
    map if there is one and the slot is emptied.  With the lock held
    elsewhere, slot and configuration are as they were. *)
Theorem prepare_takes_staged_map
  (e : Executive) (w : World) (l : Locals) :
  m_PlannerState e <> Cancelled ->
  RibbonManager_done (m_RibbonManager e) = false ->
  exists startTime e1 w1 s p,
    prepare e w l = Plans startTime e1 w1 s p
    /\ if mapMutex_try_lock (S (tick w))
       then m_NewMap e1 = None
            /\ map (m_PlannerConfig e1)
               = match m_NewMap e with
                 | Some m => Some m
                 | None => map (m_PlannerConfig e)
                 end
       else m_NewMap e1 = m_NewMap e
            /\ map (m_PlannerConfig e1) = map (m_PlannerConfig e).
Proof.
  intros Hstate Hdone.
  rewrite prepare_Plans by assumption.
  do 5 eexists. split; [reflexivity|].
  unfold shrinkRadii, takeNewMap. simpl.
  destruct (mapMutex_try_lock (S (tick w)));
    destruct c_RadiusShrinkEnabled; simpl;
    destruct (m_NewMap e) eqn:E; simpl; rewrite ?E; split; reflexivity.
Qed.

End PassProperties.

Section SettingsProperties.
Context {K : Constants} {C : Collaborators} {R : Runtime}.
Import Executive.

Lemma sameSettings_refl (e : Executive) : sameSettings e e.
Proof. unfold sameSettings. repeat split; reflexivity. Qed.

Lemma sameSettings_trans (e1 e2 e3 : Executive) :
  sameSettings e1 e2 -> sameSettings e2 e3 -> sameSettings e1 e3.
Proof.
  unfold sameSettings. intros (A1 & A2 & A3) (B1 & B2 & B3).
  repeat split; try congruence. now rewrite B3.
Qed.

Lemma takeNewMap_sameSettings (e : Executive) (w : World) :
  sameSettings e (takeNewMap e w).
Proof.
  unfold takeNewMap, sameSettings.
  destruct (mapMutex_try_lock (tick w)); [destruct (m_NewMap e)|];
    simpl; repeat split; reflexivity.
Qed.

Lemma shrinkRadii_sameSettings (e : Executive) :
  sameSettings e (shrinkRadii e).
Proof.
  unfold shrinkRadii, sameSettings.
  destruct c_RadiusShrinkEnabled; simpl; repeat split; try reflexivity.
  ring.
Qed.

Lemma restoreRadii_sameSettings (e : Executive) :
  sameSettings e (restoreRadii e).
Proof.
  unfold restoreRadii, sameSettings.
  destruct c_RadiusShrinkEnabled; simpl; repeat split; try reflexivity.
  ring.
Qed.

Lemma cancelPlanner_sameSettings (e : Executive) :
  sameSettings e (cancelPlanner e).
Proof.
  unfold cancelPlanner, sameSettings.
  destruct (PlannerState_eqb _ _); simpl; repeat split; reflexivity.
Qed.

Lemma afterPlanning_sameSettings
      (startTime : Q) (e : Executive) (w : World) (s : State)
      (p : DubinsPlan) :
  sameSettings e (executiveAfter (afterPlanning startTime e w s p)).
Proof.
  unfold afterPlanning. simpl.
  destruct (DubinsPlan_empty p); simpl; [apply sameSettings_refl|].
  destruct (State_isCoLocated _ _); simpl.
  - unfold sameSettings. simpl. repeat split; reflexivity.
  - apply restoreRadii_sameSettings.
Qed.

(** X15. A pass of the planning loop, however it ends, keeps the
    configured speed and branching factor and moves the two turning
    radii together: their difference is the same after the pass. *)
Theorem iteration_keeps_settings (e : Executive) (w : World) (l : Locals) :
  sameSettings e (executiveAfter (iteration e w l)).
Proof.
  unfold iteration, prepare. simpl.
  destruct (PlannerState_eqb _ _); [apply sameSettings_refl|].
  destruct (RibbonManager_done _); [apply sameSettings_refl|].
  destruct (synthesizeStartState _ _ _) as [s w1].
  set (e1 := shrinkRadii (takeNewMap e _)).
  assert (H1 : sameSettings e e1).
  { eapply sameSettings_trans;
      [apply takeNewMap_sameSettings|apply shrinkRadii_sameSettings]. }
  eapply sameSettings_trans; [exact H1|].
  unfold planAndPublish, callPlanner. simpl.
  destruct (planner_plan _ _ _ _ _ _) as [outcome n].
  set (e2 := with_PlannerConfig _ e1).
  assert (H2 : sameSettings e1 e2)
    by (unfold sameSettings; simpl; repeat split; reflexivity).
  eapply sameSettings_trans; [exact H2|].
  destruct outcome as [newPlan|what|].
  - apply afterPlanning_sameSettings.
  - eapply sameSettings_trans;
      [apply cancelPlanner_sameSettings|apply afterPlanning_sameSettings].
  - apply cancelPlanner_sameSettings.
Qed.

End SettingsProperties.

Section OutcomeProperties.
Context {K : Constants} {C : Collaborators} {R : Runtime}.
Import Executive.

Lemma synthesizeStartState_trace (e : Executive) (w : World) (s : State) :
  trace (snd (synthesizeStartState e w s)) = trace w.
Proof.
  unfold synthesizeStartState. destruct (Qeq_bool _ _); reflexivity.
Qed.

(** A pass that reaches the planner has sent the ribbons to the display
    and nothing else. *)
Lemma prepare_trace (e : Executive) (w : World) (l : Locals)
      (startTime : Q) (e1 : Executive) (w1 : World) (s : State)
      (p : DubinsPlan) :
  prepare e w l = Plans startTime e1 w1 s p ->
  trace w1 = trace w ++ [DisplayRibbons (m_RibbonManager e)].
Proof.
  unfold prepare. simpl.
  destruct (PlannerState_eqb _ _); [discriminate|].
  destruct (RibbonManager_done _); [discriminate|].
  pose proof (synthesizeStartState_trace
                (takeNewMap e (emit [DisplayRibbons (m_RibbonManager e)]
                                    (snd (readClock w))))
                (emit [DisplayRibbons (m_RibbonManager e)]
                      (snd (readClock w)))
                (startState l)) as Htr.
  simpl in Htr.
  destruct (synthesizeStartState _ _ _) as [s' w'].
  intros [= <- <- <- <- <-]. exact Htr.
Qed.

(** X16. When the planner returns the empty plan, the pass publishes
    nothing: after the ribbon display it only sleeps, displays the
    (empty) trajectory and logs one line.  It ends with the start state
    reset to the sentinel and the plan empty, so that the next pass
    starts from [m_LastState] again. *)
Theorem empty_plan_pass (e : Executive) (w : World) (l : Locals) :
  plannerOutcome e w l = Some (Returned []) ->
  exists e' w' ms,
    iteration e w l = Continue e' w' (mkLocals State_default [])
    /\ trace w' = trace w
                  ++ [DisplayRibbons (m_RibbonManager e);
                      SleepFor ms;
                      DisplayTrajectory (DubinsPlan_getHalfSecondSamples [])
                                        true;
                      Log "Planner returned empty trajectory."]
    /\ m_PlannerState e' = m_PlannerState e
    /\ m_RadiusShrink e'
       = m_RadiusShrink (shrinkRadii e).
Proof.
  unfold plannerOutcome, iteration.
  destruct (prepare e w l) as [|startTime e1 w1 s p] eqn:Hprep;
    [discriminate|].
  pose proof (prepare_trace _ _ _ _ _ _ _ _ Hprep) as Htr1.
  pose proof (prepare_state _ _ _ _ _ _ _ _ Hprep) as [Hst1 Hnc].
  assert (Hshr : m_RadiusShrink e1 = m_RadiusShrink (shrinkRadii e)).
  { revert Hprep. unfold prepare. simpl.
    destruct (PlannerState_eqb _ _); [discriminate|].
    destruct (RibbonManager_done _); [discriminate|].
    destruct (synthesizeStartState _ _ _) as [s' w'].
    intros [= _ <- _ _ _]. unfold shrinkRadii.
    destruct c_RadiusShrinkEnabled; simpl;
      now rewrite (proj1 (proj2 (proj2 (takeNewMap_keeps e _)))). }
  unfold planAndPublish.
  pose proof (callPlanner_keeps startTime e1 w1 s p) as Hkeep.
  assert (Hshr2 : m_RadiusShrink
                    (snd (fst (callPlanner startTime e1 w1 s p)))
                  = m_RadiusShrink e1).
  { unfold callPlanner. simpl. now destruct (planner_plan _ _ _ _ _ _). }
  destruct (callPlanner startTime e1 w1 s p) as [[outcome e2] w2].
  simpl in Hkeep, Hshr2. destruct Hkeep as [Hst2 Htr2]. simpl.
  intros [= ->].
  unfold afterPlanning. simpl.
  do 3 eexists. split; [reflexivity|]. simpl.
  split; [rewrite Htr2, Htr1, <- !app_assoc; reflexivity|].
  split; congruence.
Qed.

(** X17. When the planner throws a [std::exception] and the plan kept
    from the previous pass (trimmed to a suffix) is not empty, the pass
    publishes that plan once more after logging the exception. *)
Theorem std_exception_republishes_previous_plan
  (e : Executive) (w : World) (l : Locals) (what : string)
  (previous : DubinsPlan) :
  plannerOutcome e w l = Some (ThrowsStd what) ->
  previousPlanArgument e w l = Some previous ->
  DubinsPlan_empty previous = false ->
  exists e' w' l' before after,
    iteration e w l = Continue e' w' l'
    /\ trace w' = trace w ++ before
                  ++ [Log "Pausing."] ++ after
    /\ In (PublishPlan previous) after.
Proof.
  unfold plannerOutcome, previousPlanArgument, iteration.
  destruct (prepare e w l) as [|startTime e1 w1 s p] eqn:Hprep;
    [discriminate|].
  pose proof (prepare_trace _ _ _ _ _ _ _ _ Hprep) as Htr1.
  unfold planAndPublish.
  pose proof (callPlanner_keeps startTime e1 w1 s p) as Hkeep.
  destruct (callPlanner startTime e1 w1 s p) as [[outcome e2] w2].
  simpl in Hkeep. destruct Hkeep as [_ Htr2]. simpl.
  intros [= ->] [= ->] Hne.
  rewrite afterPlanning_published by assumption.
  destruct (State_isCoLocated _ _);
    do 3 eexists;
    exists [DisplayRibbons (m_RibbonManager e);
            Log "Exception thrown while planning:"; Log what];
    eexists; (split; [reflexivity|]); simpl;
    rewrite Htr2, Htr1, <- !app_assoc; simpl;
    (split; [reflexivity|]); simpl; auto.
Qed.

(** *** The state machine along the loop *)

Lemma iteration_state_cases (e : Executive) (w : World) (l : Locals) :
  m_PlannerState e = Running ->
  match iteration e w l with
  | Continue e' _ _ =>
      m_PlannerState e' = Running \/ m_PlannerState e' = Cancelled
  | Break _ _ => True
  | Rethrown e' _ => m_PlannerState e' = Cancelled
  end.
Proof.
  intros Hrun. unfold iteration.
  destruct (prepare e w l) as [|startTime e1 w1 s p] eqn:Hprep; [exact I|].
  apply prepare_state in Hprep as [Hst _]. rewrite Hrun in Hst.
  unfold planAndPublish.
  pose proof (callPlanner_keeps startTime e1 w1 s p) as Hkeep.
  destruct (callPlanner startTime e1 w1 s p) as [[outcome e2] w2].
  simpl in Hkeep. destruct Hkeep as [Hst2 _]. rewrite Hst in Hst2.
  destruct outcome as [newPlan|what|].
  - destruct (afterPlanning_continues startTime e2 w2 s newPlan)
      as (e' & w' & l' & evs & -> & Hst' & _). left. congruence.
  - destruct (afterPlanning_continues startTime (cancelPlanner e2)
                (emit [Log "Exception thrown while planning:"; Log what;
                       Log "Pausing."] w2) s p)
      as (e' & w' & l' & evs & -> & Hst' & _).
    right. rewrite Hst', cancelPlanner_state, Hst2. reflexivity.
  - now rewrite cancelPlanner_state, Hst2.
Qed.

Lemma loop_throws_Cancelled :
  forall (fuel : nat) (e : Executive) (w : World) (l : Locals)
         (e' : Executive) (w' : World),
    m_PlannerState e = Running \/ m_PlannerState e = Cancelled ->
    loop fuel e w l = Some (Throws e' w') ->
    m_PlannerState e' = Cancelled.
Proof.
  induction fuel as [|fuel IH]; intros e w l e' w' Hst; [discriminate|].
  cbn [loop]. destruct Hst as [Hrun|Hcan].
  - pose proof (iteration_state_cases e w l Hrun) as Hcases.
    destruct (iteration e w l) as [e1 w1 l1|e1 w1|e1 w1].
    + apply IH. exact Hcases.
    + discriminate.
    + intros [= <- <-]. exact Hcases.
  - rewrite iteration_Cancelled by assumption. discriminate.
Qed.

(** X18. When an exception of unknown type leaves the planning loop, the
    state machine is left in [Cancelled], and a later [startPlanner]
    finds the cancel flag still set: it gives up at the start-up check
    after [Initializing planner] and the three lines of the time-out
    message, runs no pass, and the state stays [Cancelled]. *)
Theorem restart_after_exception_gives_up
  {F : MapFactory} (fuel : nat) (e : Executive) (w : World) (l : Locals)
  (e' : Executive) (w' : World) :
  m_PlannerState e = Running ->
  loop fuel e w l = Some (Throws e' w') ->
  m_PlannerState e' = Cancelled
  /\ forall (fuel' : nat) (w2 : World),
       exists e2 w3,
         startPlanner fuel' e' w2 = Some (Returns e2 w3)
         /\ m_PlannerState e2 = Cancelled
         /\ trace w3 = trace w2
                       ++ [Log "Initializing planner"; Log timedOutMessage].
Proof.
  intros Hrun Hloop.
  assert (Hc : m_PlannerState e' = Cancelled)
    by (eapply loop_throws_Cancelled; [left; exact Hrun|exact Hloop]).
  split; [exact Hc|]. intros fuel' w2.
  unfold startPlanner, planLoop.
  assert (Hc' : m_PlannerState (ensureMap e') = Cancelled).
  { unfold ensureMap. destruct (map (m_PlannerConfig e')); simpl; exact Hc. }
  rewrite Hc'. simpl.
  do 2 eexists. split; [reflexivity|]. split; [exact Hc'|].
  simpl. rewrite <- app_assoc. reflexivity.
Qed.

(** [startPlanner] never runs the loop without a map: the
    configuration it plans with has the map already set, or else the
    default map; and a map that was set is kept. *)
Lemma ensureMap_sets_map {F : MapFactory} (e : Executive) :
  map (m_PlannerConfig (ensureMap e))
  = match map (m_PlannerConfig e) with
    | Some m => Some m
    | None => Some Map_default
    end
  /\ map (m_PlannerConfig (ensureMap e)) <> None
  /\ ensureMap (ensureMap e) = ensureMap e
  /\ sameInputs e (ensureMap e)
  /\ m_PlannerState (ensureMap e) = m_PlannerState e.
Proof.
  unfold ensureMap, sameInputs.
  destruct (map (m_PlannerConfig e)) eqn:E; simpl; rewrite ?E; simpl;
    repeat split; try reflexivity; discriminate.
Qed.

End OutcomeProperties.

(** * Further properties of the planner *)

Section ComparatorProperties.
Context {C : Collaborators} {P : PlannerParts}.
Import AStarPlanner.

Lemma Qlt_bool_iff (a b : Q) : Qlt_bool a b = true <-> a < b.
Proof.
  unfold Qlt_bool. destruct (Qle_bool b a) eqn:E; simpl.
  - apply Qle_bool_iff in E. split; [discriminate|lra].
  - split; [intros _|reflexivity].
    destruct (Qlt_le_dec a b) as [Hlt|Hle]; [exact Hlt|].
    apply Qle_bool_iff in Hle. congruence.
Qed.

Lemma Qlt_bool_false_iff (a b : Q) : Qlt_bool a b = false <-> b <= a.
Proof.
  unfold Qlt_bool. destruct (Qle_bool b a) eqn:E; simpl.
  - apply Qle_bool_iff in E. tauto.
  - split; [discriminate|]. intros H. apply Qle_bool_iff in H. congruence.
Qed.

(** X19. The comparator the vertex queue is built on is a strict weak
    ordering by [f]: no vertex comes after itself, the order is
    asymmetric and transitive, and being tied (neither after the other)
    is transitive too. *)
Theorem vertexComparator_strict_weak_order :
  (forall v, vertexComparator v v = false)
  /\ (forall a b, vertexComparator a b = true -> vertexComparator b a = false)
  /\ (forall a b c, vertexComparator a b = true ->
                    vertexComparator b c = true ->
                    vertexComparator a c = true)
  /\ (forall a b c,
        vertexComparator a b = false -> vertexComparator b a = false ->
        vertexComparator b c = false -> vertexComparator c b = false ->
        vertexComparator a c = false /\ vertexComparator c a = false).
Proof.
  unfold vertexComparator. repeat split.
  - intros v. apply Qlt_bool_false_iff. lra.
  - intros a b H. apply Qlt_bool_iff in H. apply Qlt_bool_false_iff. lra.
  - intros a b c H1 H2. apply Qlt_bool_iff in H1, H2. apply Qlt_bool_iff. lra.
  - apply Qlt_bool_false_iff in H, H0, H1, H2. apply Qlt_bool_false_iff. lra.
  - apply Qlt_bool_false_iff in H, H0, H1, H2. apply Qlt_bool_false_iff. lra.
Qed.

End ComparatorProperties.

Section ExpansionProperties.
Context {C : Collaborators} {P : PlannerParts}.
Import AStarPlanner.

Lemma pushVertexQueue_fields (v : Vertex) (p : Planner) :
  m_Config (pushVertexQueue v p) = m_Config p
  /\ m_Samples (pushVertexQueue v p) = m_Samples p
  /\ m_BestVertex (pushVertexQueue v p) = m_BestVertex p
  /\ m_ExpandedCount (pushVertexQueue v p) = m_ExpandedCount p
  /\ m_IterationCount (pushVertexQueue v p) = m_IterationCount p
  /\ readings (pushVertexQueue v p) = readings p
  /\ m_VertexQueue (pushVertexQueue v p) = m_VertexQueue p ++ [v].
Proof. repeat split. Qed.

Lemma fold_push_queue {A : Type} (mk : A -> Vertex) (l : list A) :
  forall p : Planner,
    let p' := fold_left (fun p a => pushVertexQueue (mk a) p) l p in
    m_Config p' = m_Config p
    /\ m_Samples p' = m_Samples p
    /\ m_BestVertex p' = m_BestVertex p
    /\ m_ExpandedCount p' = m_ExpandedCount p
    /\ m_IterationCount p' = m_IterationCount p
    /\ readings p' = readings p
    /\ m_VertexQueue p' = m_VertexQueue p ++ List.map mk l.
Proof.
  induction l as [|a l IH]; intros p; simpl.
  - rewrite app_nil_r. repeat split.
  - destruct (IH (pushVertexQueue (mk a) p))
      as (H1 & H2 & H3 & H4 & H5 & H6 & H7).
    simpl in *. rewrite H1, H2, H3, H4, H5, H6, H7.
    rewrite <- app_assoc. repeat split.
Qed.

Lemma fold_push_config {A : Type} (mk : Planner -> A -> Vertex) (l : list A) :
  forall p : Planner,
    m_Config (fold_left (fun p a => pushVertexQueue (mk p a) p) l p)
    = m_Config p.
Proof.
  induction l as [|a l IH]; intros p; simpl; [reflexivity|].
  now rewrite IH.
Qed.

Lemma expandToCoverSpecificSamples_fields
  (root : Vertex) (samples : list State) (coverageAllowed : bool)
  (p : Planner) :
  let p' := expandToCoverSpecificSamples root samples coverageAllowed p in
  let child s :=
    computeTrueCost (m_Config p)
      (Vertex_connect root
         (mkState (State_x s) (State_y s) (State_heading s)
                  (maxSpeed (m_Config p)) (State_time s))
         (coverageTurningRadius (m_Config p)) coverageAllowed) in
  m_VertexQueue p' =
    m_VertexQueue p
    ++ (if Qlt_bool 0 (coverageTurningRadius (m_Config p))
        then List.map child samples else [])
  /\ m_Samples p' = m_Samples p
  /\ m_BestVertex p' = m_BestVertex p
  /\ m_ExpandedCount p' = m_ExpandedCount p
  /\ readings p' = readings p
  /\ m_IterationCount p' = m_IterationCount p
  /\ m_Config p' = m_Config p.
Proof.
  intros p' child. subst p'. unfold expandToCoverSpecificSamples.
  destruct (Qlt_bool 0 (coverageTurningRadius (m_Config p))).
  2:{ rewrite app_nil_r. repeat split. }
  assert (Hfold :
    fold_left
      (fun p0 s =>
         pushVertexQueue
           (computeTrueCost (m_Config p0)
              (Vertex_connect root
                 (mkState (State_x s) (State_y s) (State_heading s)
                          (maxSpeed (m_Config p0)) (State_time s))
                 (coverageTurningRadius (m_Config p0)) coverageAllowed)) p0)
      samples p
    = fold_left (fun p0 s => pushVertexQueue (child s) p0) samples p).
  { clear. subst child.
    assert (Hgen : forall q, m_Config q = m_Config p ->
      fold_left
        (fun p0 s =>
           pushVertexQueue
             (computeTrueCost (m_Config p0)
                (Vertex_connect root
                   (mkState (State_x s) (State_y s) (State_heading s)
                            (maxSpeed (m_Config p0)) (State_time s))
                   (coverageTurningRadius (m_Config p0)) coverageAllowed))
             p0)
        samples q
      = fold_left
          (fun p0 s =>
             pushVertexQueue
               (computeTrueCost (m_Config p)
                  (Vertex_connect root
                     (mkState (State_x s) (State_y s) (State_heading s)
                              (maxSpeed (m_Config p)) (State_time s))
                     (coverageTurningRadius (m_Config p)) coverageAllowed))
               p0)
          samples q).
    { induction samples as [|s samples IH]; intros q Hq; simpl;
        [reflexivity|].
      rewrite Hq. apply IH. simpl. exact Hq. }
    apply Hgen. reflexivity. }
  rewrite Hfold.
  destruct (fold_push_queue child samples p)
    as (H1 & H2 & H3 & H4 & H5 & H6 & H7).
  simpl in *. rewrite H7. repeat split; auto.
Qed.


(** X20. [expandToCoverSpecificSamples] does nothing when the coverage
    turning radius is not positive.  Otherwise it appends to the queue,
    in order, one child of the root per sample, built from the sample
    at full speed with the coverage turning radius and the coverage
    flag, its true cost computed; a child whose edge is infeasible is
    pushed like the others.  Samples, best vertex, counters and clock
    are untouched. *)
Theorem expandToCoverSpecificSamples_pushes_every_sample
  (root : Vertex) (samples : list State) (coverageAllowed : bool)
  (p : Planner) :
  let p' := expandToCoverSpecificSamples root samples coverageAllowed p in
  let child s :=
    computeTrueCost (m_Config p)
      (Vertex_connect root
         (mkState (State_x s) (State_y s) (State_heading s)
                  (maxSpeed (m_Config p)) (State_time s))
         (coverageTurningRadius (m_Config p)) coverageAllowed) in
  m_VertexQueue p' =
    m_VertexQueue p
    ++ (if Qlt_bool 0 (coverageTurningRadius (m_Config p))
        then List.map child samples else [])
  /\ m_Samples p' = m_Samples p
  /\ m_BestVertex p' = m_BestVertex p
  /\ m_ExpandedCount p' = m_ExpandedCount p
  /\ readings p' = readings p.
Proof.
  intros p' child.
  destruct (expandToCoverSpecificSamples_fields root samples coverageAllowed p)
    as (H1 & H2 & H3 & H4 & H5 & _).
  repeat split; assumption.
Qed.

End ExpansionProperties.

Section SearchProperties.
Context {C : Collaborators} {P : PlannerParts}.
Import AStarPlanner.

Lemma expand_fields (v : Vertex) (p : Planner) :
  m_Config (expand v p) = m_Config p
  /\ m_Samples (expand v p) = m_Samples p
  /\ m_BestVertex (expand v p) = m_BestVertex p
  /\ m_IterationCount (expand v p) = m_IterationCount p
  /\ m_ExpandedCount (expand v p) = S (m_ExpandedCount p).
Proof.
  unfold expand. simpl.
  destruct (fold_push_queue (fun c => c)
              (expandChildren (m_Config p) (m_Samples p) v)
              (record [Expand v] p))
    as (H1 & H2 & H3 & H4 & H5 & _).
  simpl in *. rewrite H1, H2, H3, H4, H5. repeat split.
Qed.

Lemma popVertexQueue_fields (p : Planner) (v : Vertex) (p' : Planner) :
  popVertexQueue p = Some (v, p') ->
  m_Config p' = m_Config p
  /\ m_Samples p' = m_Samples p
  /\ m_BestVertex p' = m_BestVertex p
  /\ m_IterationCount p' = m_IterationCount p
  /\ m_ExpandedCount p' = m_ExpandedCount p
  /\ calls p' = calls p.
Proof.
  unfold popVertexQueue. destruct (m_VertexQueue p) as [|v0 q];
    [discriminate|].
  destruct (takeBest v0 q) as [b rest]. intros [= <- <-]. repeat split.
Qed.

Lemma aStarLoop_sound :
  forall (fuel : nat) (deadline : Q) (vertex : Vertex) (p : Planner)
         (r : option Vertex) (p' : Planner),
    aStarLoop fuel deadline vertex p = Ok (r, p') ->
    m_BestVertex p' = m_BestVertex p
    /\ m_Samples p' = m_Samples p
    /\ m_Config p' = m_Config p
    /\ m_IterationCount p' = m_IterationCount p
    /\ (m_ExpandedCount p <= m_ExpandedCount p')%nat
    /\ match r with
       | Some v => goalCondition v = true /\ improves v p' = true
       | None => True
       end.
Proof.
  induction fuel as [|fuel IH]; intros deadline vertex p r p' Hrun;
    [discriminate|].
  cbn [aStarLoop] in Hrun. unfold now in Hrun.
  destruct (Qlt_bool (nowFn (readings p)) deadline).
  2:{ injection Hrun as <- <-. simpl. repeat split; auto. }
  set (p1 := with_readings (S (readings p)) p) in *.
  destruct (goalCondition vertex && improves vertex p1) eqn:Hgoal.
  { injection Hrun as <- <-. apply andb_true_iff in Hgoal as [Hg Hi].
    simpl. repeat split; auto. }
  destruct (expand_fields vertex p1) as (E1 & E2 & E3 & E4 & E5).
  destruct (vertexQueueEmpty (expand vertex p1)).
  { injection Hrun as <- <-. rewrite E1, E2, E3, E4, E5. simpl.
    repeat split; auto. }
  destruct (popVertexQueue (expand vertex p1)) as [[v2 p2]|] eqn:Hpop;
    [|discriminate].
  destruct (popVertexQueue_fields _ _ _ Hpop) as (Q1 & Q2 & Q3 & Q4 & Q5 & _).
  destruct (IH _ _ _ _ _ Hrun) as (I1 & I2 & I3 & I4 & I5 & I6).
  rewrite I1, I2, I3, I4, Q1, Q2, Q3, Q4, E1, E2, E3, E4. simpl.
  repeat split; auto. rewrite Q5, E5 in I5. simpl in I5. lia.
Qed.

(** X21. Whatever the inner search returns, it never replaces the best
    vertex, the sample pool or the configuration, and never lowers the
    expansion counter.  A vertex it returns satisfies the goal condition
    and has an [f] strictly below that of the best vertex so far (when
    there is one). *)
Theorem aStar_returns_improving_goal
  (fuel : nat) (deadline : Q) (p : Planner) (r : option Vertex)
  (p' : Planner) :
  aStar fuel deadline p = Ok (r, p') ->
  m_BestVertex p' = m_BestVertex p
  /\ m_Samples p' = m_Samples p
  /\ m_Config p' = m_Config p
  /\ (m_ExpandedCount p <= m_ExpandedCount p')%nat
  /\ match r with
     | None => True
     | Some v =>
         goalCondition v = true
         /\ match m_BestVertex p with
            | None => True
            | Some best => Vertex_f v < Vertex_f best
            end
     end.
Proof.
  unfold aStar. intros Hrun.
  destruct (popVertexQueue (record [AStar] p)) as [[v0 p0]|] eqn:Hpop;
    [|discriminate].
  destruct (popVertexQueue_fields _ _ _ Hpop) as (Q1 & Q2 & Q3 & Q4 & Q5 & _).
  destruct (aStarLoop_sound _ _ _ _ _ _ Hrun)
    as (I1 & I2 & I3 & I4 & I5 & I6).
  simpl in *.
  split; [congruence|]. split; [congruence|]. split; [congruence|].
  split; [lia|].
  destruct r as [v|]; [|exact I].
  destruct I6 as [Hg Hi]. split; [exact Hg|].
  unfold improves in Hi. rewrite I1, Q3 in Hi.
  destruct (m_BestVertex p); [|exact I].
  now apply Qlt_bool_iff.
Qed.

Lemma aStar_frame
  (fuel : nat) (deadline : Q) (p : Planner) (r : option Vertex)
  (p' : Planner) :
  aStar fuel deadline p = Ok (r, p') ->
  m_BestVertex p' = m_BestVertex p
  /\ m_IterationCount p' = m_IterationCount p
  /\ match r with
     | Some v => goalCondition v = true
     | None => True
     end.
Proof.
  unfold aStar. intros Hrun.
  destruct (popVertexQueue (record [AStar] p)) as [[v0 p0]|] eqn:Hpop;
    [|discriminate].
  destruct (popVertexQueue_fields _ _ _ Hpop) as (Q1 & Q2 & Q3 & Q4 & Q5 & _).
  destruct (aStarLoop_sound _ _ _ _ _ _ Hrun)
    as (I1 & I2 & I3 & I4 & I5 & I6).
  simpl in *. split; [congruence|]. split; [congruence|].
  destruct r; tauto.
Qed.

End SearchProperties.

Section AnytimeProperties.
Context {C : Collaborators} {P : PlannerParts}.
Import AStarPlanner.

Lemma bestNoWorse_refl (p : Planner) : bestNoWorse p p.
Proof.
  unfold bestNoWorse. destruct (m_BestVertex p) as [b|]; [|exact I].
  exists b. split; [reflexivity|lra].
Qed.

Lemma bestNoWorse_trans (p1 p2 p3 : Planner) :
  bestNoWorse p1 p2 -> bestNoWorse p2 p3 -> bestNoWorse p1 p3.
Proof.
  unfold bestNoWorse. destruct (m_BestVertex p1) as [b1|]; [|auto].
  intros (b2 & H2 & Hle2). rewrite H2. intros (b3 & H3 & Hle3).
  exists b3. split; [exact H3|lra].
Qed.

Lemma bestNoWorse_same (p p' : Planner) :
  m_BestVertex p' = m_BestVertex p -> bestNoWorse p p'.
Proof.
  intros H. unfold bestNoWorse. rewrite <- H.
  destruct (m_BestVertex p') as [b|]; [|exact I].
  exists b. split; [reflexivity|lra].
Qed.

Lemma bestIsGoal_same (p p' : Planner) :
  m_BestVertex p' = m_BestVertex p -> bestIsGoal p -> bestIsGoal p'.
Proof. unfold bestIsGoal. now intros ->. Qed.

Lemma keepBetter_best (v : option Vertex) (p : Planner) :
  match v with Some g => goalCondition g = true | None => True end ->
  bestIsGoal p ->
  bestIsGoal (keepBetter v p) /\ bestNoWorse p (keepBetter v p).
Proof.
  intros Hv Hp. unfold keepBetter, bestIsGoal, bestNoWorse in *.
  destruct (m_BestVertex p) as [best|] eqn:Hbest.
  - destruct v as [g|].
    + destruct (Qlt_bool (Vertex_f g) (Vertex_f best)) eqn:Hlt; simpl.
      * apply Qlt_bool_iff in Hlt. split; [exact Hv|].
        exists g. split; [reflexivity|lra].
      * rewrite Hbest. split; [exact Hp|].
        exists best. split; [reflexivity|lra].
    + rewrite Hbest. split; [exact Hp|].
      exists best. split; [reflexivity|lra].
  - destruct v as [g|]; simpl; auto.
Qed.

Lemma before_search_best (s : Search) (p : Planner) :
  let p1 := clearVertexQueue (snd (now p)) in
  let p2 := pushVertexQueue (startV s)
              (record [VisualizeVertex (startV s) "start"] p1) in
  let p3 := if negb (Vertex_isRoot (lastPlanEnd s))
            then pushVertexQueue (lastPlanEnd s) p2 else p2 in
  let p4 := expandToCoverSpecificSamples (startV s) (ribbonSamples s)
              true p3 in
  let p5 := expandToCoverSpecificSamples (startV s) (otherRibbonSamples s)
              true p4 in
  let p6 := if (List.length (m_Samples p5) <? c_InitialSamples)%nat
            then addSamples (generator s) c_InitialSamples p5
            else addSamples_more (generator s) p5 in
  m_BestVertex p6 = m_BestVertex p
  /\ m_IterationCount p6 = m_IterationCount p.
Proof.
  intros p1 p2 p3 p4 p5 p6.
  assert (H3 : m_BestVertex p3 = m_BestVertex p
               /\ m_IterationCount p3 = m_IterationCount p)
    by (subst p3; destruct (negb _); split; reflexivity).
  assert (Hcover : forall samples q,
            m_BestVertex (expandToCoverSpecificSamples (startV s) samples
                                                       true q)
            = m_BestVertex q
            /\ m_IterationCount (expandToCoverSpecificSamples (startV s)
                                   samples true q)
               = m_IterationCount q).
  { intros samples q.
    destruct (expandToCoverSpecificSamples_fields (startV s) samples true q)
      as (_ & _ & Hb & _ & _ & Hi & _).
    split; assumption. }
  destruct (Hcover (ribbonSamples s) p3) as [H4b H4i]. fold p4 in H4b, H4i.
  destruct (Hcover (otherRibbonSamples s) p4) as [H5b H5i].
  fold p5 in H5b, H5i.
  destruct H3 as [H3b H3i].
  subst p6. destruct (_ <? _)%nat; simpl; split; congruence.
Qed.

Lemma bigLoop_best (s : Search) :
  forall (fuel : nat) (p p' : Planner),
    bigLoop fuel s p = Ok p' ->
    bestIsGoal p ->
    bestIsGoal p' /\ bestNoWorse p p'.
Proof.
  induction fuel as [|fuel IH]; intros p p' Hrun Hgoal; [discriminate|].
  cbn [bigLoop] in Hrun.
  pose proof (before_search_best s p) as Hbefore. cbv zeta in Hbefore.
  unfold now in Hrun, Hbefore. cbn [snd] in Hbefore.
  destruct (Qlt_bool (nowFn (readings p)) (endTime s)).
  2:{ injection Hrun as <-. split; [exact Hgoal|].
      now apply bestNoWorse_same. }
  destruct (bestIsBestPossible s _).
  { injection Hrun as <-. split; [exact Hgoal|].
    now apply bestNoWorse_same. }
  match type of Hrun with
  | match aStar fuel (endTime s) ?q with _ => _ end = _ =>
      set (p6 := q) in *
  end.
  destruct Hbefore as [Hb6 _].
  destruct (aStar fuel (endTime s) p6) as [[v p7]| |] eqn:Hastar;
    try discriminate.
  destruct (aStar_frame _ _ _ _ _ Hastar) as (Hb7 & _ & Hv).
  assert (Hgoal7 : bestIsGoal p7)
    by (eapply bestIsGoal_same; [|exact Hgoal]; congruence).
  destruct (keepBetter_best v p7 Hv Hgoal7) as [Hg8 Hn8].
  apply IH in Hrun.
  2:{ eapply bestIsGoal_same; [|exact Hg8]. reflexivity. }
  destruct Hrun as [Hg' Hn']. split; [exact Hg'|].
  eapply bestNoWorse_trans; [|exact Hn'].
  apply (bestNoWorse_trans p p7); [apply bestNoWorse_same; congruence|].
  eapply bestNoWorse_trans; [exact Hn8|].
  now apply bestNoWorse_same.
Qed.

Lemma keepBetter_noWorse (v : option Vertex) (p : Planner) :
  bestNoWorse p (keepBetter v p).
Proof.
  unfold keepBetter, bestNoWorse.
  destruct (m_BestVertex p) as [best|] eqn:Hbest; [|exact I].
  destruct v as [g|].
  - destruct (Qlt_bool (Vertex_f g) (Vertex_f best)) eqn:Hlt; simpl.
    + apply Qlt_bool_iff in Hlt. exists g. split; [reflexivity|lra].
    + exists best. split; [exact Hbest|lra].
  - exists best. split; [exact Hbest|lra].
Qed.

Lemma bigLoop_noWorse (s : Search) :
  forall (fuel : nat) (p p' : Planner),
    bigLoop fuel s p = Ok p' -> bestNoWorse p p'.
Proof.
  induction fuel as [|fuel IH]; intros p p' Hrun; [discriminate|].
  cbn [bigLoop] in Hrun.
  pose proof (before_search_best s p) as Hbefore. cbv zeta in Hbefore.
  unfold now in Hrun, Hbefore. cbn [snd] in Hbefore.
  destruct (Qlt_bool (nowFn (readings p)) (endTime s)).
  2:{ injection Hrun as <-. now apply bestNoWorse_same. }
  destruct (bestIsBestPossible s _).
  { injection Hrun as <-. now apply bestNoWorse_same. }
  match type of Hrun with
  | match aStar fuel (endTime s) ?q with _ => _ end = _ =>
      set (p6 := q) in *
  end.
  destruct Hbefore as [Hb6 _].
  destruct (aStar fuel (endTime s) p6) as [[v p7]| |] eqn:Hastar;
    try discriminate.
  destruct (aStar_frame _ _ _ _ _ Hastar) as (Hb7 & _ & _).
  apply IH in Hrun.
  eapply bestNoWorse_trans; [|exact Hrun].
  apply (bestNoWorse_trans p p7); [apply bestNoWorse_same; congruence|].
  eapply bestNoWorse_trans; [apply (keepBetter_noWorse v p7)|].
  now apply bestNoWorse_same.
Qed.

(** X22. Along the big loop the best vertex only gets better: if there
    is a best vertex when a pass starts, there is one when the loop
    ends, with an [f] no larger, whether or not it satisfies the goal
    condition; and if the best vertex satisfied the goal condition, so
    does the final one. *)
Theorem bigLoop_best_only_improves
  (fuel : nat) (s : Search) (p p' : Planner) :
  bigLoop fuel s p = Ok p' ->
  bestNoWorse p p' /\ (bestIsGoal p -> bestIsGoal p').
Proof.
  intros Hrun. split; [exact (bigLoop_noWorse s fuel p p' Hrun)|].
  intros Hgoal. exact (proj1 (bigLoop_best s fuel p p' Hrun Hgoal)).
Qed.

(** X23. A plan that [plan] returns is either empty, with no best
    vertex found, or the trace of a vertex that satisfies the goal
    condition: no plan is returned that stops short of the goal. *)
Theorem plan_reaches_goal_or_is_empty
  (fuel : nat) (ribbonManager : RibbonManager) (start : State)
  (config : PlannerConfig) (previousPlan : DubinsPlan) (timeRemaining : Q)
  (p : Planner) (result : DubinsPlan) (p' : Planner) :
  plan fuel ribbonManager start config previousPlan timeRemaining p
  = Ok (result, p') ->
  match m_BestVertex p' with
  | None => result = []
  | Some best =>
      goalCondition best = true
      /\ result = tracePlan best false (obstacles (m_Config p'))
  end.
Proof.
  unfold plan.
  destruct (setup ribbonManager start config previousPlan timeRemaining p)
    as [s p0] eqn:Hsetup.
  assert (Hnone : m_BestVertex p0 = None).
  { unfold setup in Hsetup. simpl in Hsetup. now injection Hsetup as <- <-. }
  unfold search.
  destruct (bigLoop fuel s p0) as [p1| |] eqn:Hloop; try discriminate.
  destruct (bigLoop_best s fuel p0 p1 Hloop) as [Hgoal _].
  { unfold bestIsGoal. now rewrite Hnone. }
  unfold finish. simpl. unfold bestIsGoal in Hgoal.
  destruct (m_BestVertex p1) as [best|] eqn:Hbest;
    intros [= <- <-]; simpl; rewrite Hbest; auto.
Qed.

End AnytimeProperties.

Section DeadlineProperties.
Context {C : Collaborators} {P : PlannerParts}.
Import AStarPlanner.

(** X24. When the deadline has already passed at the first poll of the
    big loop (no time was given, or the clock jumped), [plan] does not
    search: it returns the empty plan after two clock readings, with no
    sample drawn, nothing expanded, no pass counted and no best vertex,
    and writes the counts and the failure line. *)
Theorem plan_without_time
  (fuel : nat) (ribbonManager : RibbonManager) (start : State)
  (config : PlannerConfig) (previousPlan : DubinsPlan) (timeRemaining : Q)
  (p : Planner) :
  timeRemaining + nowFn (readings p) <= nowFn (S (readings p)) ->
  exists p',
    plan (S fuel) ribbonManager start config previousPlan timeRemaining p
    = Ok ([], p')
    /\ m_BestVertex p' = None
    /\ m_Samples p' = []
    /\ m_IterationCount p' = 0%nat
    /\ m_ExpandedCount p' = 0%nat
    /\ readings p' = S (S (readings p))
    /\ calls p' = calls p ++ [OutputCounts 0 0 0;
                              Output "Failed to find a plan"].
Proof.
  intros Hlate. unfold plan.
  destruct (setup ribbonManager start config previousPlan timeRemaining p)
    as [s p0] eqn:Hsetup.
  assert (H0 : endTime s = timeRemaining + nowFn (readings p)
               /\ readings p0 = S (readings p)
               /\ m_BestVertex p0 = None
               /\ m_Samples p0 = []
               /\ m_IterationCount p0 = 0%nat
               /\ m_ExpandedCount p0 = 0%nat
               /\ calls p0 = calls p).
  { unfold setup in Hsetup. cbn [now fst snd] in Hsetup.
    injection Hsetup as <- <-. repeat split. }
  destruct H0 as (Hend & Hr0 & Hb0 & Hs0 & Hi0 & He0 & Hc0).
  unfold search. cbn [bigLoop]. unfold now. rewrite Hend, Hr0.
  unfold Qlt_bool. apply Qle_bool_iff in Hlate. rewrite Hlate.
  cbn [negb]. unfold finish. cbn [record m_BestVertex with_readings].
  rewrite Hb0. eexists. split; [reflexivity|].
  cbn. rewrite ?Hb0, ?Hs0, ?Hi0, ?He0, ?Hr0, ?Hc0, <- ?app_assoc.
  repeat split.
Qed.

Section Polls.
Variable deadline : Q.
Variable N : nat.
Hypothesis reached : forall n, (N <= n)%nat -> deadline <= nowFn n.

Lemma aStarLoop_polls :
  forall (fuel : nat) (vertex : Vertex) (p : Planner) (r : option Vertex)
         (p' : Planner),
    aStarLoop fuel deadline vertex p = Ok (r, p') ->
    (readings p < readings p' <= Nat.max (readings p) N + 1)%nat.
Proof.
  induction fuel as [|fuel IH]; intros vertex p r p' Hrun; [discriminate|].
  cbn [aStarLoop] in Hrun. unfold now in Hrun.
  destruct (Nat.le_gt_cases N (readings p)) as [Hlate|Hearly].
  - rewrite (late_reading deadline N reached) in Hrun by assumption.
    injection Hrun as <- <-. simpl. lia.
  - destruct (Qlt_bool (nowFn (readings p)) deadline).
    2:{ injection Hrun as <- <-. simpl. lia. }
    set (p1 := with_readings (S (readings p)) p) in *.
    destruct (goalCondition vertex && improves vertex p1).
    { injection Hrun as <- <-. simpl. lia. }
    pose proof (expand_keeps vertex p1) as Hexp.
    destruct (vertexQueueEmpty (expand vertex p1)).
    { injection Hrun as <- <-. rewrite Hexp. simpl. lia. }
    destruct (popVertexQueue (expand vertex p1)) as [[v2 p2]|] eqn:Hpop;
      [|discriminate].
    assert (Hr2 : readings p2 = readings (expand vertex p1)).
    { revert Hpop. unfold popVertexQueue.
      destruct (m_VertexQueue _) as [|v0 q]; [discriminate|].
      destruct (takeBest v0 q). now intros [= <- <-]. }
    apply IH in Hrun. rewrite Hr2, Hexp in Hrun.
    unfold p1 in Hrun. cbn [readings with_readings] in Hrun. lia.
Qed.

Lemma aStar_polls (fuel : nat) (p : Planner) (r : option Vertex)
      (p' : Planner) :
  aStar fuel deadline p = Ok (r, p') ->
  (readings p < readings p' <= Nat.max (readings p) N + 1)%nat.
Proof.
  unfold aStar. intros Hrun.
  destruct (popVertexQueue (record [AStar] p)) as [[v0 p0]|] eqn:Hpop;
    [|discriminate].
  assert (Hr0 : readings p0 = readings p).
  { revert Hpop. unfold popVertexQueue.
    destruct (m_VertexQueue _) as [|v1 q]; [discriminate|].
    destruct (takeBest v1 q). now intros [= <- <-]. }
  apply aStarLoop_polls in Hrun. rewrite Hr0 in Hrun. exact Hrun.
Qed.

Lemma before_search_readings (s : Search) (p : Planner) :
  let p1 := clearVertexQueue (snd (now p)) in
  let p2 := pushVertexQueue (startV s)
              (record [VisualizeVertex (startV s) "start"] p1) in
  let p3 := if negb (Vertex_isRoot (lastPlanEnd s))
            then pushVertexQueue (lastPlanEnd s) p2 else p2 in
  let p4 := expandToCoverSpecificSamples (startV s) (ribbonSamples s)
              true p3 in
  let p5 := expandToCoverSpecificSamples (startV s) (otherRibbonSamples s)
              true p4 in
  let p6 := if (List.length (m_Samples p5) <? c_InitialSamples)%nat
            then addSamples (generator s) c_InitialSamples p5
            else addSamples_more (generator s) p5 in
  readings p6 = S (readings p).
Proof.
  intros p1 p2 p3 p4 p5 p6.
  assert (H3 : readings p3 = S (readings p))
    by (subst p3; destruct (negb _); reflexivity).
  destruct (expandToCoverSpecificSamples_keeps
              (startV s) (ribbonSamples s) true p3) as [H4 _].
  destruct (expandToCoverSpecificSamples_keeps
              (startV s) (otherRibbonSamples s) true p4) as [H5 _].
  fold p4 in H4. fold p4 p5 in H5.
  subst p6. destruct (_ <? _)%nat; simpl; congruence.
Qed.

Lemma bigLoop_polls (s : Search) :
  endTime s = deadline ->
  forall (fuel : nat) (p p' : Planner),
    bigLoop fuel s p = Ok p' ->
    (readings p' <= Nat.max (readings p) (N + 1) + 1)%nat.
Proof.
  intros Hend.
  induction fuel as [|fuel IH]; intros p p' Hrun; [discriminate|].
  cbn [bigLoop] in Hrun.
  pose proof (before_search_readings s p) as Hbefore. cbv zeta in Hbefore.
  unfold now in Hrun, Hbefore. cbn [snd] in Hbefore. rewrite Hend in Hrun.
  destruct (Nat.le_gt_cases N (readings p)) as [Hlate|Hearly].
  - rewrite (late_reading deadline N reached) in Hrun by assumption.
    injection Hrun as <-. simpl. lia.
  - destruct (Qlt_bool (nowFn (readings p)) deadline).
    2:{ injection Hrun as <-. simpl. lia. }
    destruct (bestIsBestPossible s _).
    { injection Hrun as <-. simpl. lia. }
    match type of Hrun with
    | match aStar fuel deadline ?q with _ => _ end = _ =>
        set (p6 := q) in *
    end.
    destruct (aStar fuel deadline p6) as [[v p7]| |] eqn:Hastar;
      try discriminate.
    apply aStar_polls in Hastar. rewrite Hbefore in Hastar.
    apply IH in Hrun. cbn [readings with_IterationCount] in Hrun.
    rewrite keepBetter_keeps in Hrun. lia.
Qed.

End Polls.

(** X25. The planner honours its deadline up to two polls: if the clock
    is at or past [timeRemaining + now()] from its [N]-th reading on, a
    call of [plan] that returns has read the clock at most twice after
    that reading (or, when the call started later than that, exactly
    twice in all). *)
Theorem plan_polls_bounded
  (N fuel : nat) (ribbonManager : RibbonManager) (start : State)
  (config : PlannerConfig) (previousPlan : DubinsPlan) (timeRemaining : Q)
  (p : Planner) (result : DubinsPlan) (p' : Planner) :
  (forall n, (N <= n)%nat -> timeRemaining + nowFn (readings p) <= nowFn n) ->
  plan fuel ribbonManager start config previousPlan timeRemaining p
  = Ok (result, p') ->
  (readings p' <= Nat.max (readings p + 2) (N + 2))%nat.
Proof.
  intros Hclock. unfold plan.
  destruct (setup ribbonManager start config previousPlan timeRemaining p)
    as [s p0] eqn:Hsetup.
  assert (Hend : endTime s = timeRemaining + nowFn (readings p)
                 /\ readings p0 = S (readings p)).
  { unfold setup in Hsetup. simpl in Hsetup.
    injection Hsetup as <- <-. split; reflexivity. }
  destruct Hend as [Hend Hr0].
  unfold search.
  destruct (bigLoop fuel s p0) as [p1| |] eqn:Hloop; try discriminate.
  apply (bigLoop_polls _ N Hclock s Hend) in Hloop.
  unfold finish. simpl.
  destruct (m_BestVertex p1); intros [= _ <-]; simpl; lia.
Qed.

End DeadlineProperties.

Section CounterProperties.
Context {C : Collaborators} {P : PlannerParts}.
Import AStarPlanner.

Ltac split_tuple :=
  repeat match goal with
         | |- (_, _) = (_, _) => apply f_equal2
         end.

Lemma countCalls_app (f : Call -> bool) (l1 l2 : list Call) :
  countCalls f (l1 ++ l2) = (countCalls f l1 + countCalls f l2)%nat.
Proof. unfold countCalls. now rewrite filter_app, length_app. Qed.

Lemma tally_record (cs : list Call) (p : Planner) :
  existsb isAStar cs = false -> existsb isExpand cs = false ->
  tally (record cs p) = tally p.
Proof.
  intros HA HE. unfold tally. simpl. rewrite !countCalls_app.
  assert (Hzero : forall f, existsb f cs = false -> countCalls f cs = 0%nat).
  { intros f. unfold countCalls. clear.
    induction cs as [|c cs IH]; simpl; [reflexivity|].
    destruct (f c); simpl; [discriminate|exact IH]. }
  rewrite (Hzero _ HA), (Hzero _ HE), !Nat.add_0_r. reflexivity.
Qed.

Lemma tally_push (v : Vertex) (p : Planner) :
  tally (pushVertexQueue v p) = tally p.
Proof.
  unfold pushVertexQueue.
  rewrite tally_record by reflexivity. reflexivity.
Qed.

Lemma tally_fold_push {A : Type} (mk : Planner -> A -> Vertex) (l : list A) :
  forall p : Planner,
    tally (fold_left (fun p a => pushVertexQueue (mk p a) p) l p) = tally p.
Proof.
  induction l as [|a l IH]; intros p; simpl; [reflexivity|].
  now rewrite IH, tally_push.
Qed.

Lemma tally_expandToCover (root : Vertex) (samples : list State) (b : bool)
      (p : Planner) :
  tally (expandToCoverSpecificSamples root samples b p) = tally p.
Proof.
  unfold expandToCoverSpecificSamples.
  destruct (Qlt_bool _ _); [|reflexivity].
  apply (tally_fold_push
           (fun p s =>
              computeTrueCost (m_Config p)
                (Vertex_connect root
                   (mkState (State_x s) (State_y s) (State_heading s)
                            (maxSpeed (m_Config p)) (State_time s))
                   (coverageTurningRadius (m_Config p)) b))).
Qed.

Lemma tally_expand (v : Vertex) (p : Planner) :
  tally (expand v p)
  = let '(a, e, i, x) := tally p in (a, S e, i, S x).
Proof.
  unfold expand.
  set (q := fold_left _ _ _).
  assert (Hq : tally q = tally (record [Expand v] p)).
  { subst q.
    apply (tally_fold_push (fun _ c => c)
             (expandChildren (m_Config (record [Expand v] p))
                             (m_Samples (record [Expand v] p)) v)). }
  unfold tally in *. simpl in *. injection Hq as Ha He Hi Hx.
  rewrite Ha, He, Hi, Hx, !countCalls_app. simpl.
  split_tuple; unfold countCalls; simpl; lia.
Qed.

Lemma tally_pop (p : Planner) (v : Vertex) (p' : Planner) :
  popVertexQueue p = Some (v, p') -> tally p' = tally p.
Proof.
  intros Hpop.
  destruct (popVertexQueue_fields _ _ _ Hpop)
    as (_ & _ & _ & Hi & Hx & Hc).
  unfold tally. now rewrite Hi, Hx, Hc.
Qed.

Lemma tally_aStarLoop :
  forall (fuel : nat) (deadline : Q) (vertex : Vertex) (p : Planner)
         (r : option Vertex) (p' : Planner),
    aStarLoop fuel deadline vertex p = Ok (r, p') ->
    exists d,
      tally p' = let '(a, e, i, x) := tally p in
                 (a, (e + d)%nat, i, (x + d)%nat).
Proof.
  induction fuel as [|fuel IH]; intros deadline vertex p r p' Hrun;
    [discriminate|].
  cbn [aStarLoop] in Hrun. unfold now in Hrun.
  set (p1 := with_readings (S (readings p)) p) in *.
  assert (H1 : tally p1 = tally p) by reflexivity.
  destruct (tally p) as [[[a e] i] x] eqn:Ht.
  destruct (Qlt_bool (nowFn (readings p)) deadline).
  2:{ injection Hrun as <- <-. exists 0%nat. rewrite H1, !Nat.add_0_r.
      reflexivity. }
  destruct (goalCondition vertex && improves vertex p1).
  { injection Hrun as <- <-. exists 0%nat. rewrite H1, !Nat.add_0_r.
    reflexivity. }
  pose proof (tally_expand vertex p1) as Hexp. rewrite H1 in Hexp.
  destruct (vertexQueueEmpty (expand vertex p1)).
  { injection Hrun as <- <-. exists 1%nat. rewrite Hexp.
    split_tuple; lia. }
  destruct (popVertexQueue (expand vertex p1)) as [[v2 p2]|] eqn:Hpop;
    [|discriminate].
  apply tally_pop in Hpop.
  destruct (IH _ _ _ _ _ Hrun) as (d & Hd).
  rewrite Hpop, Hexp in Hd. exists (S d). rewrite Hd.
  split_tuple; lia.
Qed.

Lemma tally_aStar (fuel : nat) (deadline : Q) (p : Planner)
      (r : option Vertex) (p' : Planner) :
  aStar fuel deadline p = Ok (r, p') ->
  exists d,
    tally p' = let '(a, e, i, x) := tally p in
               (S a, (e + d)%nat, i, (x + d)%nat).
Proof.
  unfold aStar. intros Hrun.
  destruct (popVertexQueue (record [AStar] p)) as [[v0 p0]|] eqn:Hpop;
    [|discriminate].
  apply tally_pop in Hpop.
  destruct (tally_aStarLoop _ _ _ _ _ _ Hrun) as (d & Hd).
  rewrite Hpop in Hd. exists d. rewrite Hd.
  unfold tally. simpl. rewrite !countCalls_app.
  split_tuple; unfold countCalls; simpl; lia.
Qed.

Lemma tally_before_search (s : Search) (p : Planner) :
  let p1 := clearVertexQueue (snd (now p)) in
  let p2 := pushVertexQueue (startV s)
              (record [VisualizeVertex (startV s) "start"] p1) in
  let p3 := if negb (Vertex_isRoot (lastPlanEnd s))
            then pushVertexQueue (lastPlanEnd s) p2 else p2 in
  let p4 := expandToCoverSpecificSamples (startV s) (ribbonSamples s)
              true p3 in
  let p5 := expandToCoverSpecificSamples (startV s) (otherRibbonSamples s)
              true p4 in
  let p6 := if (List.length (m_Samples p5) <? c_InitialSamples)%nat
            then addSamples (generator s) c_InitialSamples p5
            else addSamples_more (generator s) p5 in
  tally p6 = tally p.
Proof.
  intros p1 p2 p3 p4 p5 p6.
  assert (H1 : tally p1 = tally p).
  { subst p1. unfold clearVertexQueue.
    rewrite tally_record by reflexivity. reflexivity. }
  assert (H2 : tally p2 = tally p).
  { subst p2. rewrite tally_push, tally_record by reflexivity. exact H1. }
  assert (H3 : tally p3 = tally p).
  { subst p3. destruct (negb _); [rewrite tally_push|]; exact H2. }
  assert (H5 : tally p5 = tally p).
  { subst p5 p4. now rewrite !tally_expandToCover. }
  subst p6. unfold addSamples_more, addSamples.
  destruct (_ <? _)%nat; rewrite tally_record by reflexivity; exact H5.
Qed.

Lemma tally_bigLoop (s : Search) :
  forall (fuel : nat) (p p' : Planner),
    bigLoop fuel s p = Ok p' ->
    exists n d,
      tally p' = let '(a, e, i, x) := tally p in
                 ((a + n)%nat, (e + d)%nat, (i + n)%nat, (x + d)%nat).
Proof.
  induction fuel as [|fuel IH]; intros p p' Hrun; [discriminate|].
  cbn [bigLoop] in Hrun.
  pose proof (tally_before_search s p) as Hbefore. cbv zeta in Hbefore.
  unfold now in Hrun, Hbefore. cbn [snd] in Hbefore.
  destruct (tally p) as [[[a e] i] x] eqn:Ht.
  destruct (Qlt_bool (nowFn (readings p)) (endTime s)).
  2:{ injection Hrun as <-. exists 0%nat, 0%nat.
      change (tally (with_readings (S (readings p)) p)) with (tally p).
      rewrite Ht, !Nat.add_0_r. reflexivity. }
  destruct (bestIsBestPossible s _).
  { injection Hrun as <-. exists 0%nat, 0%nat.
    rewrite tally_record by reflexivity. unfold clearVertexQueue.
    rewrite tally_record by reflexivity.
    change (tally (with_VertexQueue [] (with_readings (S (readings p)) p)))
      with (tally p).
    rewrite Ht, !Nat.add_0_r. reflexivity. }
  match type of Hrun with
  | match aStar fuel (endTime s) ?q with _ => _ end = _ =>
      set (p6 := q) in *
  end.
  destruct (aStar fuel (endTime s) p6) as [[v p7]| |] eqn:Hastar;
    try discriminate.
  destruct (tally_aStar _ _ _ _ _ Hastar) as (d1 & Hd1).
  rewrite Hbefore in Hd1.
  destruct (IH _ _ Hrun) as (n & d & Hnd).
  assert (Hkeep : tally (with_IterationCount
                           (S (m_IterationCount (keepBetter v p7)))
                           (keepBetter v p7))
                  = (S a, (e + d1)%nat, S i, (x + d1)%nat)).
  { assert (Hk : tally (keepBetter v p7) = tally p7).
    { unfold keepBetter.
      destruct (m_BestVertex p7), v;
        try destruct (Qlt_bool _ _);
        try rewrite tally_record by reflexivity; reflexivity. }
    unfold tally in *. simpl. injection Hk as -> -> -> ->.
    injection Hd1 as -> -> -> ->. reflexivity. }
  rewrite Hkeep in Hnd. exists (S n), (d1 + d)%nat. rewrite Hnd.
  split_tuple; lia.
Qed.

(** X26. The counts [plan] writes to its output are true: the number of
    passes it reports is the number of inner searches it ran in this
    call, and the number of expansions it reports is the number of
    expansions made in this call. *)
Theorem plan_reports_true_counts
  (fuel : nat) (ribbonManager : RibbonManager) (start : State)
  (config : PlannerConfig) (previousPlan : DubinsPlan) (timeRemaining : Q)
  (p : Planner) (result : DubinsPlan) (p' : Planner) :
  plan fuel ribbonManager start config previousPlan timeRemaining p
  = Ok (result, p') ->
  countCalls isAStar (calls p')
  = (countCalls isAStar (calls p) + m_IterationCount p')%nat
  /\ countCalls isExpand (calls p')
     = (countCalls isExpand (calls p) + m_ExpandedCount p')%nat
  /\ In (OutputCounts (List.length (m_Samples p')) (m_ExpandedCount p')
                      (m_IterationCount p'))
        (calls p').
Proof.
  unfold plan.
  destruct (setup ribbonManager start config previousPlan timeRemaining p)
    as [s p0] eqn:Hsetup.
  assert (H0 : tally p0 = (countCalls isAStar (calls p),
                           countCalls isExpand (calls p), 0%nat, 0%nat)).
  { unfold setup in Hsetup. cbn [now fst snd] in Hsetup.
    injection Hsetup as <- <-. reflexivity. }
  unfold search.
  destruct (bigLoop fuel s p0) as [p1| |] eqn:Hloop; try discriminate.
  destruct (tally_bigLoop s _ _ _ Hloop) as (n & d & Hnd).
  rewrite H0 in Hnd. intros Hfin.
  assert (Hp' : tally p' = tally p1
                /\ In (OutputCounts (List.length (m_Samples p'))
                                    (m_ExpandedCount p') (m_IterationCount p'))
                      (calls p')).
  { unfold finish in Hfin.
    set (p2 := record [OutputCounts (List.length (m_Samples p1))
                                    (m_ExpandedCount p1)
                                    (m_IterationCount p1)] p1) in *.
    assert (T2 : tally p2 = tally p1)
      by (apply tally_record; reflexivity).
    assert (Hin : In (OutputCounts (List.length (m_Samples p2))
                                   (m_ExpandedCount p2) (m_IterationCount p2))
                     (calls p2)).
    { subst p2. simpl. apply in_or_app. right. left. reflexivity. }
    destruct (m_BestVertex p2); injection Hfin as _ <-.
    - split; assumption.
    - split; [rewrite tally_record by reflexivity; exact T2|].
      simpl. apply in_or_app. left. exact Hin. }
  destruct Hp' as [Ht Hin]. rewrite Hnd in Ht.
  unfold tally in Ht. injection Ht as Ha He Hi Hx.
  split; [lia|]. split; [lia|exact Hin].
Qed.

End CounterProperties.

Section HotStartProperties.
Context {C : Collaborators} {P : PlannerParts}.
Import AStarPlanner.



End HotStartProperties.

Section ReuseProperties.
Context {C : Collaborators} {P : PlannerParts}.
Import AStarPlanner.

(** Two planner states that differ at most in their recorded calls have
    all other members equal. *)
Lemma forgetCalls_fields (p q : Planner) :
  forgetCalls p = forgetCalls q ->
  m_Config p = m_Config q
  /\ m_RibbonManager p = m_RibbonManager q
  /\ m_ExpandedCount p = m_ExpandedCount q
  /\ m_IterationCount p = m_IterationCount q
  /\ m_StartStateTime p = m_StartStateTime q
  /\ m_Samples p = m_Samples q
  /\ m_BestVertex p = m_BestVertex q
  /\ m_VertexQueue p = m_VertexQueue q
  /\ readings p = readings q.
Proof.
  unfold forgetCalls. intros [= H1 H2 H3 H4 H5 H6 H7 H8 H9].
  repeat split; assumption.
Qed.

Lemma forgetCalls_of_fields (p q : Planner) :
  m_Config p = m_Config q ->
  m_RibbonManager p = m_RibbonManager q ->
  m_ExpandedCount p = m_ExpandedCount q ->
  m_IterationCount p = m_IterationCount q ->
  m_StartStateTime p = m_StartStateTime q ->
  m_Samples p = m_Samples q ->
  m_BestVertex p = m_BestVertex q ->
  m_VertexQueue p = m_VertexQueue q ->
  readings p = readings q ->
  forgetCalls p = forgetCalls q.
Proof. unfold forgetCalls. congruence. Qed.

Ltac same_members H :=
  apply forgetCalls_fields in H;
  destruct H as (?H & ?H & ?H & ?H & ?H & ?H & ?H & ?H & ?H);
  apply forgetCalls_of_fields; simpl; congruence.

Lemma forget_record (cs cs' : list Call) (p q : Planner) :
  forgetCalls p = forgetCalls q ->
  forgetCalls (record cs p) = forgetCalls (record cs' q).
Proof. intros H. same_members H. Qed.

Lemma forget_with_readings (p q : Planner) :
  forgetCalls p = forgetCalls q ->
  forgetCalls (with_readings (S (readings p)) p)
  = forgetCalls (with_readings (S (readings q)) q).
Proof. intros H. same_members H. Qed.

Lemma forget_clear (p q : Planner) :
  forgetCalls p = forgetCalls q ->
  forgetCalls (clearVertexQueue p) = forgetCalls (clearVertexQueue q).
Proof. intros H. same_members H. Qed.

Lemma forget_push (v : Vertex) (p q : Planner) :
  forgetCalls p = forgetCalls q ->
  forgetCalls (pushVertexQueue v p) = forgetCalls (pushVertexQueue v q).
Proof. intros H. same_members H. Qed.

Lemma forget_fold {A : Type} (f : Planner -> A -> Planner) (l : list A) :
  (forall p q a, forgetCalls p = forgetCalls q ->
                 forgetCalls (f p a) = forgetCalls (f q a)) ->
  forall p q, forgetCalls p = forgetCalls q ->
              forgetCalls (fold_left f l p) = forgetCalls (fold_left f l q).
Proof.
  intros Hstep. induction l as [|a l IH]; intros p q H; simpl; auto.
Qed.

Lemma forget_expandToCover (root : Vertex) (samples : list State) (b : bool)
      (p q : Planner) :
  forgetCalls p = forgetCalls q ->
  forgetCalls (expandToCoverSpecificSamples root samples b p)
  = forgetCalls (expandToCoverSpecificSamples root samples b q).
Proof.
  intros H. unfold expandToCoverSpecificSamples.
  pose proof (forgetCalls_fields _ _ H) as (Hc & _). rewrite Hc.
  destruct (Qlt_bool _ _); [|exact H].
  apply forget_fold; [|exact H].
  clear. intros p q s H.
  pose proof (forgetCalls_fields _ _ H) as (Hc & _). rewrite Hc.
  now apply forget_push.
Qed.

Lemma forget_addSamples (g : StateGenerator) (n : nat) (p q : Planner) :
  forgetCalls p = forgetCalls q ->
  forgetCalls (addSamples g n p) = forgetCalls (addSamples g n q).
Proof.
  intros H. unfold addSamples.
  pose proof (forgetCalls_fields _ _ H) as F.
  destruct F as (F1 & F2 & F3 & F4 & F5 & F6 & F7 & F8 & F9).
  rewrite F6. apply forgetCalls_of_fields; simpl; congruence.
Qed.

Lemma forget_expand (v : Vertex) (p q : Planner) :
  forgetCalls p = forgetCalls q ->
  forgetCalls (expand v p) = forgetCalls (expand v q).
Proof.
  intros H. unfold expand.
  pose proof (forgetCalls_fields _ _ H) as (Hc & _ & _ & _ & _ & Hs & _).
  cbn [m_Config m_Samples record]. rewrite Hc, Hs.
  set (children := expandChildren _ _ _).
  assert (Hfold :
    forgetCalls (fold_left (fun p c => pushVertexQueue c p) children
                           (record [Expand v] p))
    = forgetCalls (fold_left (fun p c => pushVertexQueue c p) children
                             (record [Expand v] q))).
  { apply forget_fold; [|now apply forget_record].
    intros p0 q0 c H0. now apply forget_push. }
  same_members Hfold.
Qed.

Lemma forget_pop (p q : Planner) :
  forgetCalls p = forgetCalls q ->
  match popVertexQueue p, popVertexQueue q with
  | Some (v, p'), Some (w, q') => v = w /\ forgetCalls p' = forgetCalls q'
  | None, None => True
  | _, _ => False
  end.
Proof.
  intros H. unfold popVertexQueue.
  pose proof (forgetCalls_fields _ _ H) as (_ & _ & _ & _ & _ & _ & _ & Hq & _).
  rewrite Hq. destruct (m_VertexQueue q) as [|v0 rest]; [exact I|].
  destruct (takeBest v0 rest) as [b rest']. split; [reflexivity|].
  same_members H.
Qed.

Lemma forget_aStarLoop :
  forall (fuel : nat) (deadline : Q) (vertex : Vertex) (p q : Planner),
    forgetCalls p = forgetCalls q ->
    Result_map (fun rp => (fst rp, forgetCalls (snd rp)))
               (aStarLoop fuel deadline vertex p)
    = Result_map (fun rp => (fst rp, forgetCalls (snd rp)))
                 (aStarLoop fuel deadline vertex q).
Proof.
  induction fuel as [|fuel IH]; intros deadline vertex p q H; [reflexivity|].
  cbn [aStarLoop]. unfold now.
  pose proof (forget_with_readings _ _ H) as H1.
  pose proof (forgetCalls_fields _ _ H) as F. destruct F as (_ & _ & _ & _ & _ & _ & _ & _ & Hr).
  replace (nowFn (readings p)) with (nowFn (readings q)) by now rewrite Hr.
  destruct (Qlt_bool (nowFn (readings q)) deadline).
  2:{ cbn. now rewrite H1. }
  set (p1 := with_readings (S (readings p)) p) in *.
  set (q1 := with_readings (S (readings q)) q) in *.
  assert (Hi : improves vertex p1 = improves vertex q1).
  { unfold improves.
    pose proof (forgetCalls_fields _ _ H1) as (_ & _ & _ & _ & _ & _ & Hb & _).
    now rewrite Hb. }
  rewrite Hi.
  destruct (goalCondition vertex && improves vertex q1).
  { cbn. now rewrite H1. }
  pose proof (forget_expand vertex _ _ H1) as H2.
  assert (He : vertexQueueEmpty (expand vertex p1)
               = vertexQueueEmpty (expand vertex q1)).
  { unfold vertexQueueEmpty.
    pose proof (forgetCalls_fields _ _ H2)
      as (_ & _ & _ & _ & _ & _ & _ & Hq & _).
    now rewrite Hq. }
  rewrite He.
  destruct (vertexQueueEmpty (expand vertex q1)).
  { cbn. now rewrite H2. }
  pose proof (forget_pop _ _ H2) as Hpop.
  destruct (popVertexQueue (expand vertex p1)) as [[v p2]|],
           (popVertexQueue (expand vertex q1)) as [[w q2]|];
    try contradiction; [|reflexivity].
  destruct Hpop as [-> H3]. now apply IH.
Qed.

Lemma forget_aStar (fuel : nat) (deadline : Q) (p q : Planner) :
  forgetCalls p = forgetCalls q ->
  Result_map (fun rp => (fst rp, forgetCalls (snd rp)))
             (aStar fuel deadline p)
  = Result_map (fun rp => (fst rp, forgetCalls (snd rp)))
               (aStar fuel deadline q).
Proof.
  intros H. unfold aStar.
  pose proof (forget_pop _ _ (forget_record [AStar] [AStar] _ _ H)) as Hpop.
  destruct (popVertexQueue (record [AStar] p)) as [[v p2]|],
           (popVertexQueue (record [AStar] q)) as [[w q2]|];
    try contradiction; [|reflexivity].
  destruct Hpop as [-> H3]. now apply forget_aStarLoop.
Qed.

Lemma forget_keepBetter (v : option Vertex) (p q : Planner) :
  forgetCalls p = forgetCalls q ->
  forgetCalls (with_IterationCount (S (m_IterationCount (keepBetter v p)))
                                   (keepBetter v p))
  = forgetCalls (with_IterationCount (S (m_IterationCount (keepBetter v q)))
                                     (keepBetter v q)).
Proof.
  intros H. unfold keepBetter.
  pose proof (forgetCalls_fields _ _ H) as F.
  destruct F as (F1 & F2 & F3 & F4 & F5 & F6 & F7 & F8 & F9).
  rewrite F7.
  destruct (m_BestVertex q) as [best|] eqn:Hq; destruct v as [g|];
    try destruct (Qlt_bool _ _);
    apply forgetCalls_of_fields; simpl; congruence.
Qed.

End ReuseProperties.

Section PlannerReuse.
Context {C : Collaborators} {P : PlannerParts}.
Import AStarPlanner.

Lemma Result_map_map {A B D : Type} (f : A -> B) (g : B -> D)
      (r : Result A) :
  Result_map g (Result_map f r) = Result_map (fun a => g (f a)) r.
Proof. destruct r; reflexivity. Qed.

Lemma Result_map_ext {A B : Type} (f g : A -> B) (r : Result A) :
  (forall a, f a = g a) -> Result_map f r = Result_map g r.
Proof. intros H. destruct r; simpl; [now rewrite H|reflexivity..]. Qed.

Lemma forget_bigLoop (s : Search) :
  forall (fuel : nat) (p q : Planner),
    forgetCalls p = forgetCalls q ->
    Result_map forgetCalls (bigLoop fuel s p)
    = Result_map forgetCalls (bigLoop fuel s q).
Proof.
  induction fuel as [|fuel IH]; intros p q H; [reflexivity|].
  cbn [bigLoop]. unfold now.
  pose proof (forget_with_readings _ _ H) as H1.
  pose proof (forgetCalls_fields _ _ H) as F.
  destruct F as (_ & _ & _ & _ & _ & _ & _ & _ & Hr).
  replace (nowFn (readings p)) with (nowFn (readings q)) by now rewrite Hr.
  destruct (Qlt_bool (nowFn (readings q)) (endTime s)).
  2:{ cbn. now rewrite H1. }
  set (p1 := clearVertexQueue (with_readings (S (readings p)) p)).
  set (q1 := clearVertexQueue (with_readings (S (readings q)) q)).
  assert (H2 : forgetCalls p1 = forgetCalls q1) by now apply forget_clear.
  assert (Hb : bestIsBestPossible s p1 = bestIsBestPossible s q1).
  { unfold bestIsBestPossible.
    pose proof (forgetCalls_fields _ _ H2) as (_ & _ & _ & _ & _ & _ & Hb & _).
    now rewrite Hb. }
  rewrite Hb. destruct (bestIsBestPossible s q1).
  { cbn [Result_map]. f_equal. now apply forget_record. }
  set (p2 := pushVertexQueue (startV s)
               (record [VisualizeVertex (startV s) "start"] p1)).
  set (q2 := pushVertexQueue (startV s)
               (record [VisualizeVertex (startV s) "start"] q1)).
  assert (H3 : forgetCalls p2 = forgetCalls q2)
    by (apply forget_push; now apply forget_record).
  set (p3 := if negb (Vertex_isRoot (lastPlanEnd s))
             then pushVertexQueue (lastPlanEnd s) p2 else p2).
  set (q3 := if negb (Vertex_isRoot (lastPlanEnd s))
             then pushVertexQueue (lastPlanEnd s) q2 else q2).
  assert (H4 : forgetCalls p3 = forgetCalls q3).
  { subst p3 q3. destruct (negb _); [now apply forget_push|exact H3]. }
  set (p5 := expandToCoverSpecificSamples (startV s) (otherRibbonSamples s)
               true
               (expandToCoverSpecificSamples (startV s) (ribbonSamples s)
                                             true p3)).
  set (q5 := expandToCoverSpecificSamples (startV s) (otherRibbonSamples s)
               true
               (expandToCoverSpecificSamples (startV s) (ribbonSamples s)
                                             true q3)).
  assert (H5 : forgetCalls p5 = forgetCalls q5)
    by (subst p5 q5; now do 2 apply forget_expandToCover).
  set (p6 := if (List.length (m_Samples p5) <? c_InitialSamples)%nat
             then addSamples (generator s) c_InitialSamples p5
             else addSamples_more (generator s) p5).
  set (q6 := if (List.length (m_Samples q5) <? c_InitialSamples)%nat
             then addSamples (generator s) c_InitialSamples q5
             else addSamples_more (generator s) q5).
  assert (H6 : forgetCalls p6 = forgetCalls q6).
  { subst p6 q6. unfold addSamples_more.
    pose proof (forgetCalls_fields _ _ H5) as (_ & _ & _ & _ & _ & Hs & _).
    rewrite Hs. destruct (_ <? _)%nat; now apply forget_addSamples. }
  pose proof (forget_aStar fuel (endTime s) _ _ H6) as H7.
  destruct (aStar fuel (endTime s) p6) as [[v p7]| |],
           (aStar fuel (endTime s) q6) as [[w q7]| |];
    try discriminate; try reflexivity.
  cbn [Result_map fst snd] in H7.
  assert (H8 : v = w /\ forgetCalls p7 = forgetCalls q7)
    by (split; congruence).
  destruct H8 as [-> H8].
  apply IH. now apply forget_keepBetter.
Qed.

(** The big loop clears the queue before it reads it. *)
Lemma bigLoop_clears_queue (s : Search) (fuel : nat) (p : Planner) :
  Result_map forgetQueue (bigLoop fuel s p)
  = Result_map forgetQueue (bigLoop fuel s (forgetQueue p)).
Proof.
  destruct fuel as [|fuel]; [reflexivity|].
  cbn [bigLoop]. unfold now.
  change (readings (forgetQueue p)) with (readings p).
  destruct (Qlt_bool (nowFn (readings p)) (endTime s)); [|reflexivity].
  change (clearVertexQueue (with_readings (S (readings p)) (forgetQueue p)))
    with (clearVertexQueue (with_readings (S (readings p)) p)).
  reflexivity.
Qed.

Lemma forget_commute (p : Planner) :
  forgetQueue (forgetCalls p) = forgetCalls (forgetQueue p).
Proof. reflexivity. Qed.

Lemma bigLoop_forgets (s : Search) (fuel : nat) (p q : Planner) :
  forgetQueue (forgetCalls p) = forgetQueue (forgetCalls q) ->
  Result_map (fun x => forgetQueue (forgetCalls x)) (bigLoop fuel s p)
  = Result_map (fun x => forgetQueue (forgetCalls x)) (bigLoop fuel s q).
Proof.
  intros H. rewrite !forget_commute in H.
  pose proof (forget_bigLoop s fuel _ _ H) as HB.
  assert (Hstep : forall x : Planner,
            Result_map (fun x => forgetQueue (forgetCalls x))
                       (bigLoop fuel s x)
            = Result_map forgetQueue
                (Result_map forgetCalls (bigLoop fuel s (forgetQueue x)))).
  { intros x.
    rewrite (Result_map_ext _ (fun x => forgetCalls (forgetQueue x)))
      by (intros; apply forget_commute).
    rewrite <- (Result_map_map forgetQueue forgetCalls).
    rewrite bigLoop_clears_queue.
    rewrite !Result_map_map. apply Result_map_ext. reflexivity. }
  rewrite (Hstep p), (Hstep q), HB. reflexivity.
Qed.

(** X28. A call of [plan] does not depend on what an earlier call left
    in the planner: two planner objects whose clocks stand at the same
    reading give, for the same arguments, the same plan and the same
    members afterwards (best vertex, samples, counters, configuration),
    or fail alike; only the record of calls made differs.  Every member
    the search reads is reset first. *)
Theorem plan_forgets_earlier_calls
  (fuel : nat) (ribbonManager : RibbonManager) (start : State)
  (config : PlannerConfig) (previousPlan : DubinsPlan) (timeRemaining : Q)
  (p q : Planner) :
  readings p = readings q ->
  outcomeOf (plan fuel ribbonManager start config previousPlan
                  timeRemaining p)
  = outcomeOf (plan fuel ribbonManager start config previousPlan
                    timeRemaining q).
Proof.
  intros Hr. unfold plan.
  destruct (setup ribbonManager start config previousPlan timeRemaining p)
    as [s p0] eqn:Hp.
  destruct (setup ribbonManager start config previousPlan timeRemaining q)
    as [s' q0] eqn:Hq.
  assert (Hs : s' = s /\ forgetQueue (forgetCalls p0)
                         = forgetQueue (forgetCalls q0)).
  { unfold setup in Hp, Hq. cbn [now fst snd] in Hp, Hq.
    injection Hp as <- <-. injection Hq as <- <-.
    rewrite Hr. split; reflexivity. }
  destruct Hs as [-> H0].
  pose proof (bigLoop_forgets s fuel _ _ H0) as HB.
  unfold outcomeOf, search.
  destruct (bigLoop fuel s p0) as [p1| |], (bigLoop fuel s q0) as [q1| |];
    try discriminate; try reflexivity.
  cbn [Result_map] in HB.
  assert (HF : forgetCalls (forgetQueue p1) = forgetCalls (forgetQueue q1))
    by (rewrite <- !forget_commute; congruence).
  apply forgetCalls_fields in HF.
  destruct HF as (F1 & F2 & F3 & F4 & F5 & F6 & F7 & _ & F9).
  cbn in F1, F2, F3, F4, F5, F6, F7, F9.
  unfold finish. cbn [record m_BestVertex]. rewrite F7.
  destruct (m_BestVertex q1) eqn:Hbq; cbn [Result_map fst snd]; f_equal;
    unfold forgetQueue, forgetCalls, with_VertexQueue, record; simpl;
    congruence.
Qed.

End PlannerReuse.

(** * The further properties at concrete inputs *)

(** X1: heuristic id 7. *)
Lemma setConfiguration_unknown_heuristic_witness :
  (7 < 0 \/ 4 < 7)%Z
  /\ let r := Executive.setConfiguration (C := Stub.collaborators)
                10 6 3 4 5 7 Stub.executive in
     Executive.m_RibbonManager (fst r) = Stub.ribbons
     /\ snd r = [Executive.Log "Unknown heuristic. Ignoring."]
     /\ turningRadius (Executive.m_PlannerConfig (fst r)) = 10.
Proof.
  assert (H : (7 < 0 \/ 4 < 7)%Z) by (right; reflexivity).
  split; [exact H|].
  destruct (@setConfiguration_unknown_heuristic Stub.collaborators
              10 6 3 4 5 7%Z Stub.executive H) as (H1 & H2 & H3 & _).
  repeat split; assumption.
Defined.

(** X3: a GeoTIFF that loads, asked for twice. *)
Lemma refreshMap_again_is_skipped_witness :
  Executive.m_CurrentMapPath Stub.executive <> "harbour.tiff"%string
  /\ Executive.loadMap (C := Stub.collaborators) "harbour.tiff" 43 (-70)
     = Some "harbour.tiff"%string
  /\ let e1 := fst (Executive.refreshMap "harbour.tiff" 43 (-70)
                                         Stub.executive) in
     Executive.refreshMap "harbour.tiff" 44 (-71) e1 = (e1, []).
Proof.
  assert (H1 : Executive.m_CurrentMapPath Stub.executive
               <> "harbour.tiff"%string) by discriminate.
  assert (H2 : Executive.loadMap (C := Stub.collaborators)
                 "harbour.tiff" 43 (-70) = Some "harbour.tiff"%string)
    by reflexivity.
  split; [exact H1|]. split; [exact H2|].
  exact (proj2 (proj2 (@refreshMap_again_is_skipped Stub.collaborators
                         "harbour.tiff"%string 43 (-70) 44 (-71)
                         Stub.executive "harbour.tiff"%string H1 H2))).
Defined.

(** X4: a chart that fails to load while another map is staged. *)
Lemma refreshMap_failure_is_retried_witness :
  "chart.tiff"%string <> ""%string
  /\ Executive.m_CurrentMapPath StubMore.offlineExecutive
     <> "chart.tiff"%string
  /\ Executive.loadMap (C := StubMore.offline) "chart.tiff" 43 (-70) = None
  /\ let r := Executive.refreshMap "chart.tiff" 43 (-70)
                                   StubMore.offlineExecutive in
     Executive.m_NewMap (fst r) = None
     /\ Executive.refreshMap "chart.tiff" 43 (-70) (fst r) = r.
Proof.
  assert (H1 : "chart.tiff"%string <> ""%string) by discriminate.
  assert (H2 : Executive.m_CurrentMapPath StubMore.offlineExecutive
               <> "chart.tiff"%string) by discriminate.
  assert (H3 : Executive.loadMap (C := StubMore.offline)
                 "chart.tiff" 43 (-70) = None) by reflexivity.
  split; [exact H1|]. split; [exact H2|]. split; [exact H3|].
  destruct (@refreshMap_failure_is_retried StubMore.offline
              "chart.tiff"%string 43 (-70) StubMore.offlineExecutive
              H1 H2 H3) as (Ha & _ & _ & Hb).
  split; assumption.
Defined.

(** X6: no shrink pending in the executive of the test doubles. *)
Lemma shrink_then_rollback_restores_witness :
  Executive.m_RadiusShrink Stub.executive == 0
  /\ let e' := Executive.restoreRadii (K := Stub.constants)
                 (Executive.shrinkRadii (K := Stub.constants)
                                        Stub.executive) in
     turningRadius (Executive.m_PlannerConfig e') == 8
     /\ Executive.m_RadiusShrink e' == 0.
Proof.
  assert (H : Executive.m_RadiusShrink Stub.executive == 0) by reflexivity.
  split; [exact H|].
  destruct (@shrink_then_rollback_restores Stub.constants Stub.collaborators
              Stub.executive H) as (H1 & _ & H3).
  split; assumption.
Defined.

(** X7: a pass of a quarter of a second, period one second. *)
Lemma sleepTime_nonnegative_witness :
  @c_PlanningTimeSeconds Stub.constants - ((100 + (1 # 4)) - 100) <= 2147483
  /\ (0 <= Executive.sleepTime (K := Stub.constants) 100 (100 + (1 # 4)))%Z.
Proof.
  assert (H : @c_PlanningTimeSeconds Stub.constants
              - ((100 + (1 # 4)) - 100) <= 2147483)
    by (vm_compute; discriminate).
  split; [exact H|].
  exact (@sleepTime_nonnegative Stub.constants 100 (100 + (1 # 4)) H).
Defined.

(** The sleep of that pass is 750 ms; and were the clock to step back by
    more than the range of [int] in milliseconds, the cast would leave
    the range. *)
Example sleepTime_examples :
  Executive.sleepTime (K := Stub.constants) 100 (100 + (1 # 4)) = 750%Z
  /\ Executive.sleepTime (K := Stub.constants) 3000000 100 = INT_MIN.
Proof. split; vm_compute; reflexivity. Qed.

(** X8: a pass of a quarter of a second, period one second: 750 ms. *)
Lemma sleepTime_fills_period_witness :
  0 <= (100 + (1 # 4)) - 100
  /\ (100 + (1 # 4)) - 100 <= @c_PlanningTimeSeconds Stub.constants
  /\ @c_PlanningTimeSeconds Stub.constants <= 2147483
  /\ let slept :=
       inject_Z (Executive.sleepTime (K := Stub.constants) 100
                                     (100 + (1 # 4))) / 1000 in
     ((100 + (1 # 4)) - 100) + slept
     < @c_PlanningTimeSeconds Stub.constants + (1 # 1000)
     /\ @c_PlanningTimeSeconds Stub.constants - (2 # 1000)
        < ((100 + (1 # 4)) - 100) + slept.
Proof.
  assert (H0 : 0 <= (100 + (1 # 4)) - 100) by (vm_compute; discriminate).
  assert (H : (100 + (1 # 4)) - 100 <= @c_PlanningTimeSeconds Stub.constants)
    by (vm_compute; discriminate).
  assert (H2 : @c_PlanningTimeSeconds Stub.constants <= 2147483)
    by (vm_compute; discriminate).
  split; [exact H0|]. split; [exact H|]. split; [exact H2|].
  exact (@sleepTime_fills_period Stub.constants 100 (100 + (1 # 4)) H0 H H2).
Defined.

(** X10: half a radian of turn between two calls stamped 100 s and
    100.1 s, 5 rad/s against a maximum of 0.1. *)
Lemma updateCovered_gate_open_for_large_time_stamps_witness :
  0 < 100
  /\ Qabs ((1 # 2) - 0)
     <= @c_CoverageHeadingRateMax Stub.constants * 100 / 2
  /\ let e1 := Executive.updateCovered (K := Stub.constants)
                 0 0 (5 # 2) (1 # 2) 100 Stub.executive in
     Executive.m_RibbonManager
       (Executive.updateCovered (K := Stub.constants)
                                1 1 (5 # 2) 0 (100 + (1 # 10)) e1)
     = RibbonManager_cover (Collaborators := Stub.collaborators) 1 1
                           (Executive.m_RibbonManager e1).
Proof.
  assert (H1 : 0 < 100) by reflexivity.
  assert (H2 : Qabs ((1 # 2) - 0)
               <= @c_CoverageHeadingRateMax Stub.constants * 100 / 2)
    by (vm_compute; discriminate).
  split; [exact H1|]. split; [exact H2|].
  exact (@updateCovered_gate_open_for_large_time_stamps Stub.constants
           Stub.collaborators Stub.executive 0 0 (5 # 2) (1 # 2) 100
           1 1 (5 # 2) 0 (100 + (1 # 10)) H1 H2).
Defined.

(** X11: the ribbons cleared under a running loop. *)
Lemma loop_finishes_when_ribbons_done_witness :
  let R := Stub.runtime Stub.plannerReturns 8 in
  let e := Executive.clearRibbons Stub.executive in
  Executive.m_PlannerState e <> Cancelled
  /\ RibbonManager_done (Executive.m_RibbonManager e) = true
  /\ Executive.loop (K := Stub.constants) (R := R) 1 e Stub.world
                    StubMore.fresh
     = Some (Executive.Returns
               (Executive.with_PlannerState Inactive e)
               (Executive.emit [Executive.Log "Finished covering ribbons";
                                Executive.AllDone]
                               (snd (Executive.readClock (R := R)
                                                         Stub.world)))).
Proof.
  intros R e.
  assert (H1 : Executive.m_PlannerState e <> Cancelled) by discriminate.
  assert (H2 : RibbonManager_done (Executive.m_RibbonManager e) = true)
    by reflexivity.
  split; [exact H1|]. split; [exact H2|].
  exact (@loop_finishes_when_ribbons_done Stub.constants Stub.collaborators
           R 0%nat e Stub.world StubMore.fresh H1 H2).
Defined.

(** X12: [terminate] between two passes. *)
Lemma terminate_stops_loop_witness :
  let R := Stub.runtime Stub.plannerReturns 8 in
  Executive.m_PlannerState Stub.executive = Running
  /\ Executive.loop (K := Stub.constants) (R := R) 3
                    (Executive.terminate Stub.executive) Stub.world
                    StubMore.locals
     = Some (Executive.Returns
               (Executive.with_PlannerState Inactive Stub.executive)
               (snd (Executive.readClock (R := R) Stub.world))).
Proof.
  intros R.
  assert (H : Executive.m_PlannerState Stub.executive = Running)
    by reflexivity.
  split; [exact H|].
  exact (@terminate_stops_loop Stub.constants Stub.collaborators R 2%nat
           Stub.executive Stub.world StubMore.locals H).
Defined.

(** X14: a staged map and a free lock. *)
Lemma prepare_takes_staged_map_witness :
  let R := Stub.runtime Stub.plannerReturns 8 in
  let e := Executive.with_NewMap (C := Stub.collaborators)
             (Some "staged"%string) Stub.executive in
  Executive.m_PlannerState e <> Cancelled
  /\ RibbonManager_done (Executive.m_RibbonManager e) = false
  /\ exists startTime e1 w1 s p,
       Executive.prepare (K := Stub.constants) (R := R) e Stub.world
                         StubMore.fresh
       = Executive.Plans startTime e1 w1 s p
       /\ Executive.m_NewMap e1 = None
       /\ map (Executive.m_PlannerConfig e1) = Some "staged"%string.
Proof.
  intros R e.
  assert (H1 : Executive.m_PlannerState e <> Cancelled) by discriminate.
  assert (H2 : RibbonManager_done (Executive.m_RibbonManager e) = false)
    by reflexivity.
  split; [exact H1|]. split; [exact H2|].
  destruct (@prepare_takes_staged_map Stub.constants Stub.collaborators R
              e Stub.world StubMore.fresh H1 H2)
    as (startTime & e1 & w1 & s & p & Hprep & Hmap).
  exists startTime, e1, w1, s, p. split; [exact Hprep|]. exact Hmap.
Defined.

(** X16: a planner that returns the empty plan. *)
Lemma empty_plan_pass_witness :
  let R := Stub.runtime StubMore.plannerReturnsEmpty 8 in
  Executive.plannerOutcome (K := Stub.constants) (R := R)
                           Stub.executive Stub.world StubMore.locals
  = Some (@Returned Stub.collaborators [])
  /\ exists e' w',
       Executive.iteration (K := Stub.constants) (R := R)
                           Stub.executive Stub.world StubMore.locals
       = Executive.Continue e' w' StubMore.fresh
       /\ Executive.m_PlannerState e' = Running.
Proof.
  intros R.
  assert (H : Executive.plannerOutcome (K := Stub.constants) (R := R)
                Stub.executive Stub.world StubMore.locals
              = Some (@Returned Stub.collaborators [])) by reflexivity.
  split; [exact H|].
  destruct (@empty_plan_pass Stub.constants Stub.collaborators R
              Stub.executive Stub.world StubMore.locals H)
    as (e' & w' & ms & Hit & _ & Hst & _).
  exists e', w'. split; [exact Hit|exact Hst].
Defined.

(** X17: the planner throws while the plan [1; 2] is in hand. *)
Lemma std_exception_republishes_previous_plan_witness :
  let R := Stub.runtime Stub.plannerThrowsStd 8 in
  (Executive.plannerOutcome (K := Stub.constants) (R := R)
                            Stub.executive Stub.world StubMore.locals
   = Some (@ThrowsStd Stub.collaborators "std::bad_alloc")
   /\ Executive.previousPlanArgument (K := Stub.constants) (R := R)
                                     Stub.executive Stub.world StubMore.locals
      = Some [1%nat; 2%nat]
   /\ DubinsPlan_empty (C := Stub.collaborators) [1%nat; 2%nat] = false)
  /\ exists e' w' l',
       Executive.iteration (K := Stub.constants) (R := R)
                           Stub.executive Stub.world StubMore.locals
       = Executive.Continue e' w' l'
       /\ In (Executive.PublishPlan (C := Stub.collaborators)
                                    [1%nat; 2%nat])
             (Executive.trace w').
Proof.
  intros R.
  assert (H1 : Executive.plannerOutcome (K := Stub.constants) (R := R)
                 Stub.executive Stub.world StubMore.locals
               = Some (@ThrowsStd Stub.collaborators "std::bad_alloc"))
    by reflexivity.
  assert (H2 : Executive.previousPlanArgument (K := Stub.constants) (R := R)
                 Stub.executive Stub.world StubMore.locals
               = Some [1%nat; 2%nat]) by reflexivity.
  assert (H3 : DubinsPlan_empty (C := Stub.collaborators) [1%nat; 2%nat]
               = false) by reflexivity.
  split; [auto|].
  destruct (@std_exception_republishes_previous_plan Stub.constants
              Stub.collaborators R Stub.executive Stub.world StubMore.locals
              "std::bad_alloc"%string [1%nat; 2%nat] H1 H2 H3)
    as (e' & w' & l' & before & after & Hit & Htr & Hin).
  exists e', w', l'. split; [exact Hit|].
  rewrite Htr. apply in_or_app. right. apply in_or_app. right.
  apply in_or_app. right. exact Hin.
Defined.

(** X18: an exception of unknown type in the first pass, then a
    restart. *)
Lemma restart_after_exception_gives_up_witness :
  let R := Stub.runtime Stub.plannerThrowsUnknown 8 in
  Executive.m_PlannerState Stub.executive = Running
  /\ exists e' w',
       Executive.loop (K := Stub.constants) (R := R) 1
                      Stub.executive Stub.world StubMore.fresh
       = Some (Executive.Throws e' w')
       /\ Executive.m_PlannerState e' = Cancelled
       /\ exists e2 w3,
            Executive.startPlanner (K := Stub.constants) (R := R)
                                   (F := StubMap.factory) 9 e' Stub.world
            = Some (Executive.Returns e2 w3)
            /\ Executive.m_PlannerState e2 = Cancelled
            /\ Executive.trace w3
               = Executive.trace Stub.world
                 ++ [Executive.Log "Initializing planner";
                     Executive.Log Executive.timedOutMessage].
Proof.
  intros R.
  assert (H : Executive.m_PlannerState Stub.executive = Running)
    by reflexivity.
  split; [exact H|].
  destruct (Executive.loop (K := Stub.constants) (R := R) 1
                           Stub.executive Stub.world StubMore.fresh)
    as [[e' w'|e' w']|] eqn:E;
    [vm_compute in E; discriminate E| |vm_compute in E; discriminate E].
  exists e', w'. split; [reflexivity|].
  destruct (@restart_after_exception_gives_up Stub.constants
              Stub.collaborators R StubMap.factory 1%nat Stub.executive
              Stub.world StubMore.fresh e' w' H E) as [Hc Hrestart].
  split; [exact Hc|].
  destruct (Hrestart 9%nat Stub.world) as (e2 & w3 & Hs & Hst & Htrace).
  exists e2, w3. split; [exact Hs|]. split; assumption.
Defined.

(** X21: the goal vertex of cost 3 alone in the queue, a best vertex of
    cost 20 in hand, deadline far away: the goal vertex is returned and
    the best vertex is left for the caller to replace. *)
Lemma aStar_returns_improving_goal_witness :
  AStarPlanner.aStar (P := Stub.plannerParts) 3 200 StubMore.contested
  = AStarPlanner.Ok (Some StubMore.goal, StubMore.settled)
  /\ AStarPlanner.m_BestVertex StubMore.contested = Some StubMore.rival
  /\ AStarPlanner.m_BestVertex StubMore.settled = Some StubMore.rival
  /\ goalCondition (PlannerParts := Stub.plannerParts) StubMore.goal = true
  /\ Vertex_f (PlannerParts := Stub.plannerParts) StubMore.goal
     < Vertex_f (PlannerParts := Stub.plannerParts) StubMore.rival.
Proof.
  assert (E : AStarPlanner.aStar (P := Stub.plannerParts) 3 200
                                 StubMore.contested
              = AStarPlanner.Ok (Some StubMore.goal, StubMore.settled))
    by (vm_compute; reflexivity).
  split; [exact E|]. split; [reflexivity|].
  destruct (@aStar_returns_improving_goal Stub.collaborators
              Stub.plannerParts 3%nat 200 StubMore.contested
              (Some StubMore.goal) StubMore.settled E)
    as (Hb & _ & _ & _ & Hg & Hf).
  split; [exact Hb|]. split; [exact Hg|exact Hf].
Defined.

(** X22: the big loop of a one-second call, entered with a best vertex
    of cost 20 that the root's estimate of 10 does not vouch for: the
    search replaces it by a goal vertex of cost 3. *)
Lemma bigLoop_best_only_improves_witness :
  AStarPlanner.bigLoop (P := Stub.plannerParts) 5
                       (fst StubMore.entered) StubMore.rivalled
  = AStarPlanner.Ok StubMore.improved
  /\ AStarPlanner.m_BestVertex StubMore.rivalled = Some StubMore.rival
  /\ bestIsGoal (P := Stub.plannerParts) StubMore.rivalled
  /\ bestNoWorse (P := Stub.plannerParts) StubMore.rivalled
                 StubMore.improved
  /\ bestIsGoal (P := Stub.plannerParts) StubMore.improved.
Proof.
  assert (E : AStarPlanner.bigLoop (P := Stub.plannerParts) 5
                (fst StubMore.entered) StubMore.rivalled
              = AStarPlanner.Ok StubMore.improved)
    by (vm_compute; reflexivity).
  assert (H : bestIsGoal (P := Stub.plannerParts) StubMore.rivalled)
    by reflexivity.
  split; [exact E|]. split; [reflexivity|]. split; [exact H|].
  destruct (@bigLoop_best_only_improves Stub.collaborators Stub.plannerParts
              5%nat (fst StubMore.entered) StubMore.rivalled
              StubMore.improved E) as [Hn Hg].
  split; [exact Hn|exact (Hg H)].
Defined.

(** The best vertex that run ends with is not the one it started with:
    its cost is 3. *)
Example bigLoop_improves_example :
  match AStarPlanner.m_BestVertex StubMore.improved with
  | Some best =>
      Vertex_f (PlannerParts := Stub.plannerParts) best == 3
      /\ AStarPlanner.m_IterationCount StubMore.improved = 1%nat
  | None => False
  end.
Proof. vm_compute. split; reflexivity. Qed.

Lemma call_returned :
  AStarPlanner.plan (P := Stub.plannerParts) 5 Stub.ribbons Stub.start
                    Stub.config [1%nat; 2%nat] 1 Stub.planner
  = AStarPlanner.Ok (fst StubMore.returned, snd StubMore.returned).
Proof. vm_compute. reflexivity. Qed.

(** X23: a one-second call with the previous plan [1; 2]. *)
Lemma plan_reaches_goal_or_is_empty_witness :
  AStarPlanner.plan (P := Stub.plannerParts) 5 Stub.ribbons Stub.start
                    Stub.config [1%nat; 2%nat] 1 Stub.planner
  = AStarPlanner.Ok (fst StubMore.returned, snd StubMore.returned)
  /\ match AStarPlanner.m_BestVertex (snd StubMore.returned) with
     | None => fst StubMore.returned = []
     | Some best =>
         goalCondition (PlannerParts := Stub.plannerParts) best = true
         /\ fst StubMore.returned
            = tracePlan (PlannerParts := Stub.plannerParts) best false
                (obstacles (AStarPlanner.m_Config (snd StubMore.returned)))
     end.
Proof.
  split; [exact call_returned|].
  exact (@plan_reaches_goal_or_is_empty Stub.collaborators Stub.plannerParts
           5%nat Stub.ribbons Stub.start Stub.config [1%nat; 2%nat] 1
           Stub.planner (fst StubMore.returned) (snd StubMore.returned)
           call_returned).
Defined.

(** X24: no time given. *)
Lemma plan_without_time_witness :
  0 + nowFn (PlannerParts := Stub.plannerParts)
        (AStarPlanner.readings Stub.planner)
  <= nowFn (PlannerParts := Stub.plannerParts)
           (S (AStarPlanner.readings Stub.planner))
  /\ exists p',
       AStarPlanner.plan (P := Stub.plannerParts) 1 Stub.ribbons Stub.start
                         Stub.config [1%nat; 2%nat] 0 Stub.planner
       = AStarPlanner.Ok ([], p')
       /\ AStarPlanner.m_BestVertex p' = None
       /\ AStarPlanner.readings p' = 2%nat.
Proof.
  assert (H : 0 + nowFn (PlannerParts := Stub.plannerParts)
                    (AStarPlanner.readings Stub.planner)
              <= nowFn (PlannerParts := Stub.plannerParts)
                       (S (AStarPlanner.readings Stub.planner)))
    by (vm_compute; discriminate).
  split; [exact H|].
  destruct (@plan_without_time Stub.collaborators Stub.plannerParts 0%nat
              Stub.ribbons Stub.start Stub.config [1%nat; 2%nat] 0
              Stub.planner H) as (p' & Hplan & Hb & _ & _ & _ & Hr & _).
  exists p'. split; [exact Hplan|]. split; [exact Hb|exact Hr].
Defined.

(** X25: one second on the quarter-second clock, late from the fourth
    reading on: at most six readings. *)
Lemma plan_polls_bounded_witness :
  ((forall n, (4 <= n)%nat ->
      1 + nowFn (PlannerParts := Stub.plannerParts)
            (AStarPlanner.readings Stub.planner)
      <= nowFn (PlannerParts := Stub.plannerParts) n)
   /\ AStarPlanner.plan (P := Stub.plannerParts) 5 Stub.ribbons Stub.start
                        Stub.config [1%nat; 2%nat] 1 Stub.planner
      = AStarPlanner.Ok (fst StubMore.returned, snd StubMore.returned))
  /\ (AStarPlanner.readings (snd StubMore.returned)
      <= Nat.max (AStarPlanner.readings Stub.planner + 2) (4 + 2))%nat.
Proof.
  split; [split; [exact quarters_reach_101|exact call_returned]|].
  exact (@plan_polls_bounded Stub.collaborators Stub.plannerParts 4%nat 5%nat
           Stub.ribbons Stub.start Stub.config [1%nat; 2%nat] 1
           Stub.planner (fst StubMore.returned) (snd StubMore.returned)
           quarters_reach_101 call_returned).
Defined.

(** X26: the counts of the same call. *)
Lemma plan_reports_true_counts_witness :
  AStarPlanner.plan (P := Stub.plannerParts) 5 Stub.ribbons Stub.start
                    Stub.config [1%nat; 2%nat] 1 Stub.planner
  = AStarPlanner.Ok (fst StubMore.returned, snd StubMore.returned)
  /\ countCalls isAStar (AStarPlanner.calls (snd StubMore.returned))
     = (countCalls isAStar (AStarPlanner.calls Stub.planner)
        + AStarPlanner.m_IterationCount (snd StubMore.returned))%nat
  /\ countCalls isExpand (AStarPlanner.calls (snd StubMore.returned))
     = (countCalls isExpand (AStarPlanner.calls Stub.planner)
        + AStarPlanner.m_ExpandedCount (snd StubMore.returned))%nat.
Proof.
  split; [exact call_returned|].
  destruct (@plan_reports_true_counts Stub.collaborators Stub.plannerParts
              5%nat Stub.ribbons Stub.start Stub.config [1%nat; 2%nat] 1
              Stub.planner (fst StubMore.returned) (snd StubMore.returned)
              call_returned) as (Ha & He & _).
  split; assumption.
Defined.

(** X28: a new planner object and a used one, both at reading 0. *)
Lemma plan_forgets_earlier_calls_witness :
  AStarPlanner.readings Stub.planner = AStarPlanner.readings StubMore.used
  /\ outcomeOf (AStarPlanner.plan (P := Stub.plannerParts) 5 Stub.ribbons
                  Stub.start Stub.config [1%nat; 2%nat] 1 Stub.planner)
     = outcomeOf (AStarPlanner.plan (P := Stub.plannerParts) 5 Stub.ribbons
                    Stub.start Stub.config [1%nat; 2%nat] 1 StubMore.used).
Proof.
  assert (H : AStarPlanner.readings Stub.planner
              = AStarPlanner.readings StubMore.used) by reflexivity.
  split; [exact H|].
  exact (@plan_forgets_earlier_calls Stub.collaborators Stub.plannerParts
           5%nat Stub.ribbons Stub.start Stub.config [1%nat; 2%nat] 1
           Stub.planner StubMore.used H).
Defined.
